(** * vibesdk: projects, MCP servers and document attachments

    A shallow embedding of the data-access services
    ([ProjectsService], [MCPServersService]), of the controllers that sit
    on top of them ([ProjectsController], [MCPServersController]) and of
    the [useDocumentUpload] hook, followed by the properties of the
    specification that concern them.

    Conventions.
    - A JavaScript string is a [string]; its characters stand for the
      code units below 256, so [String.length] is [.length].
    - A [Date] and a millisecond count are integers ([Z]).
    - A column declared without [NOT NULL] is an [option]; [None] is SQL
      [NULL] (JavaScript [null]).  An optional property of a payload is an
      [option] too; there [None] is [undefined].
    - A table is the list of its rows, in storage order.  A query
      without [orderBy] returns its rows in an order the engine chooses:
      the list that models its answer stands for any rearrangement of
      itself, and what is proved of it does not depend on the order.
    - The keys of the migration are part of the storage layer: primary
      keys, the unique index of [project_apps], the cascade from
      [projects] to [project_apps] and the reference from
      [mcp_servers.auth_secret_id] to [user_secrets].  A user identifier
      is that of an authenticated caller, a row of [users], a table the
      code modelled here never writes. *)

From Stdlib Require Import List String Ascii ZArith Bool Arith Lia.
From Stdlib Require Import DecimalString.
From Stdlib Require Import Sorted Permutation.
Import ListNotations.

Open Scope string_scope.
Open Scope Z_scope.

Set Implicit Arguments.

(* ================================================================== *)
(** * JavaScript string primitives *)
(* ================================================================== *)

Module JS.

(** [WhiteSpace] and [LineTerminator] code units below 256: TAB, LF, VT,
    FF, CR, SP and NBSP.  These are what [String.prototype.trim]
    removes. *)
Definition isWhiteSpace (c : ascii) : bool :=
  let n := nat_of_ascii c in
  (Nat.eqb n 9 || Nat.eqb n 10 || Nat.eqb n 11 || Nat.eqb n 12
   || Nat.eqb n 13 || Nat.eqb n 32 || Nat.eqb n 160)%bool.

Fixpoint trimStart (s : string) : string :=
  match s with
  | EmptyString => EmptyString
  | String c rest => if isWhiteSpace c then trimStart rest else s
  end.

(** Dropping the white space at the end: a character is kept when it is
    not white space or when something is kept after it. *)
Fixpoint trimEnd (s : string) : string :=
  match s with
  | EmptyString => EmptyString
  | String c rest =>
      match trimEnd rest with
      | EmptyString => if isWhiteSpace c then EmptyString
                       else String c EmptyString
      | kept => String c kept
      end
  end.

(** [s.trim()] *)
Definition trim (s : string) : string := trimEnd (trimStart s).

(** Truthiness of a string: the empty string is falsy. *)
Definition truthy (s : string) : bool :=
  match s with EmptyString => false | _ => true end.

(** [s.endsWith(suffix)] *)
Definition endsWith (s suffix : string) : bool :=
  (Nat.leb (String.length suffix) (String.length s)
   && String.eqb
        (substring (String.length s - String.length suffix)
                   (String.length suffix) s)
        suffix)%bool.

(** [s.replace(/\/$/, '')]: the pattern is tried at each position from
    the left; it matches a slash that is followed by the end of the
    input, and the first match is replaced by the empty string. *)
Fixpoint replaceTrailingSlash (s : string) : string :=
  match s with
  | EmptyString => EmptyString
  | String c rest =>
      match rest with
      | EmptyString => if Ascii.eqb c "/" then EmptyString else s
      | _ => String c (replaceTrailingSlash rest)
      end
  end.

(** [s.substring(0, n)]: a negative [n] counts as 0 and an [n] beyond the
    end as the length. *)
Definition substring0 (n : Z) (s : string) : string :=
  substring 0 (Z.to_nat n) s.

(** Number of occurrences of a character. *)
Fixpoint countChar (c : ascii) (s : string) : nat :=
  match s with
  | EmptyString => O
  | String d rest =>
      ((if Ascii.eqb c d then 1 else 0) + countChar c rest)%nat
  end.

(** [s.split('\n').length] *)
Definition splitLinesLength (s : string) : nat :=
  S (countChar "010"%char s).

(** [s.toLowerCase()]: the letters A-Z and, among the code units above
    127, the capitals from 192 to 222 (215, the multiplication sign, is
    not a letter) move 32 places up. *)
Definition lowerChar (c : ascii) : ascii :=
  let n := nat_of_ascii c in
  if ((Nat.leb 65 n && Nat.leb n 90)
      || (Nat.leb 192 n && Nat.leb n 222 && negb (Nat.eqb n 215)))%bool
  then ascii_of_nat (n + 32) else c.

Fixpoint toLowerCase (s : string) : string :=
  match s with
  | EmptyString => EmptyString
  | String c rest => String (lowerChar c) (toLowerCase rest)
  end.

Fixpoint noDot (s : string) : bool :=
  match s with
  | EmptyString => true
  | String c rest => (negb (Ascii.eqb c ".") && noDot rest)%bool
  end.

(** [s.match(/\.[^.]+$/)?.[0]]: the leftmost position holding a dot that
    is followed, up to the end of the input, by one or more characters
    none of which is a dot.  [None] is [undefined]. *)
Fixpoint matchExtension (s : string) : option string :=
  match s with
  | EmptyString => None
  | String c rest =>
      if (Ascii.eqb c "." && truthy rest && noDot rest)%bool
      then Some s
      else matchExtension rest
  end.

(** Decimal rendering of an integer, as a template literal renders an
    integral number. *)
Definition numberToString (n : Z) : string :=
  NilZero.string_of_int (Z.to_int n).

End JS.

(* ================================================================== *)
(** * The relational schema *)
(* ================================================================== *)

Module Schema.

Inductive ProjectStatus := active | archived | draft.
Inductive Transport := http | sse | stdio.
Inductive AuthType := none | bearer | api_key.
Inductive ServerStatus := connected | disconnected | error | unknown.

(** Table [projects]. *)
Record Project := mkProject {
  project_id : string;
  project_userId : string;
  project_name : string;
  project_description : option string;
  project_status : ProjectStatus;
  project_createdAt : option Z;
  project_updatedAt : option Z
}.

(** Table [project_apps], the junction between projects and apps. *)
Record ProjectApp := mkProjectApp {
  pa_id : string;
  pa_projectId : string;
  pa_appId : string;
  pa_addedAt : option Z
}.

(** Table [apps].  The services read only [id] and [userId]; the other
    columns travel together in [app_columns]. *)
Record App := mkApp {
  app_id : string;
  app_userId : string;
  app_columns : string
}.

(** Table [mcp_servers]. *)
Record MCPServer := mkMCPServer {
  mcp_id : string;
  mcp_userId : string;
  mcp_name : string;
  mcp_url : string;
  mcp_transport : Transport;
  mcp_authType : AuthType;
  mcp_authSecretId : option string;
  mcp_enabled : option bool;
  mcp_status : ServerStatus;
  mcp_lastChecked : option Z;
  mcp_lastError : option string;
  mcp_description : option string;
  mcp_createdAt : option Z;
  mcp_updatedAt : option Z
}.

(** The tables of the migration, and of the table [user_secrets] the
    column [id], which is all the migration refers to (in the foreign key
    of [mcp_servers.auth_secret_id]). *)
Record Db := mkDb {
  projects : list Project;
  projectApps : list ProjectApp;
  apps : list App;
  mcpServers : list MCPServer;
  userSecrets : list string
}.

Definition with_projects (l : list Project) (d : Db) : Db :=
  mkDb l (projectApps d) (apps d) (mcpServers d) (userSecrets d).
Definition with_projectApps (l : list ProjectApp) (d : Db) : Db :=
  mkDb (projects d) l (apps d) (mcpServers d) (userSecrets d).
Definition with_mcpServers (l : list MCPServer) (d : Db) : Db :=
  mkDb (projects d) (projectApps d) (apps d) l (userSecrets d).

(** The constraints the migration declares: the primary keys and the
    unique index [project_apps_project_app_idx]. *)
Record wellFormed (d : Db) : Prop := mkWellFormed {
  wf_projects_pk : NoDup (map project_id (projects d));
  wf_projectApps_pk : NoDup (map pa_id (projectApps d));
  wf_projectApps_unique :
    NoDup (map (fun pa => (pa_projectId pa, pa_appId pa)) (projectApps d));
  wf_apps_pk : NoDup (map app_id (apps d));
  wf_mcpServers_pk : NoDup (map mcp_id (mcpServers d))
}.

End Schema.

(* ================================================================== *)
(** * The storage layer and the effects of a service call *)
(* ================================================================== *)

Module Storage.
Import Schema.

(** What a statement can raise. *)
Inductive DbError :=
| PrimaryKeyViolation (table : string)
| UniqueViolation (index : string)
| ForeignKeyViolation (table : string).

Inductive Outcome (A : Type) :=
| Ok (a : A)
| Throw (e : DbError).
Arguments Ok {A} a.
Arguments Throw {A} e.

(** Everything a call reads or writes besides its arguments: the
    database, the identifiers [generateId()] returns and the instants
    [new Date()] and [Date.now()] return, with how many of each were
    consumed so far. *)
Record World := mkWorld {
  db : Db;
  idSupply : nat -> string;
  idsDrawn : nat;
  clock : nat -> Z;
  clockReads : nat
}.

Definition with_db (d : Db) (w : World) : World :=
  mkWorld d (idSupply w) (idsDrawn w) (clock w) (clockReads w).

(** State and exceptions; the state survives a [Throw]. *)
Definition M (A : Type) : Type := World -> Outcome A * World.

Definition ret {A} (a : A) : M A := fun w => (Ok a, w).

Definition bind {A B} (m : M A) (k : A -> M B) : M B :=
  fun w =>
    match m w with
    | (Ok a, w') => k a w'
    | (Throw e, w') => (Throw e, w')
    end.

Definition throw {A} (e : DbError) : M A := fun w => (Throw e, w).

Definition generateId : M string :=
  fun w => (Ok (idSupply w (idsDrawn w)),
            mkWorld (db w) (idSupply w) (S (idsDrawn w))
                    (clock w) (clockReads w)).

(** [new Date()] and [Date.now()] *)
Definition newDate : M Z :=
  fun w => (Ok (clock w (clockReads w)),
            mkWorld (db w) (idSupply w) (idsDrawn w)
                    (clock w) (S (clockReads w))).

Definition getDb : M Db := fun w => (Ok (db w), w).
Definition modifyDb (f : Db -> Db) : M unit :=
  fun w => (Ok tt, with_db (f (db w)) w).

End Storage.

Declare Scope svc_scope.
Delimit Scope svc_scope with svc.
Notation "x <- m ;; k" := (Storage.bind m (fun x => k))
  (at level 61, m at next level, right associativity) : svc_scope.
Notation "m ;;; k" := (Storage.bind m (fun _ => k))
  (at level 61, right associativity) : svc_scope.

Module Drizzle.
Import Schema Storage.
Local Open Scope svc_scope.

(** [select().from(t).where(c)] *)
Definition select {R} (table : Db -> list R) (cond : R -> bool)
  : M (list R) :=
  d <- getDb ;; ret (filter cond (table d)).

(** [.limit(1)] followed by the destructuring [const [row] = ...];
    [None] is [undefined]. *)
Definition first {R} (rows : list R) : option R := hd_error (firstn 1 rows).

(** [select({ count: count() }).from(t).where(c)] and then
    [countResult?.count ?? 0]. *)
Definition selectCount {R} (table : Db -> list R) (cond : R -> bool)
  : M Z :=
  d <- getDb ;; ret (Z.of_nat (List.length (filter cond (table d)))).

Definition insertProject (p : Project) : M unit :=
  d <- getDb ;;
  if existsb (fun q => String.eqb (project_id q) (project_id p)) (projects d)
  then throw (PrimaryKeyViolation "projects")
  else modifyDb (with_projects (projects d ++ [p])).

Definition insertProjectApp (pa : ProjectApp) : M unit :=
  d <- getDb ;;
  if existsb (fun q => String.eqb (pa_id q) (pa_id pa)) (projectApps d)
  then throw (PrimaryKeyViolation "project_apps")
  else if existsb (fun q => (String.eqb (pa_projectId q) (pa_projectId pa)
                             && String.eqb (pa_appId q) (pa_appId pa))%bool)
                  (projectApps d)
  then throw (UniqueViolation "project_apps_project_app_idx")
  else modifyDb (with_projectApps (projectApps d ++ [pa])).

(** The foreign key [FOREIGN KEY (auth_secret_id) REFERENCES
    user_secrets(id)]: a value written to the column has to be [NULL] or
    the [id] of a stored secret. *)
Definition secretExists (d : Db) (authSecretId : option string) : bool :=
  match authSecretId with
  | None => true
  | Some k => existsb (String.eqb k) (userSecrets d)
  end.

Definition insertMcpServer (s : MCPServer) : M unit :=
  d <- getDb ;;
  if existsb (fun q => String.eqb (mcp_id q) (mcp_id s)) (mcpServers d)
  then throw (PrimaryKeyViolation "mcp_servers")
  else if negb (secretExists d (mcp_authSecretId s))
  then throw (ForeignKeyViolation "mcp_servers")
  else modifyDb (with_mcpServers (mcpServers d ++ [s])).

(** [update(t).set(f).where(c)] *)
Definition updateWhere {R} (cond : R -> bool) (f : R -> R) (rows : list R)
  : list R :=
  map (fun r => if cond r then f r else r) rows.

Definition updateProjects (cond : Project -> bool) (f : Project -> Project)
  : M unit :=
  modifyDb (fun d => with_projects (updateWhere cond f (projects d)) d).

(** [update(mcpServers).set(f).where(c)].  [authSecretId] is what the
    set object holds for the column [auth_secret_id], [None] when it does
    not hold the column.  The engine checks the foreign key of the column
    only in a statement that writes it, on the rows the statement
    writes; a statement that fails writes nothing. *)
Definition updateMcpServers (cond : MCPServer -> bool)
           (authSecretId : option (option string))
           (f : MCPServer -> MCPServer) : M unit :=
  d <- getDb ;;
  match authSecretId with
  | Some written =>
      if (existsb cond (mcpServers d) && negb (secretExists d written))%bool
      then throw (ForeignKeyViolation "mcp_servers")
      else modifyDb (with_mcpServers (updateWhere cond f (mcpServers d)))
  | None => modifyDb (with_mcpServers (updateWhere cond f (mcpServers d)))
  end.

(** [delete(t).where(c)] *)
Definition deleteWhere {R} (cond : R -> bool) (rows : list R) : list R :=
  filter (fun r => negb (cond r)) rows.

(** Deleting projects takes along, through the foreign key
    [project_apps.project_id ... ON DELETE cascade], the links of the
    deleted projects. *)
Definition deleteProjects (cond : Project -> bool) : M unit :=
  modifyDb (fun d =>
    let gone := map project_id (filter cond (projects d)) in
    mkDb (deleteWhere cond (projects d))
         (deleteWhere
            (fun pa => existsb (String.eqb (pa_projectId pa)) gone)
            (projectApps d))
         (apps d) (mcpServers d) (userSecrets d)).

(** [from(l).innerJoin(r, on)]: the pairs of a left and a right row that
    satisfy [on]. *)
Definition innerJoin {A B} (l : list A) (r : list B) (on : A -> B -> bool)
  : list (A * B) :=
  flat_map (fun a => map (pair a) (filter (on a) r)) l.

Definition deleteProjectApps (cond : ProjectApp -> bool) : M unit :=
  modifyDb (fun d => with_projectApps (deleteWhere cond (projectApps d)) d).

Definition deleteMcpServers (cond : MCPServer -> bool) : M unit :=
  modifyDb (fun d => with_mcpServers (deleteWhere cond (mcpServers d)) d).

(** Comparison of two nullable timestamps, [NULL] being smaller than
    every value, as the storage engine orders them. *)
Definition timestampLeb (a b : option Z) : bool :=
  match a, b with
  | None, _ => true
  | Some _, None => false
  | Some x, Some y => x <=? y
  end.

(** [.orderBy(desc(column))]: the rows by decreasing value of the column.
    Rows with equal values stay in storage order. *)
Fixpoint insertDesc {R} (column : R -> option Z) (row : R) (sorted : list R)
  : list R :=
  match sorted with
  | [] => [row]
  | r :: rest =>
      if timestampLeb (column r) (column row)
      then row :: r :: rest
      else r :: insertDesc column row rest
  end.

Fixpoint orderByDesc {R} (column : R -> option Z) (rows : list R) : list R :=
  match rows with
  | [] => []
  | r :: rest => insertDesc column r (orderByDesc column rest)
  end.

(** [for (const x of xs) { out.push(await f(x)) }] *)
Fixpoint forEach {A B} (xs : list A) (f : A -> M B) : M (list B) :=
  match xs with
  | [] => ret []
  | x :: rest =>
      y <- f x ;;
      ys <- forEach rest f ;;
      ret (y :: ys)
  end.

End Drizzle.

(* ================================================================== *)
(** * ProjectsService *)
(* ================================================================== *)

Module ProjectsService.
Import Schema Storage Drizzle.
Local Open Scope svc_scope.

Record ProjectWithAppCount := mkProjectWithAppCount {
  pwc_project : Project;
  appCount : Z
}.

(** The payload of [createProject]. *)
Record CreateData := mkCreateData {
  create_name : string;
  create_description : option string
}.

(** The payload of [updateProject]; [None] is an absent property. *)
Record UpdateData := mkUpdateData {
  data_name : option string;
  data_description : option string;
  data_status : option ProjectStatus
}.

(** The object handed to [.set(...)]: a column is written exactly when
    its property is present. *)
Record ProjectSet := mkProjectSet {
  set_name : option string;
  set_description : option (option string);
  set_status : option ProjectStatus;
  set_updatedAt : option (option Z)
}.

Definition orKeep {A} (v : option A) (old : A) : A :=
  match v with Some x => x | None => old end.

Definition applySet (s : ProjectSet) (p : Project) : Project :=
  mkProject (project_id p) (project_userId p)
            (orKeep (set_name s) (project_name p))
            (orKeep (set_description s) (project_description p))
            (orKeep (set_status s) (project_status p))
            (project_createdAt p)
            (orKeep (set_updatedAt s) (project_updatedAt p)).

(** The ownership-scoped condition
    [and(eq(projects.id, projectId), eq(projects.userId, userId))]. *)
Definition ownedProject (userId projectId : string) (p : Project) : bool :=
  (String.eqb (project_id p) projectId
   && String.eqb (project_userId p) userId)%bool.

Definition projectIs (projectId : string) (p : Project) : bool :=
  String.eqb (project_id p) projectId.

Definition ownedApp (userId appId : string) (a : App) : bool :=
  (String.eqb (app_id a) appId && String.eqb (app_userId a) userId)%bool.

Definition linkIs (projectId appId : string) (pa : ProjectApp) : bool :=
  (String.eqb (pa_projectId pa) projectId
   && String.eqb (pa_appId pa) appId)%bool.

Definition linkOf (projectId : string) (pa : ProjectApp) : bool :=
  String.eqb (pa_projectId pa) projectId.

Definition createProject (userId : string) (data : CreateData)
  : M (option Project) :=
  id <- generateId ;;
  createdAt <- newDate ;;
  updatedAt <- newDate ;;
  let newProject :=
    mkProject id userId (create_name data) (create_description data)
              draft (Some createdAt) (Some updatedAt) in
  insertProject newProject ;;;
  rows <- select projects (projectIs (project_id newProject)) ;;
  ret (first rows).

Definition getProject (userId projectId : string)
  : M (option ProjectWithAppCount) :=
  rows <- select projects (ownedProject userId projectId) ;;
  match first rows with
  | None => ret None
  | Some project =>
      n <- selectCount projectApps (linkOf projectId) ;;
      ret (Some (mkProjectWithAppCount project n))
  end.

Definition updateProject (userId projectId : string) (data : UpdateData)
  : M (option Project) :=
  rows <- select projects (ownedProject userId projectId) ;;
  match first rows with
  | None => ret None
  | Some _ =>
      now <- newDate ;;
      updateProjects (projectIs projectId)
        (applySet (mkProjectSet (data_name data)
                                (option_map Some (data_description data))
                                (data_status data)
                                (Some (Some now)))) ;;;
      updated <- select projects (projectIs projectId) ;;
      ret (first updated)
  end.

Definition deleteProject (userId projectId : string) : M bool :=
  rows <- select projects (ownedProject userId projectId) ;;
  match first rows with
  | None => ret false
  | Some _ =>
      deleteProjects (projectIs projectId) ;;;
      ret true
  end.

Definition addAppToProject (userId projectId appId : string) : M bool :=
  rows <- select projects (ownedProject userId projectId) ;;
  match first rows with
  | None => ret false
  | Some _ =>
      owned <- select apps (ownedApp userId appId) ;;
      match first owned with
      | None => ret false
      | Some _ =>
          links <- select projectApps (linkIs projectId appId) ;;
          match first links with
          | Some _ => ret true
          | None =>
              id <- generateId ;;
              addedAt <- newDate ;;
              insertProjectApp
                (mkProjectApp id projectId appId (Some addedAt)) ;;;
              ret true
          end
      end
  end.

Definition removeAppFromProject (userId projectId appId : string)
  : M bool :=
  rows <- select projects (ownedProject userId projectId) ;;
  match first rows with
  | None => ret false
  | Some _ =>
      deleteProjectApps (linkIs projectId appId) ;;;
      ret true
  end.

(** [from(projectApps).innerJoin(apps, eq(projectApps.appId, apps.id))
    .where(eq(projectApps.projectId, projectId))] with the selection
    [{ app: schema.apps }], then [.map((pa) => pa.app)].  The query has
    no [orderBy], so the engine is free in the order of the rows: the
    list below holds the rows of the answer, in the order of the link
    rows, and stands for any rearrangement of itself. *)
Definition getProjectApps (userId projectId : string) : M (list App) :=
  rows <- select projects (ownedProject userId projectId) ;;
  match first rows with
  | None => ret []
  | Some _ =>
      d <- getDb ;;
      let joined :=
        innerJoin (projectApps d) (apps d)
                  (fun pa a => String.eqb (pa_appId pa) (app_id a)) in
      let projectApps := filter (fun row => linkOf projectId (fst row)) joined in
      ret (map snd projectApps)
  end.

(** [addAppToProject] called [n] times in a row with the same arguments;
    the answers are collected in call order.  A call that throws ends the
    sequence. *)
Fixpoint addAppToProjectTimes (n : nat) (userId projectId appId : string)
  : M (list bool) :=
  match n with
  | O => ret []
  | S k =>
      r <- addAppToProject userId projectId appId ;;
      rs <- addAppToProjectTimes k userId projectId appId ;;
      ret (r :: rs)
  end.

Definition getUserProjects (userId : string)
  : M (list ProjectWithAppCount) :=
  rows <- select projects (fun p => String.eqb (project_userId p) userId) ;;
  let projects := orderByDesc project_updatedAt rows in
  forEach projects
    (fun project =>
       n <- selectCount projectApps (linkOf (project_id project)) ;;
       ret (mkProjectWithAppCount project n)).

End ProjectsService.

(* ================================================================== *)
(** * MCPServersService *)
(* ================================================================== *)

Module MCPServersService.
Import Schema Storage Drizzle.
Local Open Scope svc_scope.

(** [MCPServerInput]; [None] is an absent property, [Some None] an
    explicit [null]. *)
Record MCPServerInput := mkMCPServerInput {
  input_name : string;
  input_url : string;
  input_transport : option Transport;
  input_authType : option AuthType;
  input_authSecretId : option (option string);
  input_description : option (option string);
  input_enabled : option bool
}.

(** [Partial<MCPServerInput>] *)
Record PartialInput := mkPartialInput {
  data_name : option string;
  data_url : option string;
  data_transport : option Transport;
  data_authType : option AuthType;
  data_authSecretId : option (option string);
  data_description : option (option string);
  data_enabled : option bool
}.

(** The object handed to [.set(...)]. *)
Record ServerSet := mkServerSet {
  set_name : option string;
  set_url : option string;
  set_transport : option Transport;
  set_authType : option AuthType;
  set_authSecretId : option (option string);
  set_description : option (option string);
  set_enabled : option (option bool);
  set_status : option ServerStatus;
  set_lastChecked : option (option Z);
  set_lastError : option (option string);
  set_updatedAt : option (option Z)
}.

Definition orKeep {A} (v : option A) (old : A) : A :=
  match v with Some x => x | None => old end.

Definition applySet (s : ServerSet) (r : MCPServer) : MCPServer :=
  mkMCPServer (mcp_id r) (mcp_userId r)
              (orKeep (set_name s) (mcp_name r))
              (orKeep (set_url s) (mcp_url r))
              (orKeep (set_transport s) (mcp_transport r))
              (orKeep (set_authType s) (mcp_authType r))
              (orKeep (set_authSecretId s) (mcp_authSecretId r))
              (orKeep (set_enabled s) (mcp_enabled r))
              (orKeep (set_status s) (mcp_status r))
              (orKeep (set_lastChecked s) (mcp_lastChecked r))
              (orKeep (set_lastError s) (mcp_lastError r))
              (orKeep (set_description s) (mcp_description r))
              (mcp_createdAt r)
              (orKeep (set_updatedAt s) (mcp_updatedAt r)).

(** [a ?? b] *)
Definition nullish {A} (a : option A) (b : A) : A :=
  match a with Some x => x | None => b end.

(** [a ?? null] where [a] may be absent or [null]. *)
Definition orNull {A} (a : option (option A)) : option A :=
  match a with Some x => x | None => None end.

(** [!v] for a nullable boolean: [null] is falsy. *)
Definition not (v : option bool) : bool :=
  match v with Some true => false | _ => true end.

Definition ownedServer (userId serverId : string) (s : MCPServer) : bool :=
  (String.eqb (mcp_id s) serverId && String.eqb (mcp_userId s) userId)%bool.

Definition serverIs (serverId : string) (s : MCPServer) : bool :=
  String.eqb (mcp_id s) serverId.

Definition createServer (userId : string) (data : MCPServerInput)
  : M (option MCPServer) :=
  id <- generateId ;;
  createdAt <- newDate ;;
  updatedAt <- newDate ;;
  let newServer :=
    mkMCPServer id userId (input_name data) (input_url data)
                (nullish (input_transport data) http)
                (nullish (input_authType data) none)
                (orNull (input_authSecretId data))
                (Some (nullish (input_enabled data) true))
                unknown None None
                (orNull (input_description data))
                (Some createdAt) (Some updatedAt) in
  insertMcpServer newServer ;;;
  rows <- select mcpServers (serverIs (mcp_id newServer)) ;;
  ret (first rows).

Definition getServer (userId serverId : string) : M (option MCPServer) :=
  rows <- select mcpServers (ownedServer userId serverId) ;;
  ret (first rows).

Definition updateServer (userId serverId : string) (data : PartialInput)
  : M (option MCPServer) :=
  rows <- select mcpServers (ownedServer userId serverId) ;;
  match first rows with
  | None => ret None
  | Some _ =>
      now <- newDate ;;
      updateMcpServers (serverIs serverId) (data_authSecretId data)
        (applySet
           (mkServerSet (data_name data) (data_url data)
                        (data_transport data) (data_authType data)
                        (data_authSecretId data) (data_description data)
                        (option_map Some (data_enabled data))
                        None None None
                        (Some (Some now)))) ;;;
      updated <- select mcpServers (serverIs serverId) ;;
      ret (first updated)
  end.

Definition deleteServer (userId serverId : string) : M bool :=
  rows <- select mcpServers (ownedServer userId serverId) ;;
  match first rows with
  | None => ret false
  | Some _ =>
      deleteMcpServers (serverIs serverId) ;;;
      ret true
  end.

Definition updateServerStatus (userId serverId : string)
           (status : ServerStatus) (err : option string)
  : M (option MCPServer) :=
  rows <- select mcpServers (ownedServer userId serverId) ;;
  match first rows with
  | None => ret None
  | Some _ =>
      lastChecked <- newDate ;;
      updatedAt <- newDate ;;
      updateMcpServers (serverIs serverId) None
        (applySet
           (mkServerSet None None None None None None None
                        (Some status) (Some (Some lastChecked)) (Some err)
                        (Some (Some updatedAt)))) ;;;
      updated <- select mcpServers (serverIs serverId) ;;
      ret (first updated)
  end.

Definition toggleServer (userId serverId : string)
  : M (option MCPServer) :=
  rows <- select mcpServers (ownedServer userId serverId) ;;
  match first rows with
  | None => ret None
  | Some existing =>
      now <- newDate ;;
      updateMcpServers (serverIs serverId) None
        (applySet
           (mkServerSet None None None None None None
                        (Some (Some (not (mcp_enabled existing))))
                        None None None
                        (Some (Some now)))) ;;;
      updated <- select mcpServers (serverIs serverId) ;;
      ret (first updated)
  end.

Definition getUserServers (userId : string) : M (list MCPServer) :=
  rows <- select mcpServers (fun s => String.eqb (mcp_userId s) userId) ;;
  ret (orderByDesc mcp_createdAt rows).

(** [eq(mcpServers.enabled, true)]: a [NULL] in the column does not
    satisfy the comparison. *)
Definition enabledIsTrue (s : MCPServer) : bool :=
  match mcp_enabled s with Some true => true | _ => false end.

Definition getEnabledServers (userId : string) : M (list MCPServer) :=
  rows <- select mcpServers
            (fun s => (String.eqb (mcp_userId s) userId
                       && enabledIsTrue s)%bool) ;;
  ret (orderByDesc mcp_createdAt rows).

End MCPServersService.

(* ================================================================== *)
(** * Controllers *)
(* ================================================================== *)

Module BaseController.
Import Storage.

(** Modelled from the spec: the response envelope built by
    [createSuccessResponse] and [createErrorResponse] of the base
    controller, [{success: true, data}] on success and
    [{success: false, error: {message, status}}] on failure. *)
Inductive ControllerResponse (D : Type) :=
| SuccessResponse (data : D)
| ErrorResponse (message : string) (status : Z).
Arguments SuccessResponse {D} data.
Arguments ErrorResponse {D} message status.

(** Modelled from the spec: the result of [parseJsonBody] of the base
    controller, either the parsed body or the response to send back when
    the body cannot be parsed. *)
Inductive BodyResult (B D : Type) :=
| BodyFailure (response : ControllerResponse D)
| BodySuccess (data : B).
Arguments BodyFailure {B D} response.
Arguments BodySuccess {B D} data.

(** [try { ... } catch (error) { log; return fallback }] *)
Definition tryCatch {A} (body : M A) (fallback : A) : World -> A * World :=
  fun w =>
    match body w with
    | (Ok a, w') => (a, w')
    | (Throw _, w') => (fallback, w')
    end.

End BaseController.

Module ProjectsController.
Import Schema Storage BaseController.
Local Open Scope svc_scope.

(** The JSON body of [POST /api/projects]; [None] is a property that is
    absent or [null]. *)
Record CreateBody := mkCreateBody {
  body_name : option string;
  body_description : option string
}.

(** [ProjectData] as [createProject] fills it:
    [{ project: { ...project, appCount: 0 }, message }]. *)
Record ProjectData := mkProjectData {
  project : option Project;
  project_appCount : Z;
  message : string
}.

Definition createProject (bodyResult : BodyResult CreateBody ProjectData)
           (userId : string)
  : World -> ControllerResponse ProjectData * World :=
  tryCatch
    (match bodyResult with
     | BodyFailure response => ret response
     | BodySuccess body =>
         match body_name body with
         | None => ret (ErrorResponse "Project name is required" 400)
         | Some name =>
             if negb (JS.truthy (JS.trim name))
             then ret (ErrorResponse "Project name is required" 400)
             else
               project <- ProjectsService.createProject userId
                            (ProjectsService.mkCreateData
                               (JS.trim name)
                               (option_map JS.trim (body_description body))) ;;
               ret (SuccessResponse
                      (mkProjectData project 0
                                     "Project created successfully"))
         end
     end)
    (ErrorResponse "Failed to create project" 500).

(** The JSON body of [PUT /api/projects/:projectId]; [None] is an absent
    property. *)
Record UpdateBody := mkUpdateBody {
  update_name : option string;
  update_description : option string;
  update_status : option ProjectStatus
}.

Definition getProjects (userId : string)
  : World -> ControllerResponse (list ProjectsService.ProjectWithAppCount)
             * World :=
  tryCatch
    (projects <- ProjectsService.getUserProjects userId ;;
     ret (SuccessResponse projects))
    (ErrorResponse "Failed to get projects" 500).

Definition getProject (userId : string) (projectId : option string)
  : World -> ControllerResponse ProjectsService.ProjectWithAppCount * World :=
  tryCatch
    (match projectId with
     | None | Some EmptyString =>
         ret (ErrorResponse "Project ID is required" 400)
     | Some projectId =>
         found <- ProjectsService.getProject userId projectId ;;
         match found with
         | None => ret (ErrorResponse "Project not found" 404)
         | Some project => ret (SuccessResponse project)
         end
     end)
    (ErrorResponse "Failed to get project" 500).

Definition updateProject
           (bodyResult : BodyResult UpdateBody (Project * string))
           (userId : string) (projectId : option string)
  : World -> ControllerResponse (Project * string) * World :=
  tryCatch
    (match projectId with
     | None | Some EmptyString =>
         ret (ErrorResponse "Project ID is required" 400)
     | Some projectId =>
         match bodyResult with
         | BodyFailure response => ret response
         | BodySuccess body =>
             updated <- ProjectsService.updateProject userId projectId
                          (ProjectsService.mkUpdateData
                             (option_map JS.trim (update_name body))
                             (option_map JS.trim (update_description body))
                             (update_status body)) ;;
             match updated with
             | None => ret (ErrorResponse "Project not found" 404)
             | Some project =>
                 ret (SuccessResponse
                        (project, "Project updated successfully"))
             end
         end
     end)
    (ErrorResponse "Failed to update project" 500).

Definition deleteProject (userId : string) (projectId : option string)
  : World -> ControllerResponse string * World :=
  tryCatch
    (match projectId with
     | None | Some EmptyString =>
         ret (ErrorResponse "Project ID is required" 400)
     | Some projectId =>
         deleted <- ProjectsService.deleteProject userId projectId ;;
         if negb deleted
         then ret (ErrorResponse "Project not found" 404)
         else ret (SuccessResponse "Project deleted successfully")
     end)
    (ErrorResponse "Failed to delete project" 500).

Definition getProjectApps (userId : string) (projectId : option string)
  : World -> ControllerResponse (list App) * World :=
  tryCatch
    (match projectId with
     | None | Some EmptyString =>
         ret (ErrorResponse "Project ID is required" 400)
     | Some projectId =>
         apps <- ProjectsService.getProjectApps userId projectId ;;
         ret (SuccessResponse apps)
     end)
    (ErrorResponse "Failed to get project apps" 500).

(** A path parameter that passes the test [!param]: it is there and not
    empty. *)
Definition present (param : option string) : option string :=
  match param with
  | Some (String c rest) => Some (String c rest)
  | _ => None
  end.

Definition addAppToProject (userId : string) (projectId appId : option string)
  : World -> ControllerResponse string * World :=
  tryCatch
    (match present projectId, present appId with
     | Some projectId, Some appId =>
         success <- ProjectsService.addAppToProject userId projectId appId ;;
         if negb success
         then ret (ErrorResponse "Project or app not found" 404)
         else ret (SuccessResponse "App added to project successfully")
     | _, _ => ret (ErrorResponse "Project ID and App ID are required" 400)
     end)
    (ErrorResponse "Failed to add app to project" 500).

Definition removeAppFromProject (userId : string)
           (projectId appId : option string)
  : World -> ControllerResponse string * World :=
  tryCatch
    (match present projectId, present appId with
     | Some projectId, Some appId =>
         success <- ProjectsService.removeAppFromProject
                      userId projectId appId ;;
         if negb success
         then ret (ErrorResponse "Project not found" 404)
         else ret (SuccessResponse "App removed from project successfully")
     | _, _ => ret (ErrorResponse "Project ID and App ID are required" 400)
     end)
    (ErrorResponse "Failed to remove app from project" 500).

End ProjectsController.

Module MCPServersController.
Import Schema Storage BaseController.
Local Open Scope svc_scope.

(** The JSON body of [POST /api/mcp]. *)
Record CreateBody := mkCreateBody {
  body_name : option string;
  body_url : option string;
  body_transport : option Transport;
  body_authType : option AuthType;
  body_authSecretId : option string;
  body_description : option string;
  body_enabled : option bool
}.

Record MCPServerData := mkMCPServerData {
  server : option MCPServer;
  message : string
}.

Definition createServer (bodyResult : BodyResult CreateBody MCPServerData)
           (userId : string)
  : World -> ControllerResponse MCPServerData * World :=
  tryCatch
    (match bodyResult with
     | BodyFailure response => ret response
     | BodySuccess body =>
         match body_name body with
         | None => ret (ErrorResponse "Server name is required" 400)
         | Some name =>
             if negb (JS.truthy (JS.trim name))
             then ret (ErrorResponse "Server name is required" 400)
             else
               match body_url body with
               | None => ret (ErrorResponse "Server URL is required" 400)
               | Some url =>
                   if negb (JS.truthy (JS.trim url))
                   then ret (ErrorResponse "Server URL is required" 400)
                   else
                     server <- MCPServersService.createServer userId
                       (MCPServersService.mkMCPServerInput
                          (JS.trim name) (JS.trim url)
                          (body_transport body) (body_authType body)
                          (option_map Some (body_authSecretId body))
                          (option_map (fun d => Some (JS.trim d))
                                      (body_description body))
                          (body_enabled body)) ;;
                     ret (SuccessResponse
                            (mkMCPServerData
                               server "MCP server created successfully"))
               end
         end
     end)
    (ErrorResponse "Failed to create MCP server" 500).

(** What [fetch] can throw: an [Error] with its message, or some other
    value. *)
Inductive Thrown :=
| ErrorObject (errorMessage : string)
| OtherValue.

(** How [await fetch(testUrl, ...)] ends: with a response, of which the
    code reads [ok] and [status], or by throwing (network failure, or
    the 5 second [AbortSignal.timeout]). *)
Inductive FetchResult :=
| Responded (ok : bool) (status : Z)
| Rejected (fetchError : Thrown).

Record MCPServerTestData := mkMCPServerTestData {
  success : bool;
  status : ServerStatus;
  test_message : string;
  latencyMs : option Z
}.

Definition serverStatus_eqb (a b : ServerStatus) : bool :=
  match a, b with
  | connected, connected | disconnected, disconnected
  | error, error | unknown, unknown => true
  | _, _ => false
  end.

(** The probe address. *)
Definition testUrl (url : string) : string :=
  if JS.endsWith url "/health"
  then url
  else JS.replaceTrailingSlash url ++ "/health".

Definition testConnection (fetch : string -> FetchResult)
           (userId : string) (serverId : option string)
  : World -> ControllerResponse MCPServerTestData * World :=
  tryCatch
    (match serverId with
     | None | Some EmptyString =>
         ret (ErrorResponse "Server ID is required" 400)
     | Some serverId =>
         found <- MCPServersService.getServer userId serverId ;;
         match found with
         | None => ret (ErrorResponse "MCP server not found" 404)
         | Some server =>
             startTime <- newDate ;;
             probe <-
               match fetch (testUrl (mcp_url server)) with
               | Responded ok code =>
                   finish <- newDate ;;
                   let latencyMs := finish - startTime in
                   if ok
                   then ret (connected,
                             "Connected successfully ("
                               ++ JS.numberToString latencyMs ++ "ms)",
                             latencyMs)
                   else ret (error,
                             "Server returned status "
                               ++ JS.numberToString code,
                             latencyMs)
               | Rejected fetchError =>
                   finish <- newDate ;;
                   let latencyMs := finish - startTime in
                   ret (disconnected,
                        match fetchError with
                        | ErrorObject m => m
                        | OtherValue => "Connection failed"
                        end,
                        latencyMs)
               end ;;
             let '(status, message, latencyMs) := probe in
             MCPServersService.updateServerStatus userId serverId status
               (if (serverStatus_eqb status error
                    || serverStatus_eqb status disconnected)%bool
                then Some message else None) ;;;
             ret (SuccessResponse
                    (mkMCPServerTestData
                       (serverStatus_eqb status connected)
                       status message (Some latencyMs)))
         end
     end)
    (ErrorResponse "Failed to test MCP server connection" 500).

(** The JSON body of [PUT /api/mcp/:serverId]; [None] is an absent
    property, [Some None] an explicit [null]. *)
Record UpdateBody := mkUpdateBody {
  update_name : option string;
  update_url : option string;
  update_transport : option Transport;
  update_authType : option AuthType;
  update_authSecretId : option (option string);
  update_description : option (option string);
  update_enabled : option bool
}.

Definition getServers (userId : string)
  : World -> ControllerResponse (list MCPServer) * World :=
  tryCatch
    (servers <- MCPServersService.getUserServers userId ;;
     ret (SuccessResponse servers))
    (ErrorResponse "Failed to get MCP servers" 500).

Definition getServer (userId : string) (serverId : option string)
  : World -> ControllerResponse MCPServer * World :=
  tryCatch
    (match serverId with
     | None | Some EmptyString =>
         ret (ErrorResponse "Server ID is required" 400)
     | Some serverId =>
         found <- MCPServersService.getServer userId serverId ;;
         match found with
         | None => ret (ErrorResponse "MCP server not found" 404)
         | Some server => ret (SuccessResponse server)
         end
     end)
    (ErrorResponse "Failed to get MCP server" 500).

(** [{ description: data.description?.trim() }]: for a [null] the
    property is there and holds [undefined], which the service reads as an
    absent property. *)
Definition trimmedDescription (description : option (option string))
  : option (option string) :=
  match description with
  | Some (Some d) => Some (Some (JS.trim d))
  | Some None => None
  | None => None
  end.

Definition updateServer
           (bodyResult : BodyResult UpdateBody (MCPServer * string))
           (userId : string) (serverId : option string)
  : World -> ControllerResponse (MCPServer * string) * World :=
  tryCatch
    (match serverId with
     | None | Some EmptyString =>
         ret (ErrorResponse "Server ID is required" 400)
     | Some serverId =>
         match bodyResult with
         | BodyFailure response => ret response
         | BodySuccess data =>
             updated <- MCPServersService.updateServer userId serverId
                          (MCPServersService.mkPartialInput
                             (option_map JS.trim (update_name data))
                             (option_map JS.trim (update_url data))
                             (update_transport data)
                             (update_authType data)
                             (update_authSecretId data)
                             (trimmedDescription (update_description data))
                             (update_enabled data)) ;;
             match updated with
             | None => ret (ErrorResponse "MCP server not found" 404)
             | Some server =>
                 ret (SuccessResponse
                        (server, "MCP server updated successfully"))
             end
         end
     end)
    (ErrorResponse "Failed to update MCP server" 500).

Definition deleteServer (userId : string) (serverId : option string)
  : World -> ControllerResponse string * World :=
  tryCatch
    (match serverId with
     | None | Some EmptyString =>
         ret (ErrorResponse "Server ID is required" 400)
     | Some serverId =>
         deleted <- MCPServersService.deleteServer userId serverId ;;
         if negb deleted
         then ret (ErrorResponse "MCP server not found" 404)
         else ret (SuccessResponse "MCP server deleted successfully")
     end)
    (ErrorResponse "Failed to delete MCP server" 500).

Definition toggleServer (userId : string) (serverId : option string)
  : World -> ControllerResponse (MCPServer * string) * World :=
  tryCatch
    (match serverId with
     | None | Some EmptyString =>
         ret (ErrorResponse "Server ID is required" 400)
     | Some serverId =>
         toggled <- MCPServersService.toggleServer userId serverId ;;
         match toggled with
         | None => ret (ErrorResponse "MCP server not found" 404)
         | Some server =>
             ret (SuccessResponse
                    (server,
                     "MCP server "
                       ++ (if MCPServersService.not (mcp_enabled server)
                           then "disabled" else "enabled")
                       ++ " successfully"))
         end
     end)
    (ErrorResponse "Failed to toggle MCP server" 500).

End MCPServersController.

(* ================================================================== *)
(** * Document attachments *)
(* ================================================================== *)

Module DocumentAttachment.

Definition SUPPORTED_DOCUMENT_MIME_TYPES : list string :=
  [ "text/plain"; "text/markdown"; "text/csv"; "application/json";
    "application/pdf"; "text/html"; "text/css"; "text/javascript";
    "application/typescript"; "text/x-python"; "text/x-java"; "text/x-go";
    "text/x-rust"; "text/x-c"; "text/x-cpp"; "text/yaml";
    "application/xml" ].

Definition DOCUMENT_EXTENSION_MAP : list (string * string) :=
  [ (".txt", "text/plain"); (".md", "text/markdown");
    (".markdown", "text/markdown"); (".csv", "text/csv");
    (".json", "application/json"); (".pdf", "application/pdf");
    (".html", "text/html"); (".htm", "text/html"); (".css", "text/css");
    (".js", "text/javascript"); (".mjs", "text/javascript");
    (".ts", "application/typescript"); (".tsx", "application/typescript");
    (".jsx", "text/javascript"); (".py", "text/x-python");
    (".java", "text/x-java"); (".go", "text/x-go"); (".rs", "text/x-rust");
    (".c", "text/x-c"); (".h", "text/x-c"); (".cpp", "text/x-cpp");
    (".hpp", "text/x-cpp"); (".yaml", "text/yaml"); (".yml", "text/yaml");
    (".xml", "application/xml") ].

Record DocumentAttachment := mkDocumentAttachment {
  id : string;
  filename : string;
  mimeType : string;
  textContent : string;
  size : Z;
  lineCount : nat;
  truncated : bool;
  extension : string
}.

Definition isSupportedDocumentType (mimeType : string) : bool :=
  existsb (String.eqb mimeType) SUPPORTED_DOCUMENT_MIME_TYPES.

Fixpoint lookup (key : string) (table : list (string * string))
  : option string :=
  match table with
  | [] => None
  | (k, v) :: rest => if String.eqb k key then Some v else lookup key rest
  end.

Definition getMimeTypeFromExtension (filename : string) : option string :=
  match JS.matchExtension (JS.toLowerCase filename) with
  | None => None
  | Some ext => lookup ext DOCUMENT_EXTENSION_MAP
  end.

Definition isTextBasedDocument (mimeType : string) : bool :=
  negb (String.eqb mimeType "application/pdf").

Definition MAX_DOCUMENT_SIZE_BYTES : Z := 5 * 1024 * 1024.
Definition MAX_DOCUMENTS_PER_MESSAGE : Z := 3.
Definition MAX_DOCUMENT_CHARS : Z := 100000.

(** [Object.entries(DOCUMENT_EXTENSION_MAP).find(([_, mime]) => mime ===
    mimeType)], then [entry?.[0] || '.txt']. *)
Definition getExtensionFromMimeType (mimeType : string) : string :=
  match find (fun entry => String.eqb (snd entry) mimeType)
             DOCUMENT_EXTENSION_MAP with
  | Some entry => if JS.truthy (fst entry) then fst entry else ".txt"
  | None => ".txt"
  end.

End DocumentAttachment.

Module UseDocumentUpload.
Import DocumentAttachment.

(** The part of a [File] the hook reads.  [file_text] is what
    [FileReader.readAsText] delivers, [None] when the reader fails. *)
Record File := mkFile {
  file_name : string;
  file_size : Z;
  file_type : string;
  file_text : option string
}.

Record UseDocumentUploadOptions := mkOptions {
  maxDocuments : Z;
  maxSizeBytes : Z;
  maxChars : Z
}.

Definition defaultOptions : UseDocumentUploadOptions :=
  mkOptions MAX_DOCUMENTS_PER_MESSAGE MAX_DOCUMENT_SIZE_BYTES
            MAX_DOCUMENT_CHARS.

Definition newline : string := String "010"%char EmptyString.
Definition quote : string := String "034"%char EmptyString.

(** [(file.size / 1024).toFixed(1)] for a size in bytes: the division is
    exact, and [toFixed] rounds to the nearest tenth, upwards on a
    tie. *)
Definition kilobytesToFixed1 (size : Z) : string :=
  let tenths := (10 * size + 512) / 1024 in
  JS.numberToString (tenths / 10) ++ "." ++ JS.numberToString (tenths mod 10).

Definition extractPdfText (file : File) : string :=
  "[PDF Document: " ++ file_name file ++ "]" ++ newline ++ newline
    ++ "Note: PDF text extraction requires additional processing. "
    ++ "The document " ++ quote ++ file_name file ++ quote ++ " ("
    ++ kilobytesToFixed1 (file_size file)
    ++ " KB) has been attached for reference.".

(** [readTextContent]: the content read, or a rejection. *)
Definition readTextContent (file : File) : option string := file_text file.

Definition truncationMarker : string :=
  newline ++ newline ++ "... [Content truncated]".

(** The step [// Truncate if necessary]: the text and the flag. *)
Definition truncateContent (maxChars : Z) (textContent : string)
  : string * bool :=
  if Z.of_nat (String.length textContent) >? maxChars
  then (JS.substring0 maxChars textContent ++ truncationMarker, true)
  else (textContent, false).

(** The extraction step of [processDocumentFile]: the text of the file,
    or [None] when reading it fails. *)
Definition extractText (file : File) (mimeType : string) : option string :=
  if isTextBasedDocument mimeType then readTextContent file
  else if String.eqb mimeType "application/pdf"
       then Some (extractPdfText file)
       else readTextContent file.

(** The MIME type [processDocumentFile] settles on: the one of the file
    when it is supported, otherwise the one its extension maps to. *)
Definition resolveMimeType (file : File) : option string :=
  if isSupportedDocumentType (file_type file)
  then Some (file_type file)
  else getMimeTypeFromExtension (file_name file).

(** [processDocumentFile]; [None] is the [null] returned after the error
    was reported.  [docId] is the identifier drawn from [Date.now()] and
    [Math.random()]. *)
Definition processDocumentFile (options : UseDocumentUploadOptions)
           (docId : string) (file : File) : option DocumentAttachment :=
  if file_size file >? maxSizeBytes options then None
  else
    match resolveMimeType file with
    | None => None
    | Some mimeType =>
        match extractText file mimeType with
        | None => None
        | Some textContent =>
            let '(textContent, truncated) :=
              truncateContent (maxChars options) textContent in
            let lineCount := JS.splitLinesLength textContent in
            let extension :=
              match JS.matchExtension (file_name file) with
              | Some e => e
              | None => EmptyString
              end in
            Some (mkDocumentAttachment docId (file_name file) mimeType
                    textContent (file_size file) lineCount truncated
                    extension)
        end
    end.

(** ** The hook as a state machine

    [documents] is the React state.  A call of [addDocuments] reads the
    length of the list of the render it was created in, awaits the
    processing of its files, and only then appends with
    [setDocuments(prev => [...prev, ...validDocs])]; between the two,
    other calls and other updates can run.  [pending] holds the batches
    of the calls that passed the check and have not appended yet. *)
Record Hook := mkHook {
  documents : list DocumentAttachment;
  pending : list (list DocumentAttachment);
  isProcessing : bool
}.

Definition initialHook : Hook := mkHook [] [] false.

Fixpoint validDocs (processed : list (option DocumentAttachment))
  : list DocumentAttachment :=
  match processed with
  | [] => []
  | Some doc :: rest => doc :: validDocs rest
  | None :: rest => validDocs rest
  end.

(** The limit check of [addDocuments], on the list the call sees. *)
Definition exceedsLimit (options : UseDocumentUploadOptions)
           (seen : list DocumentAttachment) (files : list (File * string))
  : bool :=
  Z.of_nat (List.length seen) + Z.of_nat (List.length files)
    >? maxDocuments options.

Definition processAll (options : UseDocumentUploadOptions)
           (files : list (File * string)) : list DocumentAttachment :=
  validDocs (map (fun f => processDocumentFile options (snd f) (fst f)) files).

(** [setDocuments(prev => [...prev, ...validDocs])], guarded by
    [validDocs.length > 0]. *)
Definition appendDocs (batch prev : list DocumentAttachment)
  : list DocumentAttachment :=
  match batch with
  | [] => prev
  | _ => prev ++ batch
  end.

(** [removeDocument] *)
Definition removeDocument (docId : string) (prev : list DocumentAttachment)
  : list DocumentAttachment :=
  filter (fun doc => negb (String.eqb (id doc) docId)) prev.

(** [clearDocuments] *)
Definition clearDocuments (prev : list DocumentAttachment)
  : list DocumentAttachment := [].

(** A call of [addDocuments] that runs to its end before anything else
    happens.  Each file comes with the identifier its attachment will
    get. *)
Definition addDocuments (options : UseDocumentUploadOptions)
           (files : list (File * string)) (docs : list DocumentAttachment)
  : list DocumentAttachment :=
  if exceedsLimit options docs files then docs
  else appendDocs (processAll options files) docs.

Inductive Event :=
| AddCalled (files : list (File * string))
| AddResolved (k : nat)
| RemoveCalled (docId : string)
| ClearCalled.

Fixpoint removeNth {A} (k : nat) (l : list A) : list A :=
  match l, k with
  | [], _ => []
  | _ :: rest, O => rest
  | x :: rest, S k' => x :: removeNth k' rest
  end.

Definition step (options : UseDocumentUploadOptions) (h : Hook) (e : Event)
  : Hook :=
  match e with
  | AddCalled files =>
      if exceedsLimit options (documents h) files
      then mkHook (documents h) (pending h) false
      else mkHook (documents h)
                  (pending h ++ [processAll options files]) true
  | AddResolved k =>
      match nth_error (pending h) k with
      | None => h
      | Some batch =>
          mkHook (appendDocs batch (documents h))
                 (removeNth k (pending h)) false
      end
  | RemoveCalled docId =>
      mkHook (removeDocument docId (documents h)) (pending h)
             (isProcessing h)
  | ClearCalled =>
      mkHook (clearDocuments (documents h)) (pending h) (isProcessing h)
  end.

Definition run (options : UseDocumentUploadOptions) (events : list Event)
           (h : Hook) : Hook :=
  fold_left (step options) events h.

(** The operations of the hook when no two calls overlap. *)
Inductive Operation :=
| AddDocuments (files : list (File * string))
| RemoveDocument (docId : string)
| ClearDocuments.

Definition perform (options : UseDocumentUploadOptions)
           (docs : list DocumentAttachment) (op : Operation)
  : list DocumentAttachment :=
  match op with
  | AddDocuments files => addDocuments options files docs
  | RemoveDocument docId => removeDocument docId docs
  | ClearDocuments => clearDocuments docs
  end.

End UseDocumentUpload.

(* ================================================================== *)
(** * The service interface as a set of calls *)
(* ================================================================== *)

Module Api.
Import Schema Storage.

(** The ownership-checked operations of the two services, with their
    arguments: the caller first, then the resource. *)
Inductive Call :=
| GetProject (userId projectId : string)
| UpdateProject (userId projectId : string)
                (data : ProjectsService.UpdateData)
| DeleteProject (userId projectId : string)
| GetProjectApps (userId projectId : string)
| AddAppToProject (userId projectId appId : string)
| RemoveAppFromProject (userId projectId appId : string)
| GetServer (userId serverId : string)
| UpdateServer (userId serverId : string)
               (data : MCPServersService.PartialInput)
| DeleteServer (userId serverId : string)
| ToggleServer (userId serverId : string)
| UpdateServerStatus (userId serverId : string) (status : ServerStatus)
                     (err : option string).

(** What a call answers. *)
Inductive Answer :=
| ProjectWithCount (p : option ProjectsService.ProjectWithAppCount)
| ProjectRow (p : option Project)
| Flag (b : bool)
| AppRows (l : list App)
| ServerRow (s : option MCPServer).

Definition answer {A} (wrap : A -> Answer) (m : M A) : M Answer :=
  bind m (fun a => ret (wrap a)).

Definition perform (c : Call) : M Answer :=
  match c with
  | GetProject u p => answer ProjectWithCount (ProjectsService.getProject u p)
  | UpdateProject u p data =>
      answer ProjectRow (ProjectsService.updateProject u p data)
  | DeleteProject u p => answer Flag (ProjectsService.deleteProject u p)
  | GetProjectApps u p => answer AppRows (ProjectsService.getProjectApps u p)
  | AddAppToProject u p a =>
      answer Flag (ProjectsService.addAppToProject u p a)
  | RemoveAppFromProject u p a =>
      answer Flag (ProjectsService.removeAppFromProject u p a)
  | GetServer u s => answer ServerRow (MCPServersService.getServer u s)
  | UpdateServer u s data =>
      answer ServerRow (MCPServersService.updateServer u s data)
  | DeleteServer u s => answer Flag (MCPServersService.deleteServer u s)
  | ToggleServer u s => answer ServerRow (MCPServersService.toggleServer u s)
  | UpdateServerStatus u s status err =>
      answer ServerRow (MCPServersService.updateServerStatus u s status err)
  end.

(** The not-found answer of each call: [null], [false] or the empty
    list. *)
Definition notFound (c : Call) : Answer :=
  match c with
  | GetProject _ _ => ProjectWithCount None
  | UpdateProject _ _ _ => ProjectRow None
  | DeleteProject _ _ => Flag false
  | GetProjectApps _ _ => AppRows []
  | AddAppToProject _ _ _ => Flag false
  | RemoveAppFromProject _ _ _ => Flag false
  | GetServer _ _ => ServerRow None
  | UpdateServer _ _ _ => ServerRow None
  | DeleteServer _ _ => Flag false
  | ToggleServer _ _ => ServerRow None
  | UpdateServerStatus _ _ _ _ => ServerRow None
  end.

(** The owners of the rows stored under the identifier a call names. *)
Definition ownersOfResource (c : Call) (d : Db) : list string :=
  match c with
  | GetProject _ p | UpdateProject _ p _ | DeleteProject _ p
  | GetProjectApps _ p | AddAppToProject _ p _
  | RemoveAppFromProject _ p _ =>
      map project_userId (filter (ProjectsService.projectIs p) (projects d))
  | GetServer _ s | UpdateServer _ s _ | DeleteServer _ s
  | ToggleServer _ s | UpdateServerStatus _ s _ _ =>
      map mcp_userId (filter (MCPServersService.serverIs s) (mcpServers d))
  end.

Definition caller (c : Call) : string :=
  match c with
  | GetProject u _ | UpdateProject u _ _ | DeleteProject u _
  | GetProjectApps u _ | AddAppToProject u _ _
  | RemoveAppFromProject u _ _
  | GetServer u _ | UpdateServer u _ _ | DeleteServer u _
  | ToggleServer u _ | UpdateServerStatus u _ _ _ => u
  end.

(** The resource exists and belongs to somebody else. *)
Definition ownedByAnother (c : Call) (d : Db) : Prop :=
  ownersOfResource c d <> [] /\ ~ In (caller c) (ownersOfResource c d).

(** No resource is stored under the identifier. *)
Definition absent (c : Call) (d : Db) : Prop :=
  ownersOfResource c d = [].

End Api.

(* ================================================================== *)
(** * Vocabulary of the specification *)
(* ================================================================== *)

(** The probe address as the specification words it: the configured
    address when it ends in [/health]; otherwise the address without its
    trailing slash, if it has one, followed by [/health]. *)
Definition stripTrailingSlash (url : string) : string :=
  if JS.endsWith url "/"
  then substring 0 (String.length url - 1) url
  else url.

Definition probeUrl (url : string) : string :=
  if JS.endsWith url "/health" then url
  else stripTrailingSlash url ++ "/health".

(** A string made of white space only. *)
Definition allWhiteSpace (s : string) : bool :=
  forallb JS.isWhiteSpace (list_ascii_of_string s).

Definition startsWithWhiteSpace (s : string) : bool :=
  match s with
  | EmptyString => false
  | String c _ => JS.isWhiteSpace c
  end.

Fixpoint endsWithWhiteSpace (s : string) : bool :=
  match s with
  | EmptyString => false
  | String c EmptyString => JS.isWhiteSpace c
  | String _ rest => endsWithWhiteSpace rest
  end.



(** Every stored server has a boolean in [enabled]: the column admits
    [NULL], the service never writes it. *)
Definition enabledIsBoolean (d : Schema.Db) : Prop :=
  Forall (fun s => Schema.mcp_enabled s <> None) (Schema.mcpServers d).

(** [rows] go by decreasing value of [column], [NULL] last. *)
Definition decreasingBy {R} (column : R -> option Z) (rows : list R) : Prop :=
  Sorted.StronglySorted
    (fun a b => Drizzle.timestampLeb (column b) (column a) = true) rows.

(** The project [projectId] is owned by [userId] in the store. *)
Definition ownsProject (userId projectId : string) (d : Schema.Db) : Prop :=
  exists x, In x (Schema.projects d)
            /\ Schema.project_id x = projectId
            /\ Schema.project_userId x = userId.

(** The server [serverId] is owned by [userId] in the store. *)
Definition ownsServer (userId serverId : string) (d : Schema.Db) : Prop :=
  exists s, In s (Schema.mcpServers d)
            /\ Schema.mcp_id s = serverId
            /\ Schema.mcp_userId s = userId.

(** No project, respectively no server, under the identifier is owned by
    [userId]: there is none, or it is somebody else's. *)
Definition noOwnedProject (userId projectId : string) (d : Schema.Db) : Prop :=
  forall x, In x (Schema.projects d) ->
            Schema.project_id x = projectId ->
            Schema.project_userId x <> userId.

Definition noOwnedServer (userId serverId : string) (d : Schema.Db) : Prop :=
  forall s, In s (Schema.mcpServers d) ->
            Schema.mcp_id s = serverId ->
            Schema.mcp_userId s <> userId.

(** Every link row refers to a stored app, as the foreign key
    [project_apps.app_id] demands. *)
Definition linksReferToApps (d : Schema.Db) : Prop :=
  forall pa, In pa (Schema.projectApps d) ->
             exists a, In a (Schema.apps d)
                       /\ Schema.app_id a = Schema.pa_appId pa.

(* ================================================================== *)
(** * Sample data *)
(* ================================================================== *)

Module Sample.
Import Schema Storage.

Definition alicesProject : Project :=
  mkProject "p1" "alice" "Demo" (Some "first project") active
            (Some 1000) (Some 2000).

Definition alicesApp : App := mkApp "a1" "alice" "todo list".

Definition alicesServer : MCPServer :=
  mkMCPServer "s1" "alice" "Tools" "https://mcp.example.com/" http none
              None (Some true) unknown None None (Some "tool server")
              (Some 1000) (Some 2000).

Definition store : Db :=
  mkDb [alicesProject] [] [alicesApp] [alicesServer] ["secret-1"].

Definition emptyStore : Db := mkDb [] [] [] [] [].

Definition link : ProjectApp := mkProjectApp "l1" "p1" "a1" (Some 3000).

Definition linkedStore : Db :=
  mkDb [alicesProject] [link] [alicesApp] [alicesServer] ["secret-1"].

(** Identifiers [id-0], [id-1], ... and a clock that advances 7 ms per
    reading, starting at 5000. *)
Definition ids (n : nat) : string :=
  "id-" ++ JS.numberToString (Z.of_nat n).

Definition ticks (n : nat) : Z := 5000 + 7 * Z.of_nat n.

Definition world : World := mkWorld store ids 0 ticks 0.
Definition emptyWorld : World := mkWorld emptyStore ids 0 ticks 0.
Definition linkedWorld : World := mkWorld linkedStore ids 0 ticks 0.

Definition rename : ProjectsService.UpdateData :=
  ProjectsService.mkUpdateData (Some "Mine now") None None.

Definition retarget : MCPServersService.PartialInput :=
  MCPServersService.mkPartialInput
    None (Some "https://tools.example.com") None (Some bearer)
    (Some (Some "secret-1")) None (Some false).

Definition projectBody : ProjectsController.CreateBody :=
  ProjectsController.mkCreateBody (Some "  Demo ") (Some " a demo  ").

Definition blankProjectBody : ProjectsController.CreateBody :=
  ProjectsController.mkCreateBody (Some "   ") (Some "a demo").

Definition serverBody : MCPServersController.CreateBody :=
  MCPServersController.mkCreateBody
    (Some " Tools ") (Some " https://tools.example.com ") None None None
    (Some " helper ") None.

Definition blankNameServerBody : MCPServersController.CreateBody :=
  MCPServersController.mkCreateBody
    None (Some "https://tools.example.com") None None None None None.

Definition blankUrlServerBody : MCPServersController.CreateBody :=
  MCPServersController.mkCreateBody
    (Some "Tools") (Some "  ") None None None None None.

(** A network on which only the health address of the sample server
    answers. *)
Definition narrowNetwork (url : string)
  : MCPServersController.FetchResult :=
  if String.eqb url "https://mcp.example.com/health"
  then MCPServersController.Responded true 200
  else MCPServersController.Rejected MCPServersController.OtherValue.

(** A network on which every probe is answered with [200 OK]. *)
Definition healthyNetwork (url : string)
  : MCPServersController.FetchResult :=
  MCPServersController.Responded true 200.

Definition notes : UseDocumentUpload.File :=
  UseDocumentUpload.mkFile "notes.txt" 6 "text/plain" (Some "abcdef").

Definition readme : UseDocumentUpload.File :=
  UseDocumentUpload.mkFile "README.md" 9 "" (Some "# vibesdk").

Definition dataJson : UseDocumentUpload.File :=
  UseDocumentUpload.mkFile "data.json" 2 "application/json" (Some "{}").

Definition script : UseDocumentUpload.File :=
  UseDocumentUpload.mkFile "main.py" 8 "text/x-python" (Some "print(1)").

Definition firstBatch : list (UseDocumentUpload.File * string) :=
  [(notes, "doc-1"); (readme, "doc-2")].

Definition secondBatch : list (UseDocumentUpload.File * string) :=
  [(dataJson, "doc-3"); (script, "doc-4")].

(** Two calls of [addDocuments], the second made before the first has
    appended its documents; then both append. *)
Definition overlappingCalls : list UseDocumentUpload.Event :=
  [ UseDocumentUpload.AddCalled firstBatch;
    UseDocumentUpload.AddCalled secondBatch;
    UseDocumentUpload.AddResolved 0;
    UseDocumentUpload.AddResolved 0 ].

Definition tightOptions : UseDocumentUpload.UseDocumentUploadOptions :=
  UseDocumentUpload.mkOptions 3 DocumentAttachment.MAX_DOCUMENT_SIZE_BYTES 3.

(** A store shared by two users. *)
Definition bobsProject : Project :=
  mkProject "p2" "bob" "Shop" None draft (Some 1500) (Some 2500).

Definition bobsApp : App := mkApp "a2" "bob" "storefront".

Definition bobsLink : ProjectApp := mkProjectApp "l2" "p2" "a2" (Some 3500).

Definition securedServer : MCPServer :=
  mkMCPServer "s2" "bob" "Vault" "https://vault.example.com/health" sse
              bearer (Some "secret-9") (Some false) connected (Some 4000)
              None (Some "keeps secrets") (Some 1500) (Some 4000).

Definition sharedStore : Db :=
  mkDb [alicesProject; bobsProject] [link; bobsLink]
       [alicesApp; bobsApp] [alicesServer; securedServer]
       ["secret-1"; "secret-9"].

Definition sharedWorld : World := mkWorld sharedStore ids 0 ticks 0.

(** A generator that hands out an identifier already in use. *)
Definition usedIds (n : nat) : string := "p1".
Definition usedServerIds (n : nat) : string := "s1".

Definition collidingWorld : World := mkWorld store usedIds 0 ticks 0.
Definition collidingServerWorld : World :=
  mkWorld store usedServerIds 0 ticks 0.

Definition demo : ProjectsService.CreateData :=
  ProjectsService.mkCreateData "Demo 2" None.

Definition bareServer : MCPServersService.MCPServerInput :=
  MCPServersService.mkMCPServerInput
    "Bare" "https://bare.example.com" None None None (Some None) None.

(** A body that blanks the name and sends [null] for the secret
    reference and for the description. *)
Definition nullingBody : MCPServersController.UpdateBody :=
  MCPServersController.mkUpdateBody
    (Some "   ") None None None (Some None) (Some None) None.

Definition blankingBody : ProjectsController.UpdateBody :=
  ProjectsController.mkUpdateBody (Some "  ") (Some " tidy ") (Some archived).

(** A payload and a body that refer to a secret nobody stored. *)
Definition dangling : MCPServersService.PartialInput :=
  MCPServersService.mkPartialInput
    None None None None (Some (Some "no-such-secret")) None None.

Definition danglingServerBody : MCPServersController.CreateBody :=
  MCPServersController.mkCreateBody
    (Some "Tools") (Some "https://tools.example.com") None None
    (Some "no-such-secret") None None.

Definition danglingServer : MCPServersService.MCPServerInput :=
  MCPServersService.mkMCPServerInput
    "Loose" "https://loose.example.com" None None
    (Some (Some "no-such-secret")) None None.

Definition danglingUpdateBody : MCPServersController.UpdateBody :=
  MCPServersController.mkUpdateBody
    None None None None (Some (Some "no-such-secret")) None None.

(** A network that refuses every connection. *)
Definition deadNetwork (url : string) : MCPServersController.FetchResult :=
  MCPServersController.Rejected
    (MCPServersController.ErrorObject "connect ECONNREFUSED").

End Sample.

(* ================================================================== *)
(** * Properties *)
(* ================================================================== *)

Import Schema Storage Drizzle.

(** ** Ownership-scoped lookups *)

Section OwnershipLookup.

Lemma owned_project_none (u p : string) (l : list Project) :
  ~ In u (map project_userId (filter (ProjectsService.projectIs p) l)) ->
  filter (ProjectsService.ownedProject u p) l = [].
Proof.
  unfold ProjectsService.ownedProject, ProjectsService.projectIs.
  induction l as [|x l IH]; simpl; intros H; [reflexivity|].
  destruct (String.eqb_spec (project_id x) p) as [E|E]; simpl in *.
  - destruct (String.eqb_spec (project_userId x) u) as [F|F].
    + exfalso. apply H. left. exact F.
    + apply IH. intros G. apply H. right. exact G.
  - apply IH. exact H.
Qed.

Lemma owned_server_none (u s : string) (l : list MCPServer) :
  ~ In u (map mcp_userId (filter (MCPServersService.serverIs s) l)) ->
  filter (MCPServersService.ownedServer u s) l = [].
Proof.
  unfold MCPServersService.ownedServer, MCPServersService.serverIs.
  induction l as [|x l IH]; simpl; intros H; [reflexivity|].
  destruct (String.eqb_spec (mcp_id x) s) as [E|E]; simpl in *.
  - destruct (String.eqb_spec (mcp_userId x) u) as [F|F].
    + exfalso. apply H. left. exact F.
    + apply IH. intros G. apply H. right. exact G.
  - apply IH. exact H.
Qed.

(** A call whose ownership-scoped lookup finds nothing answers not-found
    and leaves the world as it was. *)
Lemma perform_not_owned (c : Api.Call) (w : World) :
  ~ In (Api.caller c) (Api.ownersOfResource c (db w)) ->
  Api.perform c w = (Ok (Api.notFound c), w).
Proof.
  intros H.
  destruct c; simpl in H;
    first [ apply owned_project_none in H | apply owned_server_none in H ];
    unfold Api.perform, Api.answer,
      ProjectsService.getProject, ProjectsService.updateProject,
      ProjectsService.deleteProject, ProjectsService.getProjectApps,
      ProjectsService.addAppToProject, ProjectsService.removeAppFromProject,
      MCPServersService.getServer, MCPServersService.updateServer,
      MCPServersService.deleteServer, MCPServersService.toggleServer,
      MCPServersService.updateServerStatus,
      select, bind, getDb, ret;
    rewrite H; reflexivity.
Qed.

End OwnershipLookup.

(** C1 (ownership isolation).  Take any of the eleven ownership-checked
    calls, made by user [u] on the identifier [r].  In a world [wA] where
    [r] is stored and owned by somebody else the call gives the same
    answer as in a world [wB] where nothing is stored under [r]: the
    not-found answer of the call ([null], [false] or the empty list),
    whatever the data of the resource is, and in both worlds the store,
    the identifier supply and the clock are left as they were. *)
Theorem ownership_isolation (c : Api.Call) (wA wB : World) :
  Api.ownedByAnother c (db wA) ->
  Api.absent c (db wB) ->
  Api.perform c wA = (Ok (Api.notFound c), wA)
  /\ Api.perform c wB = (Ok (Api.notFound c), wB)
  /\ fst (Api.perform c wA) = fst (Api.perform c wB).
Proof.
  intros [_ HA] HB.
  assert (EA : Api.perform c wA = (Ok (Api.notFound c), wA))
    by (apply perform_not_owned; exact HA).
  assert (EB : Api.perform c wB = (Ok (Api.notFound c), wB)).
  { apply perform_not_owned. unfold Api.absent in HB. rewrite HB.
    intros []. }
  rewrite EA, EB. auto.
Qed.

(** ** The connection test *)

Section ProbeUrl.

Lemma endsWith_slash_cons (c d : ascii) (s : string) :
  JS.endsWith (String c (String d s)) "/" = JS.endsWith (String d s) "/".
Proof.
  unfold JS.endsWith. cbn [String.length Nat.leb].
  replace (S (S (String.length s)) - 1)%nat with (S (String.length s)) by lia.
  replace (S (String.length s) - 1)%nat with (String.length s) by lia.
  reflexivity.
Qed.

Lemma endsWith_slash_single (c : ascii) :
  JS.endsWith (String c EmptyString) "/" = Ascii.eqb c "/".
Proof.
  unfold JS.endsWith. cbn.
  destruct (Ascii.eqb_spec c "/"%char) as [->|N]; [reflexivity|].
  destruct (String.eqb_spec (String c EmptyString) "/") as [E|E];
    [inversion E; contradiction | reflexivity].
Qed.

Lemma replaceTrailingSlash_strip (s : string) :
  JS.replaceTrailingSlash s = stripTrailingSlash s.
Proof.
  unfold stripTrailingSlash.
  induction s as [|c s IH]; [reflexivity|].
  destruct s as [|d s].
  - rewrite endsWith_slash_single. cbn.
    destruct (Ascii.eqb c "/"); reflexivity.
  - rewrite endsWith_slash_cons.
    change (JS.replaceTrailingSlash (String c (String d s)))
      with (String c (JS.replaceTrailingSlash (String d s))).
    rewrite IH.
    destruct (JS.endsWith (String d s) "/"); [|reflexivity].
    cbn [String.length].
    replace (S (S (String.length s)) - 1)%nat
      with (S (S (String.length s) - 1)) by lia.
    reflexivity.
Qed.

End ProbeUrl.

(** Running the effects of a service call: the monad operations are
    unfolded and the administrative redexes removed; the queries stay. *)
Ltac run_effects :=
  cbv beta match zeta
      delta [bind ret throw getDb modifyDb newDate generateId
             select selectCount
             updateProjects updateMcpServers
             deleteProjects deleteProjectApps deleteMcpServers];
  cbn [db idSupply idsDrawn clock clockReads with_db
       projects projectApps apps mcpServers userSecrets
       with_projects with_projectApps with_mcpServers].

Section ConnectionTest.

Lemma updateServerStatus_returns userId serverId status err w :
  exists r w',
    MCPServersService.updateServerStatus userId serverId status err w
    = (Ok r, w').
Proof.
  unfold MCPServersService.updateServerStatus. run_effects.
  destruct (first (filter (MCPServersService.ownedServer userId serverId)
                          (mcpServers (db w))));
    run_effects; eexists; eexists; reflexivity.
Qed.

Ltac run_status_update :=
  match goal with
  | |- context [MCPServersService.updateServerStatus ?u ?s ?st ?e ?w] =>
      let r := fresh "r" in
      let w' := fresh "w'" in
      let E := fresh "E" in
      destruct (updateServerStatus_returns u s st e w) as (r & w' & E);
      rewrite E
  end.

(** The test of a server the caller owns, outcome by outcome. *)
Lemma testConnection_found fetch userId serverId server w :
  serverId <> EmptyString ->
  MCPServersService.getServer userId serverId w = (Ok (Some server), w) ->
  let latency := clock w (S (clockReads w)) - clock w (clockReads w) in
  exists w',
    MCPServersController.testConnection fetch userId (Some serverId) w
    = (BaseController.SuccessResponse
         match fetch (MCPServersController.testUrl (mcp_url server)) with
         | MCPServersController.Responded true _ =>
             MCPServersController.mkMCPServerTestData true connected
               ("Connected successfully ("
                  ++ JS.numberToString latency ++ "ms)")
               (Some latency)
         | MCPServersController.Responded false code =>
             MCPServersController.mkMCPServerTestData false error
               ("Server returned status " ++ JS.numberToString code)
               (Some latency)
         | MCPServersController.Rejected
             (MCPServersController.ErrorObject m) =>
             MCPServersController.mkMCPServerTestData false disconnected m
               (Some latency)
         | MCPServersController.Rejected MCPServersController.OtherValue =>
             MCPServersController.mkMCPServerTestData false disconnected
               "Connection failed" (Some latency)
         end, w').
Proof.
  intros Hid Hget latency. subst latency.
  unfold MCPServersController.testConnection, BaseController.tryCatch.
  destruct serverId as [|c serverId]; [congruence|].
  unfold bind at 1. rewrite Hget.
  destruct (fetch _) as [[|] code|[m|]];
    run_effects; cbn [MCPServersController.serverStatus_eqb orb];
    run_status_update; eexists; reflexivity.
Qed.

End ConnectionTest.

(** C3 (probe address).  The address [testConnection] probes is a function
    of the configured address alone, and it is the one the specification
    describes: the configured address unchanged when it ends in [/health],
    otherwise the address with its trailing slash stripped, followed by
    [/health].  The network is consulted at that address only: two
    networks that behave alike there give the same test. *)
Theorem testUrl_resolution :
  (forall url, MCPServersController.testUrl url = probeUrl url)
  /\ (forall url, JS.endsWith url "/health" = true ->
        MCPServersController.testUrl url = url)
  /\ (forall url, JS.endsWith url "/health" = false ->
        MCPServersController.testUrl url
        = stripTrailingSlash url ++ "/health")
  /\ (forall fetch1 fetch2 userId serverId server w,
        MCPServersService.getServer userId serverId w
        = (Ok (Some server), w) ->
        fetch1 (probeUrl (mcp_url server))
        = fetch2 (probeUrl (mcp_url server)) ->
        MCPServersController.testConnection fetch1 userId (Some serverId) w
        = MCPServersController.testConnection fetch2 userId (Some serverId) w).
Proof.
  assert (E : forall url, MCPServersController.testUrl url = probeUrl url).
  { intros url. unfold MCPServersController.testUrl, probeUrl.
    rewrite replaceTrailingSlash_strip. reflexivity. }
  split; [exact E|].
  split; [intros url H; rewrite E; unfold probeUrl; rewrite H; reflexivity|].
  split; [intros url H; rewrite E; unfold probeUrl; rewrite H; reflexivity|].
  intros fetch1 fetch2 userId serverId server w Hget Hfetch.
  rewrite <- !E in Hfetch.
  unfold MCPServersController.testConnection, BaseController.tryCatch.
  destruct serverId as [|c serverId]; [reflexivity|].
  run_effects. rewrite Hget. cbv beta match. rewrite Hfetch. reflexivity.
Qed.

(** Only one slash goes: the pattern matches a single slash at the very
    end. *)
Example testUrl_double_slash :
  MCPServersController.testUrl "https://mcp.example.com//"
  = "https://mcp.example.com//health".
Proof. reflexivity. Qed.

(** C2 (classification of the probe).  For a server the caller owns, the
    test answers with the success envelope, whose data are classified by
    how the probe ended:
    - a response with [ok] set: status [connected], and the message
      [Connected successfully (<elapsed>ms)] with the elapsed
      milliseconds;
    - a response without [ok]: status [error], and the message
      [Server returned status <code>] with the numeric status code;
    - a request that threw: status [disconnected], and as message the
      message of the error thrown ([Connection failed] when what was
      thrown is not an [Error]).
    In every case [success] is true exactly when the status is
    [connected], and [latencyMs] is the time elapsed between the two
    readings of the clock around the probe. *)
Theorem testConnection_classification fetch userId serverId server w :
  serverId <> EmptyString ->
  MCPServersService.getServer userId serverId w = (Ok (Some server), w) ->
  let latency := clock w (S (clockReads w)) - clock w (clockReads w) in
  exists data w',
    MCPServersController.testConnection fetch userId (Some serverId) w
    = (BaseController.SuccessResponse data, w')
    /\ MCPServersController.latencyMs data = Some latency
    /\ (MCPServersController.success data = true
        <-> MCPServersController.status data = connected)
    /\ match fetch (MCPServersController.testUrl (mcp_url server)) with
       | MCPServersController.Responded true _ =>
           MCPServersController.status data = connected
           /\ MCPServersController.test_message data
              = "Connected successfully ("
                  ++ JS.numberToString latency ++ "ms)"
       | MCPServersController.Responded false code =>
           MCPServersController.status data = error
           /\ MCPServersController.test_message data
              = "Server returned status " ++ JS.numberToString code
       | MCPServersController.Rejected
           (MCPServersController.ErrorObject description) =>
           MCPServersController.status data = disconnected
           /\ MCPServersController.test_message data = description
       | MCPServersController.Rejected MCPServersController.OtherValue =>
           MCPServersController.status data = disconnected
           /\ MCPServersController.test_message data = "Connection failed"
       end.
Proof.
  intros Hid Hget latency.
  destruct (testConnection_found fetch Hid Hget) as (w' & E).
  fold latency in E.
  eexists. exists w'. split; [exact E|].
  destruct (fetch _) as [[|] code|[m|]]; cbn;
    (split; [reflexivity|]); (split; [|split; reflexivity]);
    split; intros H; try reflexivity; discriminate H.
Qed.

(** ** Trimming *)

Section Trim.

Lemma trimStart_split (s : string) :
  exists l, s = l ++ JS.trimStart s /\ allWhiteSpace l = true.
Proof.
  induction s as [|c s (l & E & W)]; [exists EmptyString; auto|].
  cbn [JS.trimStart]. destruct (JS.isWhiteSpace c) eqn:C.
  - exists (String c l). split; [simpl; f_equal; exact E|].
    unfold allWhiteSpace in *. cbn [list_ascii_of_string forallb].
    rewrite C, W. reflexivity.
  - exists EmptyString. auto.
Qed.

Lemma trimStart_clean (s : string) :
  startsWithWhiteSpace (JS.trimStart s) = false.
Proof.
  induction s as [|c s IH]; [reflexivity|].
  simpl. destruct (JS.isWhiteSpace c) eqn:C; [exact IH|].
  simpl. exact C.
Qed.

Lemma trimEnd_split (s : string) :
  exists r, s = JS.trimEnd s ++ r /\ allWhiteSpace r = true.
Proof.
  induction s as [|c s (r & E & W)]; [exists EmptyString; auto|].
  cbn [JS.trimEnd]. destruct (JS.trimEnd s) as [|d t] eqn:T; simpl in E.
  - subst s. destruct (JS.isWhiteSpace c) eqn:C.
    + exists (String c r). split; [reflexivity|].
      unfold allWhiteSpace in *. cbn [list_ascii_of_string forallb].
      rewrite C, W. reflexivity.
    + exists r. split; [reflexivity|exact W].
  - exists r. split; [|exact W]. simpl. f_equal. exact E.
Qed.

Lemma trimEnd_clean (s : string) :
  endsWithWhiteSpace (JS.trimEnd s) = false.
Proof.
  induction s as [|c s IH]; [reflexivity|].
  simpl. destruct (JS.trimEnd s) as [|d t] eqn:T.
  - destruct (JS.isWhiteSpace c) eqn:C; [reflexivity|]. simpl. exact C.
  - exact IH.
Qed.

Lemma trimEnd_keeps_start (s : string) :
  startsWithWhiteSpace s = false ->
  startsWithWhiteSpace (JS.trimEnd s) = false.
Proof.
  destruct s as [|c s]; [reflexivity|].
  simpl. intros C. destruct (JS.trimEnd s); [rewrite C|]; simpl; auto.
Qed.

Lemma allWhiteSpace_app (a b : string) :
  allWhiteSpace (a ++ b) = (allWhiteSpace a && allWhiteSpace b)%bool.
Proof.
  unfold allWhiteSpace.
  induction a as [|c a IH]; [reflexivity|].
  simpl. rewrite IH. apply andb_assoc.
Qed.

Lemma trimStart_allWhiteSpace (s : string) :
  allWhiteSpace s = true -> JS.trimStart s = EmptyString.
Proof.
  unfold allWhiteSpace.
  induction s as [|c s IH]; [reflexivity|].
  simpl. destruct (JS.isWhiteSpace c); [exact IH|discriminate].
Qed.

(** What [trim] does: it removes a run of white space at each end, and
    what remains neither starts nor ends with white space. *)
Lemma trim_spec (s : string) :
  (exists l r, s = l ++ JS.trim s ++ r
               /\ allWhiteSpace l = true /\ allWhiteSpace r = true)
  /\ startsWithWhiteSpace (JS.trim s) = false
  /\ endsWithWhiteSpace (JS.trim s) = false.
Proof.
  unfold JS.trim. split; [|split].
  - destruct (trimStart_split s) as (l & E & W).
    destruct (trimEnd_split (JS.trimStart s)) as (r & F & V).
    exists l, r. rewrite <- F. auto.
  - apply trimEnd_keeps_start, trimStart_clean.
  - apply trimEnd_clean.
Qed.

(** [!name.trim()] holds exactly for the strings made of white space
    only, the empty one among them. *)
Lemma trim_falsy_iff (s : string) :
  JS.truthy (JS.trim s) = false <-> allWhiteSpace s = true.
Proof.
  split.
  - intros H. destruct (trim_spec s) as ((l & r & E & L & R) & _ & _).
    destruct (JS.trim s); [|discriminate].
    rewrite E, !allWhiteSpace_app, L, R. reflexivity.
  - intros H. unfold JS.trim. rewrite trimStart_allWhiteSpace by exact H.
    reflexivity.
Qed.

End Trim.

(** ** Keys *)

Section Keys.

Context {R : Type} (key : R -> string).

Lemma existsb_key_fresh (k : string) (l : list R) :
  ~ In k (map key l) ->
  existsb (fun q => String.eqb (key q) k) l = false.
Proof.
  induction l as [|x l IH]; simpl; intros H; [reflexivity|].
  destruct (String.eqb_spec (key x) k) as [E|E]; simpl.
  - exfalso. apply H. left. exact E.
  - apply IH. intros G. apply H. right. exact G.
Qed.

Lemma filter_key_fresh (k : string) (l : list R) :
  ~ In k (map key l) ->
  filter (fun q => String.eqb (key q) k) l = [].
Proof.
  induction l as [|x l IH]; simpl; intros H; [reflexivity|].
  destruct (String.eqb_spec (key x) k) as [E|E]; simpl.
  - exfalso. apply H. left. exact E.
  - apply IH. intros G. apply H. right. exact G.
Qed.

Lemma filter_key_snoc (x : R) (l : list R) :
  ~ In (key x) (map key l) ->
  filter (fun q => String.eqb (key q) (key x)) (l ++ [x]) = [x].
Proof.
  intros H. rewrite filter_app, filter_key_fresh by exact H.
  simpl. rewrite String.eqb_refl. reflexivity.
Qed.

(** Under a primary key, the rows selected by key are the row itself. *)
Lemma filter_key_unique (x : R) (l : list R) :
  NoDup (map key l) -> In x l ->
  filter (fun q => String.eqb (key q) (key x)) l = [x].
Proof.
  induction l as [|y l IH]; simpl; intros N I; [contradiction|].
  inversion N as [|? ? Hy Hl]; subst.
  destruct I as [->|I].
  - rewrite String.eqb_refl, filter_key_fresh by exact Hy. reflexivity.
  - destruct (String.eqb_spec (key y) (key x)) as [E|E].
    + exfalso. apply Hy. rewrite E. apply in_map. exact I.
    + apply IH; assumption.
Qed.

End Keys.

(** ** Creation through the controllers *)

(** C9 (create operations store trimmed strings).
    [ProjectsController.createProject] answers a body whose name is
    missing or made of white space only with the 400 envelope
    [Project name is required], without touching the world; any other
    body, given a fresh identifier, makes it store and return a project
    whose name and description are the trimmed ones of the body.
    [MCPServersController.createServer] does the same with name, address
    and description, and rejects alike a missing or blank name and a
    missing or blank address; its insert is subject to the foreign key of
    [auth_secret_id], so the server is stored when the body has no
    [authSecretId] or one that names a stored secret, and with one that
    names no stored secret the answer is the 500 envelope and nothing is
    stored.  Trimming removes a run of white space at each end and leaves
    a string that neither starts nor ends with white space. *)
Theorem create_trims_and_validates :
  (forall body userId w,
      match ProjectsController.body_name body with
      | None => True
      | Some name => allWhiteSpace name = true
      end ->
      ProjectsController.createProject (BaseController.BodySuccess body)
        userId w
      = (BaseController.ErrorResponse "Project name is required" 400, w))
  /\ (forall body userId w name,
         ProjectsController.body_name body = Some name ->
         allWhiteSpace name = false ->
         ~ In (idSupply w (idsDrawn w)) (map project_id (projects (db w))) ->
         let stored :=
           mkProject (idSupply w (idsDrawn w)) userId (JS.trim name)
                     (option_map JS.trim
                                 (ProjectsController.body_description body))
                     draft
                     (Some (clock w (clockReads w)))
                     (Some (clock w (S (clockReads w)))) in
         exists w',
           ProjectsController.createProject (BaseController.BodySuccess body)
             userId w
           = (BaseController.SuccessResponse
                (ProjectsController.mkProjectData
                   (Some stored) 0 "Project created successfully"), w')
           /\ projects (db w') = (projects (db w) ++ [stored])%list)
  /\ (forall body userId w,
         match MCPServersController.body_name body with
         | None => True
         | Some name => allWhiteSpace name = true
         end ->
         MCPServersController.createServer (BaseController.BodySuccess body)
           userId w
         = (BaseController.ErrorResponse "Server name is required" 400, w))
  /\ (forall body userId w name,
         MCPServersController.body_name body = Some name ->
         allWhiteSpace name = false ->
         match MCPServersController.body_url body with
         | None => True
         | Some url => allWhiteSpace url = true
         end ->
         MCPServersController.createServer (BaseController.BodySuccess body)
           userId w
         = (BaseController.ErrorResponse "Server URL is required" 400, w))
  /\ (forall body userId w name url,
         MCPServersController.body_name body = Some name ->
         allWhiteSpace name = false ->
         MCPServersController.body_url body = Some url ->
         allWhiteSpace url = false ->
         ~ In (idSupply w (idsDrawn w)) (map mcp_id (mcpServers (db w))) ->
         secretExists (db w) (MCPServersController.body_authSecretId body)
         = true ->
         exists stored w',
           MCPServersController.createServer (BaseController.BodySuccess body)
             userId w
           = (BaseController.SuccessResponse
                (MCPServersController.mkMCPServerData
                   (Some stored) "MCP server created successfully"), w')
           /\ mcpServers (db w') = (mcpServers (db w) ++ [stored])%list
           /\ mcp_name stored = JS.trim name
           /\ mcp_url stored = JS.trim url
           /\ mcp_description stored
              = option_map JS.trim
                           (MCPServersController.body_description body))
  /\ (forall body userId w name url,
         MCPServersController.body_name body = Some name ->
         allWhiteSpace name = false ->
         MCPServersController.body_url body = Some url ->
         allWhiteSpace url = false ->
         secretExists (db w) (MCPServersController.body_authSecretId body)
         = false ->
         exists w',
           MCPServersController.createServer (BaseController.BodySuccess body)
             userId w
           = (BaseController.ErrorResponse "Failed to create MCP server" 500,
              w')
           /\ db w' = db w)
  /\ (forall s,
         (exists l r, s = l ++ JS.trim s ++ r
                      /\ allWhiteSpace l = true /\ allWhiteSpace r = true)
         /\ startsWithWhiteSpace (JS.trim s) = false
         /\ endsWithWhiteSpace (JS.trim s) = false).
Proof.
  assert (T : forall s, allWhiteSpace s = false -> JS.truthy (JS.trim s) = true).
  { intros s H. destruct (JS.truthy (JS.trim s)) eqn:E; [reflexivity|].
    apply trim_falsy_iff in E. congruence. }
  assert (F : forall s, allWhiteSpace s = true -> JS.truthy (JS.trim s) = false)
    by (intros s H; apply trim_falsy_iff; exact H).
  split; [|split; [|split; [|split; [|split; [|split]]]]].
  - intros body userId w H.
    unfold ProjectsController.createProject, BaseController.tryCatch.
    destruct (ProjectsController.body_name body) as [name|]; [|reflexivity].
    rewrite (F name H). reflexivity.
  - intros body userId w name Hn Hw Hfresh stored.
    unfold ProjectsController.createProject, BaseController.tryCatch.
    rewrite Hn, (T name Hw). cbn [negb].
    unfold ProjectsService.createProject, insertProject. run_effects.
    cbn [project_id ProjectsService.create_name
         ProjectsService.create_description].
    rewrite (@existsb_key_fresh _ project_id _ _ Hfresh).
    run_effects. unfold ProjectsService.projectIs.
    pose proof (@filter_key_snoc _ project_id stored _ Hfresh) as S.
    subst stored. cbn [project_id] in S. rewrite S.
    eexists. split; reflexivity.
  - intros body userId w H.
    unfold MCPServersController.createServer, BaseController.tryCatch.
    destruct (MCPServersController.body_name body) as [name|]; [|reflexivity].
    rewrite (F name H). reflexivity.
  - intros body userId w name Hn Hw H.
    unfold MCPServersController.createServer, BaseController.tryCatch.
    rewrite Hn, (T name Hw). cbn [negb].
    destruct (MCPServersController.body_url body) as [url|]; [|reflexivity].
    rewrite (F url H). reflexivity.
  - intros body userId w name url Hn Hw Hu Hv Hfresh Hsecret.
    unfold MCPServersController.createServer, BaseController.tryCatch.
    rewrite Hn, (T name Hw), Hu, (T url Hv). cbn [negb].
    unfold MCPServersService.createServer, insertMcpServer. run_effects.
    cbn [mcp_id mcp_authSecretId MCPServersService.input_authSecretId].
    rewrite (@existsb_key_fresh _ mcp_id _ _ Hfresh).
    replace (MCPServersService.orNull
               (option_map Some (MCPServersController.body_authSecretId body)))
      with (MCPServersController.body_authSecretId body)
      by (destruct (MCPServersController.body_authSecretId body); reflexivity).
    rewrite Hsecret. cbn [negb].
    run_effects. unfold MCPServersService.serverIs.
    match goal with
    | |- context [filter _ (_ ++ [?x])] =>
        pose proof (@filter_key_snoc _ mcp_id x _ Hfresh) as S
    end.
    cbn [mcp_id] in S. rewrite S.
    eexists. eexists. split; [reflexivity|].
    cbn. split; [reflexivity|]. split; [reflexivity|]. split; [reflexivity|].
    destruct (MCPServersController.body_description body); reflexivity.
  - intros body userId w name url Hn Hw Hu Hv Hsecret.
    unfold MCPServersController.createServer, BaseController.tryCatch.
    rewrite Hn, (T name Hw), Hu, (T url Hv). cbn [negb].
    unfold MCPServersService.createServer, insertMcpServer. run_effects.
    cbn [mcp_id mcp_authSecretId MCPServersService.input_authSecretId].
    replace (MCPServersService.orNull
               (option_map Some (MCPServersController.body_authSecretId body)))
      with (MCPServersController.body_authSecretId body)
      by (destruct (MCPServersController.body_authSecretId body); reflexivity).
    rewrite Hsecret. cbn [negb].
    destruct (existsb _ (mcpServers (db w)));
      run_effects; eexists; split; reflexivity.
  - apply trim_spec.
Qed.

(** ** Documents: truncation *)

Section Truncation.

Lemma substring_prefix (n : nat) (s : string) :
  (n <= String.length s)%nat ->
  String.length (substring 0 n s) = n
  /\ exists rest, s = substring 0 n s ++ rest.
Proof.
  revert s. induction n as [|n IH]; intros s H.
  - destruct s; simpl; (split; [reflexivity|eexists; reflexivity]).
  - destruct s as [|c s]; simpl in H; [lia|].
    destruct (IH s) as (L & rest & E); [lia|].
    simpl. split; [rewrite L; reflexivity|].
    exists rest. f_equal. exact E.
Qed.

Lemma processDocumentFile_accepts options docId file mimeType text :
  UseDocumentUpload.file_size file
  <= UseDocumentUpload.maxSizeBytes options ->
  UseDocumentUpload.resolveMimeType file = Some mimeType ->
  UseDocumentUpload.extractText file mimeType = Some text ->
  UseDocumentUpload.processDocumentFile options docId file
  = Some (DocumentAttachment.mkDocumentAttachment
            docId (UseDocumentUpload.file_name file) mimeType
            (fst (UseDocumentUpload.truncateContent
                    (UseDocumentUpload.maxChars options) text))
            (UseDocumentUpload.file_size file)
            (JS.splitLinesLength
               (fst (UseDocumentUpload.truncateContent
                       (UseDocumentUpload.maxChars options) text)))
            (snd (UseDocumentUpload.truncateContent
                    (UseDocumentUpload.maxChars options) text))
            match JS.matchExtension (UseDocumentUpload.file_name file) with
            | Some e => e
            | None => EmptyString
            end).
Proof.
  intros Hsize Hmime Htext.
  unfold UseDocumentUpload.processDocumentFile.
  replace (UseDocumentUpload.file_size file
           >? UseDocumentUpload.maxSizeBytes options) with false
    by (symmetry; rewrite Z.gtb_ltb; apply Z.ltb_ge; exact Hsize).
  rewrite Hmime, Htext.
  destruct (UseDocumentUpload.truncateContent _ text). reflexivity.
Qed.

End Truncation.

(** C8 as stated does not hold: with a budget of 3 characters the file
    [notes.txt], whose text [abcdef] is longer than the budget, is stored
    with a text that is not the first 3 characters of [abcdef] and that
    is itself longer than the budget. *)
Lemma truncated_text_exceeds_budget :
  UseDocumentUpload.extractText Sample.notes "text/plain" = Some "abcdef"
  /\ option_map DocumentAttachment.textContent
       (UseDocumentUpload.processDocumentFile
          Sample.tightOptions "doc-1" Sample.notes)
     = Some ("abc" ++ UseDocumentUpload.newline ++ UseDocumentUpload.newline
               ++ "... [Content truncated]")
  /\ option_map DocumentAttachment.textContent
       (UseDocumentUpload.processDocumentFile
          Sample.tightOptions "doc-1" Sample.notes)
     <> Some (JS.substring0 3 "abcdef")
  /\ option_map
       (fun doc => String.length (DocumentAttachment.textContent doc))
       (UseDocumentUpload.processDocumentFile
          Sample.tightOptions "doc-1" Sample.notes)
     = Some 28%nat.
Proof.
  split; [reflexivity|]. split; [reflexivity|].
  split; [|reflexivity]. vm_compute. discriminate.
Qed.

(** C8, amended (truncation in [processDocumentFile]).  For a file that
    passes the size and type checks and whose text can be read: when the
    extracted text is longer than [maxChars], the stored text is the first
    [maxChars] characters of the extracted text followed by the marker
    [\n\n... [Content truncated]], and [truncated] is true; when the
    extracted text is at or under the budget, the stored text is the
    extracted text and [truncated] is false. *)
Theorem truncation_keeps_prefix_and_marks options docId file mimeType text :
  UseDocumentUpload.file_size file
  <= UseDocumentUpload.maxSizeBytes options ->
  UseDocumentUpload.resolveMimeType file = Some mimeType ->
  UseDocumentUpload.extractText file mimeType = Some text ->
  exists doc,
    UseDocumentUpload.processDocumentFile options docId file = Some doc
    /\ (UseDocumentUpload.maxChars options < Z.of_nat (String.length text) ->
        DocumentAttachment.truncated doc = true
        /\ exists kept dropped,
             text = kept ++ dropped
             /\ String.length kept
                = Z.to_nat (UseDocumentUpload.maxChars options)
             /\ DocumentAttachment.textContent doc
                = kept ++ UseDocumentUpload.newline
                    ++ UseDocumentUpload.newline
                    ++ "... [Content truncated]")
    /\ (Z.of_nat (String.length text) <= UseDocumentUpload.maxChars options ->
        DocumentAttachment.truncated doc = false
        /\ DocumentAttachment.textContent doc = text).
Proof.
  intros Hsize Hmime Htext.
  eexists. split;
    [apply processDocumentFile_accepts; eassumption|].
  cbn [DocumentAttachment.truncated DocumentAttachment.textContent].
  unfold UseDocumentUpload.truncateContent.
  split; intros H.
  - replace (Z.of_nat (String.length text)
             >? UseDocumentUpload.maxChars options) with true
      by (symmetry; rewrite Z.gtb_ltb; apply Z.ltb_lt; exact H).
    cbn [fst snd]. split; [reflexivity|].
    destruct (@substring_prefix
                (Z.to_nat (UseDocumentUpload.maxChars options)) text)
      as (L & dropped & E); [lia|].
    exists (JS.substring0 (UseDocumentUpload.maxChars options) text), dropped.
    unfold JS.substring0. split; [exact E|]. split; [exact L|]. reflexivity.
  - replace (Z.of_nat (String.length text)
             >? UseDocumentUpload.maxChars options) with false
      by (symmetry; rewrite Z.gtb_ltb; apply Z.ltb_ge; exact H).
    split; reflexivity.
Qed.

(** ** Documents: the limit *)

Section DocumentLimit.

Variable options : UseDocumentUpload.UseDocumentUploadOptions.




(** A refused batch adds none of its files. *)
Lemma addDocuments_refuses files docs :
  UseDocumentUpload.maxDocuments options
  < Z.of_nat (List.length docs) + Z.of_nat (List.length files) ->
  UseDocumentUpload.addDocuments options files docs = docs.
Proof.
  intros H. unfold UseDocumentUpload.addDocuments,
              UseDocumentUpload.exceedsLimit.
  replace (_ >? _) with true
    by (symmetry; rewrite Z.gtb_ltb; apply Z.ltb_lt; exact H).
  reflexivity.
Qed.



End DocumentLimit.

(** C10 (the document limit), at a failing run.  With the default limit
    of 3 and no document attached, [addDocuments] is called with two
    files and, before that call has appended its documents, called again
    with two other files.  Both calls pass the limit check, which compares
    against the list each call saw when it started; when both have
    appended, the hook holds 4 documents.  Had the first call finished
    before the second started, the second would have been refused and
    the hook would hold 2. *)
Theorem overlapping_addDocuments_exceed_limit :
  map DocumentAttachment.id
      (UseDocumentUpload.documents
         (UseDocumentUpload.run UseDocumentUpload.defaultOptions
            Sample.overlappingCalls UseDocumentUpload.initialHook))
  = ["doc-1"; "doc-2"; "doc-3"; "doc-4"]
  /\ UseDocumentUpload.pending
       (UseDocumentUpload.run UseDocumentUpload.defaultOptions
          Sample.overlappingCalls UseDocumentUpload.initialHook)
     = []
  /\ Z.of_nat
       (List.length
          (UseDocumentUpload.documents
             (UseDocumentUpload.run UseDocumentUpload.defaultOptions
                Sample.overlappingCalls UseDocumentUpload.initialHook)))
     > UseDocumentUpload.maxDocuments UseDocumentUpload.defaultOptions
  /\ map DocumentAttachment.id
         (UseDocumentUpload.addDocuments UseDocumentUpload.defaultOptions
            Sample.secondBatch
            (UseDocumentUpload.addDocuments UseDocumentUpload.defaultOptions
               Sample.firstBatch []))
     = ["doc-1"; "doc-2"].
Proof.
  vm_compute. repeat split; reflexivity.
Qed.

(** ** Looking rows up *)

Section Lookup.

Context {R : Type}.

Lemma first_hd (l : list R) : first l = hd_error l.
Proof. destruct l; reflexivity. Qed.

Lemma first_filter_found (f : R -> bool) (x : R) (l : list R) :
  In x l -> f x = true ->
  exists y, first (filter f l) = Some y /\ In y l /\ f y = true.
Proof.
  intros I T. rewrite first_hd.
  induction l as [|z l IH]; simpl in *; [contradiction|].
  destruct (f z) eqn:F.
  - exists z. simpl. auto.
  - destruct I as [->|I]; [congruence|].
    destruct (IH I) as (y & E & J & G). exists y. auto.
Qed.

Lemma first_filter_none (f : R -> bool) (l : list R) :
  (forall x, In x l -> f x = false) -> filter f l = [].
Proof.
  induction l as [|z l IH]; simpl; intros H; [reflexivity|].
  rewrite (H z) by (left; reflexivity).
  apply IH. intros x I. apply H. right. exact I.
Qed.

Lemma filter_nil_existsb (f : R -> bool) (l : list R) :
  filter f l = [] -> existsb f l = false.
Proof.
  induction l as [|z l IH]; simpl; [reflexivity|].
  destruct (f z); [discriminate|]. exact IH.
Qed.

End Lookup.

Section ProjectLookup.

Lemma ownedProject_iff u p x :
  ProjectsService.ownedProject u p x = true
  <-> project_id x = p /\ project_userId x = u.
Proof.
  unfold ProjectsService.ownedProject.
  rewrite andb_true_iff, !String.eqb_eq. reflexivity.
Qed.

Lemma ownedApp_iff u a x :
  ProjectsService.ownedApp u a x = true
  <-> app_id x = a /\ app_userId x = u.
Proof.
  unfold ProjectsService.ownedApp.
  rewrite andb_true_iff, !String.eqb_eq. reflexivity.
Qed.

Lemma linkIs_iff p a x :
  ProjectsService.linkIs p a x = true
  <-> pa_projectId x = p /\ pa_appId x = a.
Proof.
  unfold ProjectsService.linkIs.
  rewrite andb_true_iff, !String.eqb_eq. reflexivity.
Qed.

Lemma project_not_owned u p (l : list Project) :
  (forall x, In x l -> project_id x = p -> project_userId x <> u) ->
  filter (ProjectsService.ownedProject u p) l = [].
Proof.
  intros H. apply first_filter_none. intros x I.
  destruct (ProjectsService.ownedProject u p x) eqn:E; [|reflexivity].
  apply ownedProject_iff in E. destruct E as [E1 E2].
  exfalso. exact (H x I E1 E2).
Qed.

Lemma app_not_owned u a (l : list App) :
  (forall x, In x l -> app_id x = a -> app_userId x <> u) ->
  filter (ProjectsService.ownedApp u a) l = [].
Proof.
  intros H. apply first_filter_none. intros x I.
  destruct (ProjectsService.ownedApp u a x) eqn:E; [|reflexivity].
  apply ownedApp_iff in E. destruct E as [E1 E2].
  exfalso. exact (H x I E1 E2).
Qed.

(** Under the unique index a pair of project and app has at most one
    link. *)
Lemma link_at_most_once p a (l : list ProjectApp) :
  NoDup (map (fun pa => (pa_projectId pa, pa_appId pa)) l) ->
  (List.length (filter (ProjectsService.linkIs p a) l) <= 1)%nat.
Proof.
  induction l as [|x l IH]; simpl; intros N; [lia|].
  inversion N as [|? ? Hx Hl]; subst.
  destruct (ProjectsService.linkIs p a x) eqn:E; [|apply IH; exact Hl].
  apply linkIs_iff in E. destruct E as [E1 E2].
  rewrite first_filter_none; [simpl; lia|].
  intros y I. destruct (ProjectsService.linkIs p a y) eqn:F; [|reflexivity].
  apply linkIs_iff in F. destruct F as [F1 F2].
  exfalso. apply Hx. rewrite E1, E2, <- F1, <- F2.
  apply (in_map (fun pa => (pa_projectId pa, pa_appId pa))). exact I.
Qed.

End ProjectLookup.

(** ** Linking an app to a project *)

Section AddApp.

Variables (u p a : string).

Let owns (w : World) : Prop :=
  (exists proj, In proj (projects (db w))
                /\ project_id proj = p /\ project_userId proj = u)
  /\ (exists app, In app (apps (db w))
                  /\ app_id app = a /\ app_userId app = u).

(** The link is there already: the call answers [true] and writes
    nothing. *)
Lemma addAppToProject_existing w :
  owns w ->
  filter (ProjectsService.linkIs p a) (projectApps (db w)) <> [] ->
  ProjectsService.addAppToProject u p a w = (Ok true, w).
Proof.
  intros [(proj & Ip & Hp) (app & Ia & Ha)] L.
  destruct (first_filter_found (ProjectsService.ownedProject u p) _ _ Ip)
    as (x & Ex & _); [apply ownedProject_iff; exact Hp|].
  destruct (first_filter_found (ProjectsService.ownedApp u a) _ _ Ia)
    as (y & Ey & _); [apply ownedApp_iff; exact Ha|].
  unfold ProjectsService.addAppToProject. run_effects.
  rewrite Ex. run_effects. rewrite Ey. run_effects.
  rewrite first_hd.
  destruct (filter (ProjectsService.linkIs p a) (projectApps (db w)));
    [contradiction|reflexivity].
Qed.

(** The link is not there: the call inserts it, with a fresh identifier,
    and answers [true]. *)
Lemma addAppToProject_new w :
  owns w ->
  filter (ProjectsService.linkIs p a) (projectApps (db w)) = [] ->
  ~ In (idSupply w (idsDrawn w)) (map pa_id (projectApps (db w))) ->
  ProjectsService.addAppToProject u p a w
  = (Ok true,
     mkWorld
       (with_projectApps
          (projectApps (db w)
             ++ [mkProjectApp (idSupply w (idsDrawn w)) p a
                              (Some (clock w (clockReads w)))])
          (db w))
       (idSupply w) (S (idsDrawn w)) (clock w) (S (clockReads w))).
Proof.
  intros [(proj & Ip & Hp) (app & Ia & Ha)] L Hfresh.
  destruct (first_filter_found (ProjectsService.ownedProject u p) _ _ Ip)
    as (x & Ex & _); [apply ownedProject_iff; exact Hp|].
  destruct (first_filter_found (ProjectsService.ownedApp u a) _ _ Ia)
    as (y & Ey & _); [apply ownedApp_iff; exact Ha|].
  unfold ProjectsService.addAppToProject. run_effects.
  rewrite Ex. run_effects. rewrite Ey. run_effects.
  rewrite L. cbn [first firstn hd_error].
  unfold insertProjectApp. run_effects.
  cbn [pa_id pa_projectId pa_appId].
  rewrite (@existsb_key_fresh _ pa_id _ _ Hfresh).
  apply filter_nil_existsb in L. unfold ProjectsService.linkIs in L.
  rewrite L. run_effects. reflexivity.
Qed.

Lemma addAppToProjectTimes_existing w n :
  owns w ->
  filter (ProjectsService.linkIs p a) (projectApps (db w)) <> [] ->
  ProjectsService.addAppToProjectTimes n u p a w = (Ok (repeat true n), w).
Proof.
  intros O L. induction n as [|n IH]; [reflexivity|].
  cbn [ProjectsService.addAppToProjectTimes repeat].
  unfold bind at 1. rewrite (addAppToProject_existing O L).
  unfold bind at 1. rewrite IH. reflexivity.
Qed.

Lemma addAppToProjectTimes_links w n :
  wellFormed (db w) ->
  owns w ->
  (filter (ProjectsService.linkIs p a) (projectApps (db w)) = [] ->
   ~ In (idSupply w (idsDrawn w)) (map pa_id (projectApps (db w)))) ->
  exists w',
    ProjectsService.addAppToProjectTimes (S n) u p a w
    = (Ok (repeat true (S n)), w')
    /\ List.length (filter (ProjectsService.linkIs p a)
                           (projectApps (db w'))) = 1%nat
    /\ (filter (ProjectsService.linkIs p a) (projectApps (db w)) <> [] ->
        w' = w)
    /\ projects (db w') = projects (db w)
    /\ apps (db w') = apps (db w).
Proof.
  intros WF O Hfresh.
  destruct (filter (ProjectsService.linkIs p a) (projectApps (db w)))
    as [|l ls] eqn:L.
  - eexists.
    cbn [ProjectsService.addAppToProjectTimes repeat].
    unfold bind at 1. rewrite (addAppToProject_new O L (Hfresh eq_refl)).
    unfold bind at 1.
    rewrite addAppToProjectTimes_existing.
    + split; [reflexivity|]. cbn [db with_projectApps projectApps projects apps].
      rewrite filter_app, L. cbn [filter app].
      unfold ProjectsService.linkIs at 1. cbn [pa_projectId pa_appId].
      rewrite !String.eqb_refl. cbn.
      split; [reflexivity|]. split; [congruence|]. split; reflexivity.
    + exact O.
    + cbn [db with_projectApps projectApps].
      rewrite filter_app, L. cbn [filter app].
      unfold ProjectsService.linkIs at 1. cbn [pa_projectId pa_appId].
      rewrite !String.eqb_refl. cbn. discriminate.
  - exists w. rewrite addAppToProjectTimes_existing;
      [|exact O|rewrite L; discriminate].
    split; [reflexivity|]. split; [|auto].
    pose proof (@link_at_most_once p a _ (wf_projectApps_unique WF)) as U.
    rewrite L in *. simpl in *. lia.
Qed.

End AddApp.

(** C4 ([addAppToProject] is idempotent).  Let [u] own project [p] and app
    [a], in a store that satisfies the declared constraints, and let the
    identifier generator hand out an identifier no link uses yet when one
    has to be inserted.  Then any number [n+1] of calls in a row all
    answer [true], and afterwards exactly one link row for [(p, a)]
    exists; if the link existed before, the calls write nothing at all.
    And whenever the project or the app does not exist or is not owned by
    [u], the call answers [false] and writes nothing. *)
Theorem addAppToProject_idempotent (u p a : string) (w : World) :
  (forall n proj app,
      wellFormed (db w) ->
      In proj (projects (db w)) ->
      project_id proj = p -> project_userId proj = u ->
      In app (apps (db w)) ->
      app_id app = a -> app_userId app = u ->
      (filter (ProjectsService.linkIs p a) (projectApps (db w)) = [] ->
       ~ In (idSupply w (idsDrawn w)) (map pa_id (projectApps (db w)))) ->
      exists w',
        ProjectsService.addAppToProjectTimes (S n) u p a w
        = (Ok (repeat true (S n)), w')
        /\ List.length (filter (ProjectsService.linkIs p a)
                               (projectApps (db w'))) = 1%nat
        /\ (filter (ProjectsService.linkIs p a) (projectApps (db w)) <> [] ->
            w' = w))
  /\ ((forall proj, In proj (projects (db w)) ->
                    project_id proj = p -> project_userId proj <> u)
      \/ (forall app, In app (apps (db w)) ->
                      app_id app = a -> app_userId app <> u) ->
      ProjectsService.addAppToProject u p a w = (Ok false, w)).
Proof.
  split.
  - intros n proj app WF Ip Hp1 Hp2 Ia Ha1 Ha2 Hfresh.
    destruct (@addAppToProjectTimes_links u p a w n WF) as (w' & E & C & K & _).
    + split; [exists proj|exists app]; auto.
    + exact Hfresh.
    + exists w'. auto.
  - intros [H|H]; unfold ProjectsService.addAppToProject; run_effects.
    + rewrite (project_not_owned _ H). reflexivity.
    + destruct (first (filter (ProjectsService.ownedProject u p)
                              (projects (db w)))); [|reflexivity].
      run_effects. rewrite (app_not_owned _ H). reflexivity.
Qed.

(** ** Updating one row under a primary key *)

Section UpdateByKey.

Context {R : Type} (key : R -> string).

Lemma filter_owned_unique (g : R -> bool) (x : R) (l : list R) :
  NoDup (map key l) -> In x l -> g x = true ->
  filter (fun q => (String.eqb (key q) (key x) && g q)%bool) l = [x].
Proof.
  intros N I G. induction l as [|y l IH]; simpl; [contradiction|].
  inversion N as [|? ? Hy Hl]; subst.
  destruct I as [->|I].
  - rewrite String.eqb_refl, G. simpl. f_equal.
    apply first_filter_none. intros q Iq.
    destruct (String.eqb_spec (key q) (key x)) as [E|E]; [|reflexivity].
    exfalso. apply Hy. rewrite <- E. apply in_map. exact Iq.
  - destruct (String.eqb_spec (key y) (key x)) as [E|E]; simpl.
    + exfalso. apply Hy. rewrite E. apply in_map. exact I.
    + apply IH; assumption.
Qed.

Variable f : R -> R.
Hypothesis f_keeps_key : forall r, key (f r) = key r.

Lemma filter_updateWhere_hit (k : string) (l : list R) :
  filter (fun q => String.eqb (key q) k)
         (updateWhere (fun q => String.eqb (key q) k) f l)
  = map f (filter (fun q => String.eqb (key q) k) l).
Proof.
  unfold updateWhere. induction l as [|y l IH]; simpl; [reflexivity|].
  destruct (String.eqb (key y) k) eqn:K.
  - rewrite f_keeps_key, K. simpl. f_equal. exact IH.
  - rewrite K. exact IH.
Qed.

Lemma filter_updateWhere_miss (k : string) (l : list R) :
  filter (fun q => negb (String.eqb (key q) k))
         (updateWhere (fun q => String.eqb (key q) k) f l)
  = filter (fun q => negb (String.eqb (key q) k)) l.
Proof.
  unfold updateWhere. induction l as [|y l IH]; simpl; [reflexivity|].
  destruct (String.eqb (key y) k) eqn:K.
  - rewrite f_keeps_key, K. simpl. exact IH.
  - rewrite K. simpl. f_equal. exact IH.
Qed.

Lemma updateWhere_keys (k : string) (l : list R) :
  map key (updateWhere (fun q => String.eqb (key q) k) f l) = map key l.
Proof.
  unfold updateWhere. induction l as [|y l IH]; simpl; [reflexivity|].
  rewrite IH. destruct (String.eqb (key y) k); [rewrite f_keeps_key|];
    reflexivity.
Qed.

End UpdateByKey.

(** ** Updating a server or a project the caller owns *)

Section OwnedRows.

Lemma owned_server_selected u (s : MCPServer) (l : list MCPServer) :
  NoDup (map mcp_id l) -> In s l -> mcp_userId s = u ->
  filter (MCPServersService.ownedServer u (mcp_id s)) l = [s].
Proof.
  intros N I U. unfold MCPServersService.ownedServer.
  apply (@filter_owned_unique _ mcp_id
           (fun q => String.eqb (mcp_userId q) u) s l N I).
  apply String.eqb_eq. exact U.
Qed.

Lemma owned_project_selected u (x : Project) (l : list Project) :
  NoDup (map project_id l) -> In x l -> project_userId x = u ->
  filter (ProjectsService.ownedProject u (project_id x)) l = [x].
Proof.
  intros N I U. unfold ProjectsService.ownedProject.
  apply (@filter_owned_unique _ project_id
           (fun q => String.eqb (project_userId q) u) x l N I).
  apply String.eqb_eq. exact U.
Qed.

Lemma server_row_updated set (s : MCPServer) (l : list MCPServer) :
  NoDup (map mcp_id l) -> In s l ->
  filter (MCPServersService.serverIs (mcp_id s))
         (updateWhere (MCPServersService.serverIs (mcp_id s))
                      (MCPServersService.applySet set) l)
  = [MCPServersService.applySet set s].
Proof.
  intros N I. unfold MCPServersService.serverIs.
  rewrite (@filter_updateWhere_hit _ mcp_id (MCPServersService.applySet set))
    by reflexivity.
  rewrite (@filter_key_unique _ mcp_id s l N I). reflexivity.
Qed.

Lemma server_rows_kept set (k : string) (l : list MCPServer) :
  filter (fun r => negb (MCPServersService.serverIs k r))
         (updateWhere (MCPServersService.serverIs k)
                      (MCPServersService.applySet set) l)
  = filter (fun r => negb (MCPServersService.serverIs k r)) l.
Proof.
  unfold MCPServersService.serverIs.
  apply (@filter_updateWhere_miss _ mcp_id (MCPServersService.applySet set)).
  reflexivity.
Qed.

Lemma project_row_updated set (x : Project) (l : list Project) :
  NoDup (map project_id l) -> In x l ->
  filter (ProjectsService.projectIs (project_id x))
         (updateWhere (ProjectsService.projectIs (project_id x))
                      (ProjectsService.applySet set) l)
  = [ProjectsService.applySet set x].
Proof.
  intros N I. unfold ProjectsService.projectIs.
  rewrite (@filter_updateWhere_hit _ project_id (ProjectsService.applySet set))
    by reflexivity.
  rewrite (@filter_key_unique _ project_id x l N I). reflexivity.
Qed.

Lemma project_rows_kept set (k : string) (l : list Project) :
  filter (fun r => negb (ProjectsService.projectIs k r))
         (updateWhere (ProjectsService.projectIs k)
                      (ProjectsService.applySet set) l)
  = filter (fun r => negb (ProjectsService.projectIs k r)) l.
Proof.
  unfold ProjectsService.projectIs.
  apply (@filter_updateWhere_miss _ project_id (ProjectsService.applySet set)).
  reflexivity.
Qed.

(** A key that is stored satisfies the condition on the key. *)
Lemma existsb_server_stored (s : MCPServer) (l : list MCPServer) :
  In s l -> existsb (MCPServersService.serverIs (mcp_id s)) l = true.
Proof.
  intros I. apply existsb_exists. exists s. split; [exact I|].
  apply String.eqb_refl.
Qed.

(** [updateServer] on an owned server, with a payload whose
    [authSecretId] is absent, [null] or the identifier of a stored
    secret: the answer and the world after. *)
Lemma updateServer_owned u data w (s : MCPServer) :
  NoDup (map mcp_id (mcpServers (db w))) ->
  In s (mcpServers (db w)) -> mcp_userId s = u ->
  secretExists (db w)
    (MCPServersService.orNull (MCPServersService.data_authSecretId data))
  = true ->
  let set :=
    MCPServersService.mkServerSet
      (MCPServersService.data_name data) (MCPServersService.data_url data)
      (MCPServersService.data_transport data)
      (MCPServersService.data_authType data)
      (MCPServersService.data_authSecretId data)
      (MCPServersService.data_description data)
      (option_map Some (MCPServersService.data_enabled data))
      None None None (Some (Some (clock w (clockReads w)))) in
  MCPServersService.updateServer u (mcp_id s) data w
  = (Ok (Some (MCPServersService.applySet set s)),
     mkWorld
       (with_mcpServers
          (updateWhere (MCPServersService.serverIs (mcp_id s))
                       (MCPServersService.applySet set)
                       (mcpServers (db w)))
          (db w))
       (idSupply w) (idsDrawn w) (clock w) (S (clockReads w))).
Proof.
  intros N I U K set.
  unfold MCPServersService.updateServer. run_effects.
  rewrite (@owned_server_selected u s _ N I U). cbn [first firstn hd_error].
  run_effects.
  destruct (MCPServersService.data_authSecretId data) as [written|] eqn:E.
  - cbn [MCPServersService.orNull] in K. rewrite K, Bool.andb_false_r.
    run_effects. fold set.
    rewrite (@server_row_updated set s _ N I). reflexivity.
  - run_effects. fold set.
    rewrite (@server_row_updated set s _ N I). reflexivity.
Qed.

(** [updateServer] on an owned server, with a payload whose
    [authSecretId] names no stored secret: the update statement fails on
    the foreign key, after the clock was read, and nothing is written. *)
Lemma updateServer_refused u data w (s : MCPServer) :
  NoDup (map mcp_id (mcpServers (db w))) ->
  In s (mcpServers (db w)) -> mcp_userId s = u ->
  secretExists (db w)
    (MCPServersService.orNull (MCPServersService.data_authSecretId data))
  = false ->
  MCPServersService.updateServer u (mcp_id s) data w
  = (Throw (ForeignKeyViolation "mcp_servers"),
     mkWorld (db w) (idSupply w) (idsDrawn w) (clock w) (S (clockReads w))).
Proof.
  intros N I U K.
  unfold MCPServersService.updateServer. run_effects.
  rewrite (@owned_server_selected u s _ N I U). cbn [first firstn hd_error].
  run_effects.
  destruct (MCPServersService.data_authSecretId data) as [written|] eqn:E.
  - cbn [MCPServersService.orNull] in K.
    rewrite K, (@existsb_server_stored s _ I). reflexivity.
  - discriminate K.
Qed.

(** [toggleServer] on an owned server. *)
Lemma toggleServer_owned u w (s : MCPServer) :
  NoDup (map mcp_id (mcpServers (db w))) ->
  In s (mcpServers (db w)) -> mcp_userId s = u ->
  let set :=
    MCPServersService.mkServerSet
      None None None None None None
      (Some (Some (MCPServersService.not (mcp_enabled s))))
      None None None (Some (Some (clock w (clockReads w)))) in
  MCPServersService.toggleServer u (mcp_id s) w
  = (Ok (Some (MCPServersService.applySet set s)),
     mkWorld
       (with_mcpServers
          (updateWhere (MCPServersService.serverIs (mcp_id s))
                       (MCPServersService.applySet set)
                       (mcpServers (db w)))
          (db w))
       (idSupply w) (idsDrawn w) (clock w) (S (clockReads w))).
Proof.
  intros N I U set.
  unfold MCPServersService.toggleServer. run_effects.
  rewrite (@owned_server_selected u s _ N I U). cbn [first firstn hd_error].
  run_effects. fold set.
  rewrite (@server_row_updated set s _ N I). reflexivity.
Qed.

(** [updateProject] on an owned project. *)
Lemma updateProject_owned u data w (x : Project) :
  NoDup (map project_id (projects (db w))) ->
  In x (projects (db w)) -> project_userId x = u ->
  let set :=
    ProjectsService.mkProjectSet
      (ProjectsService.data_name data)
      (option_map Some (ProjectsService.data_description data))
      (ProjectsService.data_status data)
      (Some (Some (clock w (clockReads w)))) in
  ProjectsService.updateProject u (project_id x) data w
  = (Ok (Some (ProjectsService.applySet set x)),
     mkWorld
       (with_projects
          (updateWhere (ProjectsService.projectIs (project_id x))
                       (ProjectsService.applySet set)
                       (projects (db w)))
          (db w))
       (idSupply w) (idsDrawn w) (clock w) (S (clockReads w))).
Proof.
  intros N I U set.
  unfold ProjectsService.updateProject. run_effects.
  rewrite (@owned_project_selected u x _ N I U). cbn [first firstn hd_error].
  run_effects. fold set.
  rewrite (@project_row_updated set x _ N I). reflexivity.
Qed.

End OwnedRows.

(** C5 (partial update).  [updateServer] on a server the caller owns,
    with a payload the store accepts (its [authSecretId] is absent,
    [null] or the identifier of a stored secret, as the foreign key of
    the column demands), returns the stored row after the update, in
    which each of [name], [url], [transport], [authType], [authSecretId],
    [description] and [enabled] has the value of the payload when the
    payload carries the field and its old value otherwise, [updatedAt] is
    the time of the call, and [status], [lastChecked], [lastError] (as
    well as [id], [userId] and [createdAt]) are as before; no other row
    and no other table changes.  With a payload whose [authSecretId]
    names no stored secret the call throws and the store is left as it
    was, so that no field is modified then either.  [updateProject] with
    a payload carrying only [status] keeps [name] and [description], sets
    [status] and refreshes [updatedAt]. *)
Theorem partial_update_frame :
  (forall u data w (s : MCPServer),
      NoDup (map mcp_id (mcpServers (db w))) ->
      In s (mcpServers (db w)) ->
      mcp_userId s = u ->
      secretExists (db w)
        (MCPServersService.orNull (MCPServersService.data_authSecretId data))
      = true ->
      exists s' w',
        MCPServersService.updateServer u (mcp_id s) data w = (Ok (Some s'), w')
        /\ filter (MCPServersService.serverIs (mcp_id s)) (mcpServers (db w'))
           = [s']
        /\ filter (fun r => negb (MCPServersService.serverIs (mcp_id s) r))
                  (mcpServers (db w'))
           = filter (fun r => negb (MCPServersService.serverIs (mcp_id s) r))
                    (mcpServers (db w))
        /\ projects (db w') = projects (db w)
        /\ projectApps (db w') = projectApps (db w)
        /\ apps (db w') = apps (db w)
        /\ mcp_name s'
           = match MCPServersService.data_name data with
             | Some v => v | None => mcp_name s end
        /\ mcp_url s'
           = match MCPServersService.data_url data with
             | Some v => v | None => mcp_url s end
        /\ mcp_transport s'
           = match MCPServersService.data_transport data with
             | Some v => v | None => mcp_transport s end
        /\ mcp_authType s'
           = match MCPServersService.data_authType data with
             | Some v => v | None => mcp_authType s end
        /\ mcp_authSecretId s'
           = match MCPServersService.data_authSecretId data with
             | Some v => v | None => mcp_authSecretId s end
        /\ mcp_description s'
           = match MCPServersService.data_description data with
             | Some v => v | None => mcp_description s end
        /\ mcp_enabled s'
           = match MCPServersService.data_enabled data with
             | Some v => Some v | None => mcp_enabled s end
        /\ mcp_updatedAt s' = Some (clock w (clockReads w))
        /\ mcp_status s' = mcp_status s
        /\ mcp_lastChecked s' = mcp_lastChecked s
        /\ mcp_lastError s' = mcp_lastError s
        /\ mcp_id s' = mcp_id s
        /\ mcp_userId s' = mcp_userId s
        /\ mcp_createdAt s' = mcp_createdAt s)
  /\ (forall u data w (s : MCPServer),
         NoDup (map mcp_id (mcpServers (db w))) ->
         In s (mcpServers (db w)) ->
         mcp_userId s = u ->
         secretExists (db w)
           (MCPServersService.orNull
              (MCPServersService.data_authSecretId data))
         = false ->
         exists w',
           MCPServersService.updateServer u (mcp_id s) data w
           = (Throw (ForeignKeyViolation "mcp_servers"), w')
           /\ db w' = db w)
  /\ (forall u status w (x : Project),
         NoDup (map project_id (projects (db w))) ->
         In x (projects (db w)) ->
         project_userId x = u ->
         exists x' w',
           ProjectsService.updateProject u (project_id x)
             (ProjectsService.mkUpdateData None None (Some status)) w
           = (Ok (Some x'), w')
           /\ filter (ProjectsService.projectIs (project_id x))
                     (projects (db w'))
              = [x']
           /\ filter (fun r => negb (ProjectsService.projectIs (project_id x) r))
                     (projects (db w'))
              = filter (fun r => negb (ProjectsService.projectIs
                                         (project_id x) r))
                       (projects (db w))
           /\ project_name x' = project_name x
           /\ project_description x' = project_description x
           /\ project_status x' = status
           /\ project_updatedAt x' = Some (clock w (clockReads w))
           /\ project_id x' = project_id x
           /\ project_userId x' = project_userId x
           /\ project_createdAt x' = project_createdAt x).
Proof.
  split; [|split].
  - intros u data w s N I U K.
    eexists. eexists. split; [apply updateServer_owned; assumption|].
    cbn [db mcpServers projects projectApps apps with_mcpServers].
    split; [apply server_row_updated; assumption|].
    split; [apply server_rows_kept|].
    clear K. destruct data as [n ur t at_ sec d e].
    cbn. destruct n, ur, t, at_, sec, d, e; cbn; repeat split; reflexivity.
  - intros u data w s N I U K.
    eexists. split; [apply updateServer_refused; assumption|]. reflexivity.
  - intros u status w x N I U.
    eexists. eexists. split; [apply updateProject_owned; assumption|].
    cbn [db projects with_projects].
    split; [apply project_row_updated; assumption|].
    split; [apply project_rows_kept|].
    cbn. repeat split; reflexivity.
Qed.

(** C6 ([toggleServer]).  On a server the caller owns, [toggleServer]
    stores and returns the row with [enabled] set to the negation of the
    stored value, which is never the stored value, and with [updatedAt]
    refreshed: a stored [true] becomes [false] and a stored [false]
    becomes [true].  A second call then restores the boolean the server
    started with. *)
Theorem toggleServer_flips u w (s : MCPServer) :
  NoDup (map mcp_id (mcpServers (db w))) ->
  In s (mcpServers (db w)) ->
  mcp_userId s = u ->
  exists s1 w1,
    MCPServersService.toggleServer u (mcp_id s) w = (Ok (Some s1), w1)
    /\ filter (MCPServersService.serverIs (mcp_id s)) (mcpServers (db w1))
       = [s1]
    /\ mcp_enabled s1 = Some (MCPServersService.not (mcp_enabled s))
    /\ mcp_enabled s1 <> mcp_enabled s
    /\ mcp_updatedAt s1 = Some (clock w (clockReads w))
    /\ forall b,
         mcp_enabled s = Some b ->
         mcp_enabled s1 = Some (negb b)
         /\ exists s2 w2,
              MCPServersService.toggleServer u (mcp_id s) w1
              = (Ok (Some s2), w2)
              /\ filter (MCPServersService.serverIs (mcp_id s))
                        (mcpServers (db w2))
                 = [s2]
              /\ mcp_enabled s2 = Some b.
Proof.
  intros N I U.
  eexists. eexists. split; [apply toggleServer_owned; assumption|].
  cbn [db mcpServers with_mcpServers].
  split; [apply server_row_updated; assumption|].
  match goal with
  | |- context [MCPServersService.applySet ?set s] =>
      set (set1 := set); set (s1 := MCPServersService.applySet set1 s)
  end.
  assert (F : mcp_enabled s1 = Some (MCPServersService.not (mcp_enabled s)))
    by reflexivity.
  split; [exact F|].
  split; [rewrite F; destruct (mcp_enabled s) as [[|]|]; discriminate|].
  split; [reflexivity|].
  intros b E.
  split; [rewrite F, E; destruct b; reflexivity|].
  set (w1 := mkWorld _ _ _ _ _).
  assert (N1 : NoDup (map mcp_id (mcpServers (db w1)))).
  { cbn [w1 db mcpServers with_mcpServers].
    unfold MCPServersService.serverIs.
    rewrite (@updateWhere_keys _ mcp_id (MCPServersService.applySet set1))
      by reflexivity.
    exact N. }
  assert (I1 : In s1 (mcpServers (db w1))).
  { cbn [w1 db mcpServers with_mcpServers].
    pose proof (@server_row_updated set1 s _ N I) as J.
    assert (K : In s1 (filter (MCPServersService.serverIs (mcp_id s))
                         (updateWhere (MCPServersService.serverIs (mcp_id s))
                            (MCPServersService.applySet set1)
                            (mcpServers (db w)))))
      by (rewrite J; left; reflexivity).
    apply filter_In in K. apply K. }
  assert (U1 : mcp_userId s1 = u) by exact U.
  change (mcp_id s) with (mcp_id s1).
  eexists. eexists. split; [apply toggleServer_owned; assumption|].
  cbn [db mcpServers with_mcpServers].
  split; [apply server_row_updated; assumption|].
  cbn [mcp_enabled MCPServersService.applySet MCPServersService.set_enabled
       MCPServersService.orKeep].
  fold s1. rewrite F, E. destruct b; reflexivity.
Qed.

(** ** The apps of a project *)

Section Join.

Lemma join_rows (p : string) (links : list ProjectApp) (rows : list App) :
  map snd
      (filter (fun row => ProjectsService.linkOf p (fst row))
              (innerJoin links rows
                         (fun pa a => String.eqb (pa_appId pa) (app_id a))))
  = flat_map
      (fun pa => filter (fun a => String.eqb (pa_appId pa) (app_id a)) rows)
      (filter (ProjectsService.linkOf p) links).
Proof.
  unfold innerJoin.
  induction links as [|pa links IH]; [reflexivity|].
  cbn [flat_map filter]. rewrite filter_app, map_app, IH.
  destruct (ProjectsService.linkOf p pa) eqn:E.
  - cbn [flat_map]. f_equal.
    induction (filter _ rows) as [|a l IHl]; [reflexivity|].
    cbn [map filter fst]. rewrite E. cbn [map snd]. f_equal. exact IHl.
  - rewrite (@first_filter_none _ _ (map (pair pa) _)); [reflexivity|].
    intros row I. apply in_map_iff in I. destruct I as (a & <- & _).
    exact E.
Qed.

End Join.

(** C7 ([getProjectApps]).  When no project with the given identifier is
    owned by the caller, because it does not exist or because it is
    somebody else's, the answer is the empty list, with no error and no
    write.  When the caller owns the project, the answer is the inner
    join of the project's link rows with the apps: for every link row of
    the project, the app rows it references, each as often as it is
    referenced and in an order the query does not fix; so an app row is
    returned exactly when it is stored and some link row of the project
    references it. *)
Theorem getProjectApps_join u p w :
  ((forall x, In x (projects (db w)) ->
              project_id x = p -> project_userId x <> u) ->
   ProjectsService.getProjectApps u p w = (Ok [], w))
  /\ (forall x,
         In x (projects (db w)) -> project_id x = p -> project_userId x = u ->
         exists rows,
           ProjectsService.getProjectApps u p w = (Ok rows, w)
           /\ Permutation rows
                (flat_map
                   (fun pa =>
                      filter (fun a => String.eqb (pa_appId pa) (app_id a))
                             (apps (db w)))
                   (filter (ProjectsService.linkOf p) (projectApps (db w))))
           /\ forall a,
                In a rows
                <-> In a (apps (db w))
                    /\ exists pa, In pa (projectApps (db w))
                                  /\ pa_projectId pa = p
                                  /\ pa_appId pa = app_id a).
Proof.
  split.
  - intros H. unfold ProjectsService.getProjectApps. run_effects.
    rewrite (project_not_owned _ H). reflexivity.
  - intros x I Hp Hu.
    destruct (first_filter_found (ProjectsService.ownedProject u p) _ _ I)
      as (y & Ey & _); [apply ownedProject_iff; auto|].
    eexists. split; [|split; [apply Permutation_refl|]].
    + unfold ProjectsService.getProjectApps. run_effects.
      rewrite Ey. run_effects. rewrite join_rows. reflexivity.
    + intros a. rewrite in_flat_map. split.
      * intros (pa & Ipa & Ia).
        apply filter_In in Ipa. destruct Ipa as [Ipa L].
        apply filter_In in Ia. destruct Ia as [Ia E].
        apply String.eqb_eq in L, E.
        split; [exact Ia|]. exists pa. auto.
      * intros (Ia & pa & Ipa & L & E).
        exists pa. split; apply filter_In; split; auto.
        -- apply String.eqb_eq. exact L.
        -- apply String.eqb_eq. exact E.
Qed.

(** ** [enabled] stays a boolean *)

Section EnabledColumn.

Lemma Forall_updateWhere {R} (P : R -> Prop) (c : R -> bool) (f : R -> R)
      (l : list R) :
  (forall r, P r -> P (f r)) -> Forall P l -> Forall P (updateWhere c f l).
Proof.
  intros Hf H. unfold updateWhere. induction H as [|x l Hx Hl IH]; simpl;
    constructor; [destruct (c x); auto|exact IH].
Qed.

Lemma Forall_deleteWhere {R} (P : R -> Prop) (c : R -> bool) (l : list R) :
  Forall P l -> Forall P (deleteWhere c l).
Proof.
  intros H. unfold deleteWhere. induction H as [|x l Hx Hl IH]; simpl;
    [constructor|]. destruct (negb (c x)); [constructor|]; assumption.
Qed.

(** The writes of [MCPServersService], started in a store where [enabled]
    is a boolean everywhere, end in such a store. *)
Lemma server_writes_keep_enabled_boolean w :
  enabledIsBoolean (db w) ->
  (forall u data,
      enabledIsBoolean (db (snd (MCPServersService.createServer u data w))))
  /\ (forall u k data,
         enabledIsBoolean
           (db (snd (MCPServersService.updateServer u k data w))))
  /\ (forall u k,
         enabledIsBoolean (db (snd (MCPServersService.toggleServer u k w))))
  /\ (forall u k status err,
         enabledIsBoolean
           (db (snd (MCPServersService.updateServerStatus u k status err w))))
  /\ (forall u k,
         enabledIsBoolean (db (snd (MCPServersService.deleteServer u k w)))).
Proof.
  unfold enabledIsBoolean. intros H.
  split; [|split; [|split; [|split]]].
  - intros u data. unfold MCPServersService.createServer, insertMcpServer.
    run_effects. destruct (existsb _ _); run_effects; cbn [snd db mcpServers];
      [exact H|].
    destruct (negb _); run_effects; cbn [snd db mcpServers]; [exact H|].
    apply Forall_app. split; [exact H|]. repeat constructor. discriminate.
  - intros u k data. unfold MCPServersService.updateServer. run_effects.
    destruct (first (filter (MCPServersService.ownedServer u k)
                            (mcpServers (db w))));
      run_effects; cbn [snd db mcpServers]; [|exact H].
    assert (G : Forall (fun s => mcp_enabled s <> None)
                  (updateWhere (MCPServersService.serverIs k)
                     (MCPServersService.applySet
                        (MCPServersService.mkServerSet
                           (MCPServersService.data_name data)
                           (MCPServersService.data_url data)
                           (MCPServersService.data_transport data)
                           (MCPServersService.data_authType data)
                           (MCPServersService.data_authSecretId data)
                           (MCPServersService.data_description data)
                           (option_map Some
                              (MCPServersService.data_enabled data))
                           None None None
                           (Some (Some (clock w (clockReads w))))))
                     (mcpServers (db w)))).
    { apply Forall_updateWhere; [|exact H].
      intros r Hr. cbn.
      destruct (MCPServersService.data_enabled data); [discriminate|exact Hr]. }
    destruct (MCPServersService.data_authSecretId data) as [written|];
      [destruct (_ && _)%bool|];
      run_effects; cbn [snd db mcpServers]; solve [exact H | exact G].
  - intros u k. unfold MCPServersService.toggleServer. run_effects.
    destruct (first (filter (MCPServersService.ownedServer u k)
                            (mcpServers (db w))));
      run_effects; cbn [snd db mcpServers]; [|exact H].
    apply Forall_updateWhere; [|exact H].
    intros r Hr. cbn. discriminate.
  - intros u k status err.
    unfold MCPServersService.updateServerStatus. run_effects.
    destruct (first (filter (MCPServersService.ownedServer u k)
                            (mcpServers (db w))));
      run_effects; cbn [snd db mcpServers]; [|exact H].
    apply Forall_updateWhere; [|exact H].
    intros r Hr. exact Hr.
  - intros u k. unfold MCPServersService.deleteServer. run_effects.
    destruct (first (filter (MCPServersService.ownedServer u k)
                            (mcpServers (db w))));
      run_effects; cbn [snd db mcpServers]; [|exact H].
    apply Forall_deleteWhere. exact H.
Qed.

End EnabledColumn.

(** ** The theorems at work on the sample data *)

Lemma sample_servers_pk :
  NoDup (map mcp_id (mcpServers (db Sample.world))).
Proof. simpl. repeat constructor. simpl. intuition. Qed.

Lemma sample_projects_pk :
  NoDup (map project_id (projects (db Sample.world))).
Proof. simpl. repeat constructor. simpl. intuition. Qed.

(** Bob renames Alice's project [p1], once in the sample world and once
    in the empty one. *)
Lemma ownership_isolation_witness :
  Api.ownedByAnother (Api.UpdateProject "bob" "p1" Sample.rename)
                     (db Sample.world)
  /\ Api.absent (Api.UpdateProject "bob" "p1" Sample.rename)
                (db Sample.emptyWorld)
  /\ Api.perform (Api.UpdateProject "bob" "p1" Sample.rename) Sample.world
     = (Ok (Api.ProjectRow None), Sample.world)
  /\ Api.perform (Api.UpdateProject "bob" "p1" Sample.rename)
                 Sample.emptyWorld
     = (Ok (Api.ProjectRow None), Sample.emptyWorld).
Proof.
  assert (A : Api.ownedByAnother (Api.UpdateProject "bob" "p1" Sample.rename)
                                 (db Sample.world)).
  { split; simpl; [discriminate|]. intros [H|[]]. discriminate H. }
  assert (B : Api.absent (Api.UpdateProject "bob" "p1" Sample.rename)
                         (db Sample.emptyWorld)) by reflexivity.
  split; [exact A|]. split; [exact B|].
  destruct (@ownership_isolation
              (Api.UpdateProject "bob" "p1" Sample.rename)
              Sample.world Sample.emptyWorld A B) as (E1 & E2 & _).
  split; [exact E1|exact E2].
Defined.

Lemma testConnection_classification_witness :
  "s1" <> EmptyString
  /\ MCPServersService.getServer "alice" "s1" Sample.world
     = (Ok (Some Sample.alicesServer), Sample.world)
  /\ exists data w',
       MCPServersController.testConnection Sample.healthyNetwork "alice"
         (Some "s1") Sample.world
       = (BaseController.SuccessResponse data, w')
       /\ MCPServersController.status data = connected
       /\ MCPServersController.test_message data
          = "Connected successfully (7ms)"
       /\ MCPServersController.latencyMs data = Some 7
       /\ MCPServersController.success data = true.
Proof.
  assert (A : "s1" <> EmptyString) by discriminate.
  assert (B : MCPServersService.getServer "alice" "s1" Sample.world
              = (Ok (Some Sample.alicesServer), Sample.world))
    by reflexivity.
  split; [exact A|]. split; [exact B|].
  destruct (@testConnection_classification Sample.healthyNetwork
              "alice" "s1" Sample.alicesServer Sample.world A B)
    as (data & w' & E & L & S & C).
  exists data, w'. cbn in C. destruct C as [C1 C2].
  split; [exact E|]. split; [exact C1|]. split; [exact C2|].
  split; [exact L|]. apply S. exact C1.
Defined.

Lemma testUrl_resolution_witness :
  JS.endsWith "https://mcp.example.com/" "/health" = false
  /\ MCPServersController.testUrl "https://mcp.example.com/"
     = "https://mcp.example.com/health"
  /\ JS.endsWith "https://mcp.example.com/health" "/health" = true
  /\ MCPServersController.testUrl "https://mcp.example.com/health"
     = "https://mcp.example.com/health"
  /\ MCPServersService.getServer "alice" "s1" Sample.world
     = (Ok (Some Sample.alicesServer), Sample.world)
  /\ Sample.healthyNetwork (probeUrl (mcp_url Sample.alicesServer))
     = Sample.narrowNetwork (probeUrl (mcp_url Sample.alicesServer))
  /\ MCPServersController.testConnection Sample.healthyNetwork "alice"
       (Some "s1") Sample.world
     = MCPServersController.testConnection Sample.narrowNetwork "alice"
         (Some "s1") Sample.world.
Proof.
  destruct testUrl_resolution as (_ & T & F & P).
  assert (A : JS.endsWith "https://mcp.example.com/" "/health" = false)
    by reflexivity.
  assert (B : JS.endsWith "https://mcp.example.com/health" "/health" = true)
    by reflexivity.
  assert (C : MCPServersService.getServer "alice" "s1" Sample.world
              = (Ok (Some Sample.alicesServer), Sample.world))
    by reflexivity.
  assert (D : Sample.healthyNetwork (probeUrl (mcp_url Sample.alicesServer))
              = Sample.narrowNetwork (probeUrl (mcp_url Sample.alicesServer)))
    by reflexivity.
  split; [exact A|]. split; [exact (F _ A)|].
  split; [exact B|]. split; [exact (T _ B)|].
  split; [exact C|]. split; [exact D|].
  exact (P Sample.healthyNetwork Sample.narrowNetwork "alice" "s1"
           Sample.alicesServer Sample.world C D).
Defined.

(** Alice links her app [a1] to her project [p1] three times, first in a
    store without the link; Bob tries the same on Alice's project. *)
Lemma addAppToProject_idempotent_witness :
  wellFormed (db Sample.world)
  /\ In Sample.alicesProject (projects (db Sample.world))
  /\ In Sample.alicesApp (apps (db Sample.world))
  /\ (exists w',
        ProjectsService.addAppToProjectTimes 3 "alice" "p1" "a1" Sample.world
        = (Ok [true; true; true], w')
        /\ List.length (filter (ProjectsService.linkIs "p1" "a1")
                               (projectApps (db w'))) = 1%nat)
  /\ (forall proj, In proj (projects (db Sample.world)) ->
                   project_id proj = "p1" -> project_userId proj <> "bob")
  /\ ProjectsService.addAppToProject "bob" "p1" "a1" Sample.world
     = (Ok false, Sample.world).
Proof.
  assert (WF : wellFormed (db Sample.world)).
  { constructor; simpl; repeat constructor; simpl; intuition discriminate. }
  assert (Ip : In Sample.alicesProject (projects (db Sample.world)))
    by (left; reflexivity).
  assert (Ia : In Sample.alicesApp (apps (db Sample.world)))
    by (left; reflexivity).
  assert (Hfresh :
            filter (ProjectsService.linkIs "p1" "a1")
                   (projectApps (db Sample.world)) = [] ->
            ~ In (idSupply Sample.world (idsDrawn Sample.world))
                 (map pa_id (projectApps (db Sample.world))))
    by (intros _ []).
  assert (Hbob : forall proj, In proj (projects (db Sample.world)) ->
                   project_id proj = "p1" -> project_userId proj <> "bob").
  { intros proj [<-|[]] _. discriminate. }
  split; [exact WF|]. split; [exact Ip|]. split; [exact Ia|].
  split.
  - destruct (proj1 (@addAppToProject_idempotent "alice" "p1" "a1"
                       Sample.world)
                2%nat Sample.alicesProject Sample.alicesApp WF
                Ip eq_refl eq_refl Ia eq_refl eq_refl Hfresh)
      as (w' & E & C & _).
    exists w'. split; [exact E|exact C].
  - split; [exact Hbob|].
    exact (proj2 (@addAppToProject_idempotent "bob" "p1" "a1" Sample.world)
                 (or_introl Hbob)).
Defined.

(** Alice retargets her server, once to a stored secret and once to one
    that is not stored, and archives her project. *)
Lemma partial_update_frame_witness :
  NoDup (map mcp_id (mcpServers (db Sample.world)))
  /\ In Sample.alicesServer (mcpServers (db Sample.world))
  /\ NoDup (map project_id (projects (db Sample.world)))
  /\ In Sample.alicesProject (projects (db Sample.world))
  /\ secretExists (db Sample.world) (Some "secret-1") = true
  /\ secretExists (db Sample.world) (Some "no-such-secret") = false
  /\ (exists s' w',
        MCPServersService.updateServer "alice" "s1" Sample.retarget
          Sample.world
        = (Ok (Some s'), w')
        /\ mcp_name s' = "Tools"
        /\ mcp_url s' = "https://tools.example.com"
        /\ mcp_authSecretId s' = Some "secret-1"
        /\ mcp_enabled s' = Some false
        /\ mcp_status s' = unknown
        /\ mcp_updatedAt s' = Some 5000)
  /\ (exists w',
        MCPServersService.updateServer "alice" "s1" Sample.dangling
          Sample.world
        = (Throw (ForeignKeyViolation "mcp_servers"), w')
        /\ db w' = db Sample.world)
  /\ (exists x' w',
        ProjectsService.updateProject "alice" "p1"
          (ProjectsService.mkUpdateData None None (Some archived))
          Sample.world
        = (Ok (Some x'), w')
        /\ project_name x' = "Demo"
        /\ project_description x' = Some "first project"
        /\ project_status x' = archived
        /\ project_updatedAt x' = Some 5000).
Proof.
  assert (Is : In Sample.alicesServer (mcpServers (db Sample.world)))
    by (left; reflexivity).
  assert (Ip : In Sample.alicesProject (projects (db Sample.world)))
    by (left; reflexivity).
  split; [exact sample_servers_pk|]. split; [exact Is|].
  split; [exact sample_projects_pk|]. split; [exact Ip|].
  split; [reflexivity|]. split; [reflexivity|].
  split; [|split].
  - destruct (proj1 partial_update_frame "alice" Sample.retarget
                Sample.world Sample.alicesServer
                sample_servers_pk Is eq_refl eq_refl)
      as (s' & w' & E & _ & _ & _ & _ & _ & Hn & Hu & _ & _ & Hk & _ & He
          & Ht & Hs & _).
    exists s', w'. repeat split; assumption.
  - exact (proj1 (proj2 partial_update_frame) "alice" Sample.dangling
             Sample.world Sample.alicesServer
             sample_servers_pk Is eq_refl eq_refl).
  - destruct (proj2 (proj2 partial_update_frame) "alice" archived
                Sample.world Sample.alicesProject
                sample_projects_pk Ip eq_refl)
      as (x' & w' & E & _ & _ & Hn & Hd & Hs & Ht & _).
    exists x', w'. repeat split; assumption.
Defined.

(** Alice toggles her server, which starts enabled, twice. *)
Lemma toggleServer_flips_witness :
  NoDup (map mcp_id (mcpServers (db Sample.world)))
  /\ In Sample.alicesServer (mcpServers (db Sample.world))
  /\ mcp_enabled Sample.alicesServer = Some true
  /\ exists s1 w1 s2 w2,
       MCPServersService.toggleServer "alice" "s1" Sample.world
       = (Ok (Some s1), w1)
       /\ mcp_enabled s1 = Some false
       /\ MCPServersService.toggleServer "alice" "s1" w1
          = (Ok (Some s2), w2)
       /\ mcp_enabled s2 = Some true.
Proof.
  assert (Is : In Sample.alicesServer (mcpServers (db Sample.world)))
    by (left; reflexivity).
  split; [exact sample_servers_pk|]. split; [exact Is|].
  split; [reflexivity|].
  destruct (@toggleServer_flips "alice" Sample.world Sample.alicesServer
              sample_servers_pk Is eq_refl)
    as (s1 & w1 & E1 & _ & _ & _ & _ & B).
  destruct (B true eq_refl) as (F1 & s2 & w2 & E2 & _ & F2).
  exists s1, w1, s2, w2. repeat split; assumption.
Defined.

(** Alice lists the apps of her project; Bob gets the empty list. *)
Lemma getProjectApps_join_witness :
  In Sample.alicesProject (projects (db Sample.linkedWorld))
  /\ (exists rows,
        ProjectsService.getProjectApps "alice" "p1" Sample.linkedWorld
        = (Ok rows, Sample.linkedWorld)
        /\ Permutation rows [Sample.alicesApp])
  /\ (forall x, In x (projects (db Sample.linkedWorld)) ->
                project_id x = "p1" -> project_userId x <> "bob")
  /\ ProjectsService.getProjectApps "bob" "p1" Sample.linkedWorld
     = (Ok [], Sample.linkedWorld).
Proof.
  assert (Ip : In Sample.alicesProject (projects (db Sample.linkedWorld)))
    by (left; reflexivity).
  assert (Hbob : forall x, In x (projects (db Sample.linkedWorld)) ->
                   project_id x = "p1" -> project_userId x <> "bob").
  { intros x [<-|[]] _. discriminate. }
  split; [exact Ip|]. split.
  - destruct (proj2 (@getProjectApps_join "alice" "p1" Sample.linkedWorld)
                Sample.alicesProject Ip eq_refl eq_refl)
      as (rows & E & R & _).
    exists rows. split; [exact E|]. exact R.
  - split; [exact Hbob|].
    exact (proj1 (@getProjectApps_join "bob" "p1" Sample.linkedWorld) Hbob).
Defined.

(** The file [notes.txt] under a budget of 3 characters. *)
Lemma truncation_keeps_prefix_and_marks_witness :
  UseDocumentUpload.file_size Sample.notes
  <= UseDocumentUpload.maxSizeBytes Sample.tightOptions
  /\ UseDocumentUpload.resolveMimeType Sample.notes = Some "text/plain"
  /\ UseDocumentUpload.extractText Sample.notes "text/plain" = Some "abcdef"
  /\ UseDocumentUpload.maxChars Sample.tightOptions
     < Z.of_nat (String.length "abcdef")
  /\ exists doc,
       UseDocumentUpload.processDocumentFile Sample.tightOptions "doc-1"
         Sample.notes = Some doc
       /\ DocumentAttachment.truncated doc = true.
Proof.
  assert (A : UseDocumentUpload.file_size Sample.notes
              <= UseDocumentUpload.maxSizeBytes Sample.tightOptions)
    by (vm_compute; discriminate).
  assert (B : UseDocumentUpload.resolveMimeType Sample.notes
              = Some "text/plain") by reflexivity.
  assert (C : UseDocumentUpload.extractText Sample.notes "text/plain"
              = Some "abcdef") by reflexivity.
  assert (D : UseDocumentUpload.maxChars Sample.tightOptions
              < Z.of_nat (String.length "abcdef")) by reflexivity.
  split; [exact A|]. split; [exact B|]. split; [exact C|]. split; [exact D|].
  destruct (@truncation_keeps_prefix_and_marks Sample.tightOptions "doc-1"
              Sample.notes "text/plain" "abcdef" A B C)
    as (doc & E & L & _).
  exists doc. split; [exact E|]. exact (proj1 (L D)).
Defined.

(** A project and a server created from padded strings, the three
    rejections, and a server that refers to a secret nobody stored. *)
Lemma create_trims_and_validates_witness :
  allWhiteSpace "   " = true
  /\ ProjectsController.createProject
       (BaseController.BodySuccess Sample.blankProjectBody) "alice"
       Sample.world
     = (BaseController.ErrorResponse "Project name is required" 400,
        Sample.world)
  /\ allWhiteSpace "  Demo " = false
  /\ ~ In (idSupply Sample.world (idsDrawn Sample.world))
          (map project_id (projects (db Sample.world)))
  /\ (exists w',
        ProjectsController.createProject
          (BaseController.BodySuccess Sample.projectBody) "alice"
          Sample.world
        = (BaseController.SuccessResponse
             (ProjectsController.mkProjectData
                (Some (mkProject "id-0" "alice" "Demo" (Some "a demo") draft
                                 (Some 5000) (Some 5007)))
                0 "Project created successfully"), w'))
  /\ MCPServersController.createServer
       (BaseController.BodySuccess Sample.blankNameServerBody) "alice"
       Sample.world
     = (BaseController.ErrorResponse "Server name is required" 400,
        Sample.world)
  /\ MCPServersController.createServer
       (BaseController.BodySuccess Sample.blankUrlServerBody) "alice"
       Sample.world
     = (BaseController.ErrorResponse "Server URL is required" 400,
        Sample.world)
  /\ (exists stored w',
        MCPServersController.createServer
          (BaseController.BodySuccess Sample.serverBody) "alice" Sample.world
        = (BaseController.SuccessResponse
             (MCPServersController.mkMCPServerData
                (Some stored) "MCP server created successfully"), w')
        /\ mcp_name stored = "Tools"
        /\ mcp_url stored = "https://tools.example.com"
        /\ mcp_description stored = Some "helper")
  /\ secretExists (db Sample.world) (Some "no-such-secret") = false
  /\ (exists w',
        MCPServersController.createServer
          (BaseController.BodySuccess Sample.danglingServerBody) "alice"
          Sample.world
        = (BaseController.ErrorResponse "Failed to create MCP server" 500, w')
        /\ db w' = db Sample.world).
Proof.
  destruct create_trims_and_validates as (P1 & P2 & S1 & S2 & S3 & S4 & _).
  assert (A : allWhiteSpace "   " = true) by reflexivity.
  assert (B : allWhiteSpace "  Demo " = false) by reflexivity.
  assert (C : ~ In (idSupply Sample.world (idsDrawn Sample.world))
                   (map project_id (projects (db Sample.world)))).
  { intros [H|[]]. discriminate H. }
  assert (D : ~ In (idSupply Sample.world (idsDrawn Sample.world))
                   (map mcp_id (mcpServers (db Sample.world)))).
  { intros [H|[]]. discriminate H. }
  split; [exact A|].
  split; [exact (P1 Sample.blankProjectBody "alice" Sample.world A)|].
  split; [exact B|]. split; [exact C|].
  split.
  { destruct (P2 Sample.projectBody "alice" Sample.world "  Demo "
                 eq_refl B C) as (w' & E & _).
    exists w'. exact E. }
  split; [exact (S1 Sample.blankNameServerBody "alice" Sample.world I)|].
  split.
  { exact (S2 Sample.blankUrlServerBody "alice" Sample.world "Tools"
              eq_refl eq_refl eq_refl). }
  split.
  { destruct (S3 Sample.serverBody "alice" Sample.world " Tools "
                 " https://tools.example.com " eq_refl eq_refl eq_refl
                 eq_refl D eq_refl) as (stored & w' & E & _ & Hn & Hu & Hd).
    exists stored, w'. repeat split; assumption. }
  split; [reflexivity|].
  exact (S4 Sample.danglingServerBody "alice" Sample.world "Tools"
            "https://tools.example.com" eq_refl eq_refl eq_refl eq_refl
            eq_refl).
Defined.

(* ================================================================== *)
(** * Further properties *)
(* ================================================================== *)

(** ** File extensions and MIME types *)

Section Extensions.

Lemma noDot_app_dot (base r : string) :
  JS.noDot (base ++ String "." r) = false.
Proof.
  induction base as [|c base IH]; simpl; [reflexivity|].
  rewrite IH. apply andb_false_r.
Qed.

Lemma matchExtension_suffix (base r : string) :
  JS.truthy r = true -> JS.noDot r = true ->
  JS.matchExtension (base ++ String "." r) = Some (String "." r).
Proof.
  intros T N. induction base as [|c base IH].
  - simpl. rewrite T, N. reflexivity.
  - cbn [append JS.matchExtension]. rewrite noDot_app_dot, andb_false_r.
    exact IH.
Qed.

Lemma matchExtension_found (s e : string) :
  JS.matchExtension s = Some e ->
  exists base r, s = base ++ String "." r /\ e = String "." r
                 /\ JS.truthy r = true /\ JS.noDot r = true.
Proof.
  induction s as [|c s IH]; simpl; [discriminate|].
  destruct (Ascii.eqb_spec c "."%char) as [->|C]; simpl.
  - destruct (JS.truthy s) eqn:T; simpl.
    + destruct (JS.noDot s) eqn:N.
      * intros H. inversion H. exists EmptyString, s. auto.
      * intros H. destruct (IH H) as (base & r & -> & -> & T' & N').
        exists (String "." base), r. auto.
    + intros H. destruct (IH H) as (base & r & -> & -> & T' & N').
      exists (String "." base), r. auto.
  - intros H. destruct (IH H) as (base & r & -> & -> & T' & N').
    exists (String c base), r. auto.
Qed.

Lemma toLowerCase_app (a b : string) :
  JS.toLowerCase (a ++ b) = JS.toLowerCase a ++ JS.toLowerCase b.
Proof.
  induction a as [|c a IH]; simpl; [reflexivity|]. rewrite IH. reflexivity.
Qed.

Lemma lookup_in_table key (table : list (string * string)) v :
  DocumentAttachment.lookup key table = Some v -> In v (map snd table).
Proof.
  induction table as [|[k w] table IH]; simpl; [discriminate|].
  destruct (String.eqb k key); [intros H; inversion H; auto|].
  intros H. right. apply IH. exact H.
Qed.

Lemma extension_map_supported :
  forallb DocumentAttachment.isSupportedDocumentType
          (map snd DocumentAttachment.DOCUMENT_EXTENSION_MAP) = true.
Proof. reflexivity. Qed.

Lemma resolveMimeType_supported file mimeType :
  UseDocumentUpload.resolveMimeType file = Some mimeType ->
  DocumentAttachment.isSupportedDocumentType mimeType = true.
Proof.
  unfold UseDocumentUpload.resolveMimeType.
  destruct (DocumentAttachment.isSupportedDocumentType
              (UseDocumentUpload.file_type file)) eqn:S.
  - intros H. inversion H. subst. exact S.
  - unfold DocumentAttachment.getMimeTypeFromExtension.
    destruct (JS.matchExtension _); [|discriminate].
    intros H. apply lookup_in_table in H.
    pose proof extension_map_supported as F.
    rewrite forallb_forall in F. apply F. exact H.
Qed.

Lemma substring_length_le (n : nat) (s : string) :
  (String.length (substring 0 n s) <= n)%nat.
Proof.
  revert s. induction n as [|n IH]; intros [|c s]; simpl; try lia.
  specialize (IH s). lia.
Qed.

Lemma length_app_string (a b : string) :
  String.length (a ++ b) = (String.length a + String.length b)%nat.
Proof.
  induction a as [|c a IH]; simpl; [reflexivity|]. rewrite IH. reflexivity.
Qed.

End Extensions.

(** The pattern [/\.[^.]+$/] recognises exactly the names that end in a
    dot followed by one or more characters other than a dot, and what it
    matches is that ending: the part of the name from its last dot on. *)
Theorem matchExtension_is_last_dot_suffix (s e : string) :
  JS.matchExtension s = Some e
  <-> exists base r, s = base ++ String "." r /\ e = String "." r
                     /\ r <> EmptyString /\ JS.noDot r = true.
Proof.
  split.
  - intros H. destruct (matchExtension_found _ H) as (base & r & A & B & T & N).
    exists base, r. repeat split; auto. intros ->. discriminate T.
  - intros (base & r & -> & -> & T & N).
    apply matchExtension_suffix; [|exact N].
    destruct r; [contradiction|reflexivity].
Qed.

(** Whatever [processDocumentFile] accepts comes out as an attachment that
    carries the identifier, name and size of the file, a size within
    [maxSizeBytes], a supported MIME type, at least one line, a text of at
    most [maxChars] characters plus the 25 of the truncation marker, and
    an extension that is empty or a dot followed by dot-free text. *)
Theorem processDocumentFile_output options docId file doc :
  UseDocumentUpload.processDocumentFile options docId file = Some doc ->
  DocumentAttachment.id doc = docId
  /\ DocumentAttachment.filename doc = UseDocumentUpload.file_name file
  /\ DocumentAttachment.size doc = UseDocumentUpload.file_size file
  /\ DocumentAttachment.size doc <= UseDocumentUpload.maxSizeBytes options
  /\ DocumentAttachment.isSupportedDocumentType
       (DocumentAttachment.mimeType doc) = true
  /\ (1 <= DocumentAttachment.lineCount doc)%nat
  /\ (String.length (DocumentAttachment.textContent doc)
      <= Z.to_nat (UseDocumentUpload.maxChars options) + 25)%nat
  /\ (DocumentAttachment.extension doc = EmptyString
      \/ exists r, DocumentAttachment.extension doc = String "." r
                   /\ r <> EmptyString /\ JS.noDot r = true).
Proof.
  unfold UseDocumentUpload.processDocumentFile.
  destruct (UseDocumentUpload.file_size file
            >? UseDocumentUpload.maxSizeBytes options) eqn:Z; [discriminate|].
  rewrite Z.gtb_ltb in Z. apply Z.ltb_ge in Z.
  destruct (UseDocumentUpload.resolveMimeType file) as [m|] eqn:M;
    [|discriminate].
  destruct (UseDocumentUpload.extractText file m) as [text|]; [|discriminate].
  unfold UseDocumentUpload.truncateContent.
  destruct (Z.of_nat (String.length text)
            >? UseDocumentUpload.maxChars options) eqn:L;
    intros H; inversion H; subst; clear H;
    cbn [DocumentAttachment.id DocumentAttachment.filename
         DocumentAttachment.size DocumentAttachment.mimeType
         DocumentAttachment.lineCount DocumentAttachment.textContent
         DocumentAttachment.extension];
    (split; [reflexivity|]); (split; [reflexivity|]);
    (split; [reflexivity|]); (split; [exact Z|]);
    (split; [exact (resolveMimeType_supported _ M)|]);
    (split; [unfold JS.splitLinesLength; lia|]); split.
  - rewrite length_app_string. unfold JS.substring0.
    pose proof (substring_length_le
                  (Z.to_nat (UseDocumentUpload.maxChars options)) text).
    change (String.length UseDocumentUpload.truncationMarker) with 25%nat.
    lia.
  - destruct (JS.matchExtension (UseDocumentUpload.file_name file)) as [e|]
      eqn:E; [right|left; reflexivity].
    apply matchExtension_is_last_dot_suffix in E.
    destruct E as (base & r & _ & -> & R & N). exists r. auto.
  - rewrite Z.gtb_ltb in L. apply Z.ltb_ge in L. lia.
  - destruct (JS.matchExtension (UseDocumentUpload.file_name file)) as [e|]
      eqn:E; [right|left; reflexivity].
    apply matchExtension_is_last_dot_suffix in E.
    destruct E as (base & r & _ & -> & R & N). exists r. auto.
Qed.

(** From a MIME type to an extension and back: for every supported MIME
    type, a file named with the extension [getExtensionFromMimeType] gives
    is recognised by [getMimeTypeFromExtension] as that MIME type,
    whatever precedes the extension; for an unsupported MIME type the
    extension given is [.txt]. *)
Theorem extension_round_trip (mimeType : string) :
  (DocumentAttachment.isSupportedDocumentType mimeType = true ->
   forall base,
     DocumentAttachment.getMimeTypeFromExtension
       (base ++ DocumentAttachment.getExtensionFromMimeType mimeType)
     = Some mimeType)
  /\ (DocumentAttachment.isSupportedDocumentType mimeType = false ->
      DocumentAttachment.getExtensionFromMimeType mimeType = ".txt").
Proof.
  split.
  - intros S base.
    unfold DocumentAttachment.isSupportedDocumentType in S.
    apply existsb_exists in S. destruct S as (x & I & E).
    apply String.eqb_eq in E. subst x.
    unfold DocumentAttachment.getMimeTypeFromExtension.
    rewrite toLowerCase_app.
    unfold DocumentAttachment.SUPPORTED_DOCUMENT_MIME_TYPES in I.
    simpl in I.
    repeat (destruct I as [<-|I];
            [match goal with
             | |- context [DocumentAttachment.getExtensionFromMimeType ?m] =>
                 let e := eval vm_compute in
                            (JS.toLowerCase
                               (DocumentAttachment.getExtensionFromMimeType m))
                 in change (JS.toLowerCase
                              (DocumentAttachment.getExtensionFromMimeType m))
                      with e
             end;
             rewrite matchExtension_suffix by reflexivity; reflexivity|]).
    contradiction.
  - intros S. unfold DocumentAttachment.getExtensionFromMimeType.
    destruct (find _ DocumentAttachment.DOCUMENT_EXTENSION_MAP) as [entry|]
      eqn:F; [|reflexivity].
    apply find_some in F. destruct F as [I E].
    apply String.eqb_eq in E. subst mimeType.
    pose proof extension_map_supported as A.
    rewrite forallb_forall in A.
    rewrite (A (snd entry)) in S by (apply in_map; exact I).
    discriminate S.
Qed.

Lemma extension_round_trip_witness :
  DocumentAttachment.isSupportedDocumentType "application/pdf" = true
  /\ DocumentAttachment.getMimeTypeFromExtension
       ("Report.Final"
          ++ DocumentAttachment.getExtensionFromMimeType "application/pdf")
     = Some "application/pdf"
  /\ DocumentAttachment.isSupportedDocumentType "image/png" = false
  /\ DocumentAttachment.getExtensionFromMimeType "image/png" = ".txt".
Proof.
  assert (A : DocumentAttachment.isSupportedDocumentType "application/pdf"
              = true) by reflexivity.
  assert (B : DocumentAttachment.isSupportedDocumentType "image/png" = false)
    by reflexivity.
  split; [exact A|].
  split; [exact (proj1 (extension_round_trip "application/pdf") A
                       "Report.Final")|].
  split; [exact B|].
  exact (proj2 (extension_round_trip "image/png") B).
Defined.

Lemma processDocumentFile_output_witness :
  UseDocumentUpload.processDocumentFile Sample.tightOptions "doc-1"
    Sample.notes
  = Some (DocumentAttachment.mkDocumentAttachment
            "doc-1" "notes.txt" "text/plain"
            ("abc" ++ UseDocumentUpload.truncationMarker) 6 3 true ".txt")
  /\ (String.length ("abc" ++ UseDocumentUpload.truncationMarker)
      <= Z.to_nat (UseDocumentUpload.maxChars Sample.tightOptions) + 25)%nat.
Proof.
  assert (A : UseDocumentUpload.processDocumentFile Sample.tightOptions
                "doc-1" Sample.notes
              = Some (DocumentAttachment.mkDocumentAttachment
                        "doc-1" "notes.txt" "text/plain"
                        ("abc" ++ UseDocumentUpload.truncationMarker)
                        6 3 true ".txt")) by reflexivity.
  split; [exact A|].
  exact (proj1 (proj2 (proj2 (proj2 (proj2 (proj2 (proj2
           (@processDocumentFile_output Sample.tightOptions "doc-1"
              Sample.notes _ A)))))))).
Defined.

(** ** The hook, one call at a time *)

Section HookCalls.




End HookCalls.



(** ** Deleting and unlinking *)

Section Deleting.

Lemma existsb_all_equal (x p : string) (l : list string) :
  l <> [] -> (forall y, In y l -> y = p) ->
  existsb (String.eqb x) l = String.eqb x p.
Proof.
  induction l as [|y l IH]; [congruence|]. intros _ H. simpl.
  rewrite (H y) by (left; reflexivity).
  destruct (String.eqb x p) eqn:E; [reflexivity|]. simpl.
  destruct l as [|z l]; [reflexivity|].
  rewrite IH; [reflexivity|discriminate|].
  intros k I. apply H. right. exact I.
Qed.

Lemma owned_project_found u p d :
  ownsProject u p d ->
  exists y, first (filter (ProjectsService.ownedProject u p) (projects d))
            = Some y.
Proof.
  intros (x & I & Hp & Hu).
  destruct (first_filter_found (ProjectsService.ownedProject u p) _ _ I)
    as (y & E & _); [apply ownedProject_iff; auto|].
  exists y. exact E.
Qed.

Lemma filter_negb_none {R} (f : R -> bool) (l : list R) :
  filter f (filter (fun r => negb (f r)) l) = [].
Proof.
  apply first_filter_none. intros x I. apply filter_In in I.
  destruct I as [_ N]. destruct (f x); [discriminate|reflexivity].
Qed.

Lemma filter_idem {R} (f : R -> bool) (l : list R) :
  filter f (filter f l) = filter f l.
Proof.
  induction l as [|x l IH]; simpl; [reflexivity|].
  destruct (f x) eqn:E; simpl; [rewrite E, IH|]; auto.
Qed.

End Deleting.

(** [deleteProject] by the owner answers [true], removes the project and,
    through the cascade, every link row of the project, and nothing else:
    the other projects and links, the apps and the servers stay.
    Afterwards the owner's [getProject] finds nothing and
    [getProjectApps] is empty. *)
Theorem deleteProject_cascades u p w :
  ownsProject u p (db w) ->
  exists w',
    ProjectsService.deleteProject u p w = (Ok true, w')
    /\ projects (db w')
       = filter (fun x => negb (ProjectsService.projectIs p x))
                (projects (db w))
    /\ projectApps (db w')
       = filter (fun l => negb (ProjectsService.linkOf p l))
                (projectApps (db w))
    /\ (forall l, In l (projectApps (db w')) -> pa_projectId l <> p)
    /\ apps (db w') = apps (db w)
    /\ mcpServers (db w') = mcpServers (db w)
    /\ ProjectsService.getProject u p w' = (Ok None, w')
    /\ ProjectsService.getProjectApps u p w' = (Ok [], w').
Proof.
  intros O. destruct (owned_project_found O) as (y & E).
  destruct O as (x & I & Hp & Hu).
  assert (G : forall l,
             existsb (String.eqb (pa_projectId l))
                     (map project_id
                          (filter (ProjectsService.projectIs p)
                                  (projects (db w))))
             = ProjectsService.linkOf p l).
  { intros l. apply existsb_all_equal.
    - intros N. apply map_eq_nil in N.
      assert (J : In x (filter (ProjectsService.projectIs p)
                               (projects (db w)))).
      { apply filter_In. split; [exact I|]. apply String.eqb_eq. exact Hp. }
      rewrite N in J. exact J.
    - intros k J. apply in_map_iff in J. destruct J as (q & <- & J).
      apply filter_In in J. destruct J as [_ J].
      apply String.eqb_eq in J. exact J. }
  assert (D : forall v,
             filter (ProjectsService.ownedProject v p)
                    (filter (fun x => negb (ProjectsService.projectIs p x))
                            (projects (db w))) = []).
  { intros v. apply first_filter_none. intros q J. apply filter_In in J.
    destruct J as [_ J]. unfold ProjectsService.ownedProject.
    unfold ProjectsService.projectIs in J.
    destruct (String.eqb (project_id q) p); [discriminate|reflexivity]. }
  eexists. split.
  { unfold ProjectsService.deleteProject. run_effects. rewrite E.
    run_effects. reflexivity. }
  cbn [db projects projectApps apps mcpServers].
  unfold deleteWhere.
  assert (L : filter (fun r => negb (existsb (String.eqb (pa_projectId r))
                        (map project_id
                             (filter (ProjectsService.projectIs p)
                                     (projects (db w))))))
                     (projectApps (db w))
              = filter (fun l => negb (ProjectsService.linkOf p l))
                       (projectApps (db w))).
  { apply filter_ext. intros l. rewrite G. reflexivity. }
  rewrite L.
  split; [reflexivity|]. split; [reflexivity|].
  split.
  { intros l J. apply filter_In in J. destruct J as [_ J].
    unfold ProjectsService.linkOf in J. intros K. rewrite K in J.
    rewrite String.eqb_refl in J. discriminate J. }
  split; [reflexivity|]. split; [reflexivity|].
  split.
  - unfold ProjectsService.getProject. run_effects. rewrite D. reflexivity.
  - unfold ProjectsService.getProjectApps. run_effects. rewrite D.
    reflexivity.
Qed.

(** [removeAppFromProject] on a project of the caller answers [true]
    whether or not the link was there; afterwards no link between the
    project and the app is left, all other links are as before, and a
    second call changes nothing more. *)
Theorem removeAppFromProject_idempotent u p a w :
  ownsProject u p (db w) ->
  exists w',
    ProjectsService.removeAppFromProject u p a w = (Ok true, w')
    /\ projectApps (db w')
       = filter (fun l => negb (ProjectsService.linkIs p a l))
                (projectApps (db w))
    /\ filter (ProjectsService.linkIs p a) (projectApps (db w')) = []
    /\ projects (db w') = projects (db w)
    /\ apps (db w') = apps (db w)
    /\ mcpServers (db w') = mcpServers (db w)
    /\ ProjectsService.removeAppFromProject u p a w' = (Ok true, w').
Proof.
  intros O. destruct (owned_project_found O) as (y & E).
  eexists. split.
  { unfold ProjectsService.removeAppFromProject. run_effects. rewrite E.
    run_effects. reflexivity. }
  cbn [db projects projectApps apps mcpServers]. unfold deleteWhere.
  split; [reflexivity|]. split; [apply filter_negb_none|].
  split; [reflexivity|]. split; [reflexivity|]. split; [reflexivity|].
  unfold ProjectsService.removeAppFromProject. run_effects. rewrite E.
  run_effects. unfold deleteWhere. rewrite filter_idem.
  destruct w; reflexivity.
Qed.

(** ** Listing *)

Section Ordering.

Context {R : Type} (column : R -> option Z).

Lemma timestampLeb_total (a b : option Z) :
  timestampLeb a b = false -> timestampLeb b a = true.
Proof.
  destruct a as [x|], b as [y|]; simpl; intros H;
    try reflexivity; try discriminate.
  apply Z.leb_gt in H. apply Z.leb_le. lia.
Qed.

Lemma timestampLeb_trans (a b c : option Z) :
  timestampLeb a b = true -> timestampLeb b c = true ->
  timestampLeb a c = true.
Proof.
  destruct a as [x|], b as [y|], c as [z|]; simpl; intros H K;
    try reflexivity; try discriminate.
  apply Z.leb_le in H, K. apply Z.leb_le. lia.
Qed.

Lemma insertDesc_permutation (r : R) (l : list R) :
  Permutation (insertDesc column r l) (r :: l).
Proof.
  induction l as [|x l IH]; simpl; [reflexivity|].
  destruct (timestampLeb (column x) (column r)); [reflexivity|].
  rewrite IH. apply perm_swap.
Qed.

Lemma orderByDesc_permutation (l : list R) :
  Permutation (orderByDesc column l) l.
Proof.
  induction l as [|x l IH]; simpl; [reflexivity|].
  rewrite insertDesc_permutation, IH. reflexivity.
Qed.

Lemma insertDesc_sorted (r : R) (l : list R) :
  decreasingBy column l -> decreasingBy column (insertDesc column r l).
Proof.
  unfold decreasingBy. intros S.
  induction S as [|x l S IH F]; simpl; [repeat constructor|].
  destruct (timestampLeb (column x) (column r)) eqn:E.
  - constructor; [constructor; assumption|].
    constructor; [exact E|].
    eapply Forall_impl; [|exact F]. intros y H. cbv beta in H.
    exact (timestampLeb_trans _ _ _ H E).
  - constructor; [exact IH|].
    apply (Permutation_Forall
             (Permutation_sym (insertDesc_permutation r l))).
    constructor; [apply timestampLeb_total; exact E|exact F].
Qed.

Lemma orderByDesc_sorted (l : list R) :
  decreasingBy column (orderByDesc column l).
Proof.
  induction l as [|x l IH]; simpl; [constructor|].
  apply insertDesc_sorted. exact IH.
Qed.

Lemma orderByDesc_in (l : list R) (r : R) :
  In r (orderByDesc column l) <-> In r l.
Proof.
  split; apply Permutation_in;
    [|apply Permutation_sym]; apply orderByDesc_permutation.
Qed.

End Ordering.

Section Counting.

Lemma forEach_reads {A B} (f : A -> M B) (g : A -> B) (w : World)
      (xs : list A) :
  (forall x, f x w = (Ok (g x), w)) ->
  forEach xs f w = (Ok (map g xs), w).
Proof.
  intros H. induction xs as [|x xs IH]; [reflexivity|].
  cbn [forEach map]. unfold bind. rewrite H, IH. reflexivity.
Qed.

End Counting.

(** [getUserProjects] answers with the caller's projects, all of them and
    each once, by decreasing [updatedAt] (a [NULL] last), each with the
    number of its link rows; it never lists a project of somebody else
    and writes nothing. *)
Theorem getUserProjects_own_sorted_counted u w :
  exists rows,
    ProjectsService.getUserProjects u w = (Ok rows, w)
    /\ Permutation
         (map ProjectsService.pwc_project rows)
         (filter (fun x => String.eqb (project_userId x) u)
                 (projects (db w)))
    /\ decreasingBy project_updatedAt (map ProjectsService.pwc_project rows)
    /\ Forall
         (fun r =>
            project_userId (ProjectsService.pwc_project r) = u
            /\ In (ProjectsService.pwc_project r) (projects (db w))
            /\ ProjectsService.appCount r
               = Z.of_nat
                   (List.length
                      (filter (ProjectsService.linkOf
                                 (project_id (ProjectsService.pwc_project r)))
                              (projectApps (db w)))))
         rows.
Proof.
  eexists. split.
  { unfold ProjectsService.getUserProjects. unfold bind at 1.
    unfold select at 1, getDb at 1, ret at 1. unfold bind at 1.
    apply (forEach_reads
             _
             (fun project =>
                ProjectsService.mkProjectWithAppCount project
                  (Z.of_nat
                     (List.length
                        (filter (ProjectsService.linkOf (project_id project))
                                (projectApps (db w))))))).
    intros x. reflexivity. }
  rewrite map_map. cbn [ProjectsService.pwc_project]. rewrite map_id.
  split; [apply orderByDesc_permutation|].
  split; [apply orderByDesc_sorted|].
  apply Forall_forall. intros r I. apply in_map_iff in I.
  destruct I as (x & <- & I). cbn.
  apply orderByDesc_in, filter_In in I. destruct I as [I E].
  apply String.eqb_eq in E. auto.
Qed.

(** [getUserServers] answers with the caller's servers, all of them and
    each once, by decreasing [createdAt]; [getEnabledServers] with those
    of them whose [enabled] is [true], by decreasing [createdAt] too: a
    server is in the second list exactly when it is in the first and its
    [enabled] is [true] (a [NULL] there does not count as enabled).
    Neither writes. *)
Theorem server_lists_own_sorted u w :
  exists servers enabled,
    MCPServersService.getUserServers u w = (Ok servers, w)
    /\ MCPServersService.getEnabledServers u w = (Ok enabled, w)
    /\ Permutation servers
         (filter (fun s => String.eqb (mcp_userId s) u) (mcpServers (db w)))
    /\ Permutation enabled
         (filter (fun s => match mcp_enabled s with
                           | Some true => true
                           | _ => false
                           end)
                 (filter (fun s => String.eqb (mcp_userId s) u)
                         (mcpServers (db w))))
    /\ decreasingBy mcp_createdAt servers
    /\ decreasingBy mcp_createdAt enabled
    /\ (forall s, In s enabled <-> In s servers /\ mcp_enabled s = Some true).
Proof.
  eexists. eexists.
  split; [reflexivity|]. split; [reflexivity|].
  split; [apply orderByDesc_permutation|].
  assert (F : filter (fun s => (String.eqb (mcp_userId s) u
                                && MCPServersService.enabledIsTrue s)%bool)
                     (mcpServers (db w))
              = filter (fun s => match mcp_enabled s with
                                 | Some true => true
                                 | _ => false
                                 end)
                       (filter (fun s => String.eqb (mcp_userId s) u)
                               (mcpServers (db w)))).
  { induction (mcpServers (db w)) as [|x l IH]; [reflexivity|].
    cbn [filter]. unfold MCPServersService.enabledIsTrue at 1.
    destruct (String.eqb (mcp_userId x) u); cbn [andb filter];
      [destruct (mcp_enabled x) as [[|]|]; rewrite IH; reflexivity|exact IH]. }
  split; [rewrite <- F; apply orderByDesc_permutation|].
  split; [apply orderByDesc_sorted|]. split; [apply orderByDesc_sorted|].
  intros s. rewrite !orderByDesc_in, F, !filter_In. split.
  - intros [[I E] T]. repeat split; auto.
    destruct (mcp_enabled s) as [[|]|]; [reflexivity|discriminate|discriminate].
  - intros [[I E] T]. repeat split; auto. rewrite T. reflexivity.
Qed.

(** ** Creating *)

Section Creating.

Context {R : Type} (key : R -> string).

Lemma filter_owned_snoc (g : R -> bool) (x : R) (l : list R) :
  ~ In (key x) (map key l) ->
  filter (fun q => (String.eqb (key q) (key x) && g q)%bool) (l ++ [x])
  = if g x then [x] else [].
Proof.
  intros H. rewrite filter_app.
  rewrite (@first_filter_none _ _ l).
  - simpl. rewrite String.eqb_refl. reflexivity.
  - intros q I. destruct (String.eqb_spec (key q) (key x)) as [E|E];
      [|reflexivity].
    exfalso. apply H. rewrite <- E. apply in_map. exact I.
Qed.

End Creating.

(** [createProject] with a fresh identifier stores and returns a project
    of the caller in status [draft] with the name and description given
    and the two instants read from the clock.  Read back with
    [getProject], the owner gets that project with an app count of 0 (no
    link refers to the new identifier), anybody else gets nothing, and
    [getProjectApps] is empty. *)
Theorem createProject_then_getProject u data w :
  ~ In (idSupply w (idsDrawn w)) (map project_id (projects (db w))) ->
  ~ In (idSupply w (idsDrawn w)) (map pa_projectId (projectApps (db w))) ->
  exists x w',
    ProjectsService.createProject u data w = (Ok (Some x), w')
    /\ x = mkProject (idSupply w (idsDrawn w)) u
                     (ProjectsService.create_name data)
                     (ProjectsService.create_description data)
                     draft
                     (Some (clock w (clockReads w)))
                     (Some (clock w (S (clockReads w))))
    /\ projects (db w') = (projects (db w) ++ [x])%list
    /\ projectApps (db w') = projectApps (db w)
    /\ ProjectsService.getProject u (project_id x) w'
       = (Ok (Some (ProjectsService.mkProjectWithAppCount x 0)), w')
    /\ (forall v, v <> u ->
                  ProjectsService.getProject v (project_id x) w'
                  = (Ok None, w'))
    /\ ProjectsService.getProjectApps u (project_id x) w' = (Ok [], w').
Proof.
  intros Hfresh Hlinks.
  set (x := mkProject (idSupply w (idsDrawn w)) u
                      (ProjectsService.create_name data)
                      (ProjectsService.create_description data)
                      draft
                      (Some (clock w (clockReads w)))
                      (Some (clock w (S (clockReads w))))).
  assert (Hx : ~ In (project_id x) (map project_id (projects (db w))))
    by exact Hfresh.
  assert (O : forall v,
             filter (ProjectsService.ownedProject v (project_id x))
                    (projects (db w) ++ [x])
             = if String.eqb u v then [x] else []).
  { intros v. unfold ProjectsService.ownedProject.
    rewrite (@filter_owned_snoc _ project_id
               (fun q => String.eqb (project_userId q) v) x _ Hx).
    reflexivity. }
  assert (C : filter (ProjectsService.linkOf (project_id x))
                     (projectApps (db w)) = []).
  { apply (@filter_key_fresh _ pa_projectId). exact Hlinks. }
  exists x. eexists. split.
  { unfold ProjectsService.createProject, insertProject. run_effects.
    cbn [project_id]. rewrite (@existsb_key_fresh _ project_id _ _ Hfresh).
    run_effects. unfold ProjectsService.projectIs.
    pose proof (@filter_key_snoc _ project_id x _ Hx) as S.
    unfold x in S. cbn [project_id] in S. rewrite S. reflexivity. }
  cbn [db projects projectApps apps].
  split; [reflexivity|]. split; [reflexivity|]. split; [reflexivity|].
  split; [|split].
  - unfold ProjectsService.getProject. run_effects.
    rewrite O, String.eqb_refl. cbn [first firstn hd_error]. run_effects.
    rewrite C. reflexivity.
  - intros v N. unfold ProjectsService.getProject. run_effects.
    rewrite O. destruct (String.eqb_spec u v) as [E|E];
      [congruence|reflexivity].
  - unfold ProjectsService.getProjectApps. run_effects.
    rewrite O, String.eqb_refl. cbn [first firstn hd_error]. run_effects.
    rewrite join_rows, C. reflexivity.
Qed.

(** [createServer] with a fresh identifier and an input the store
    accepts (its [authSecretId] is absent, [null] or the identifier of a
    stored secret) stores and returns a server of the caller with the
    name and address given; [transport] defaults to [http], [authType] to
    [none], [enabled] to [true], a missing or [null] secret reference and
    description to [NULL]; and whatever the input, [status] is [unknown]
    and [lastChecked] and [lastError] are [NULL].  [getServer] gives the
    owner that server back and anybody else nothing.  With an input whose
    [authSecretId] names no stored secret the insert fails on the foreign
    key of the column: the call throws and stores nothing. *)
Theorem createServer_defaults_then_getServer u data w :
  ~ In (idSupply w (idsDrawn w)) (map mcp_id (mcpServers (db w))) ->
  (secretExists (db w)
     (MCPServersService.orNull (MCPServersService.input_authSecretId data))
   = true ->
  exists s w',
    MCPServersService.createServer u data w = (Ok (Some s), w')
    /\ mcpServers (db w') = (mcpServers (db w) ++ [s])%list
    /\ mcp_id s = idSupply w (idsDrawn w)
    /\ mcp_userId s = u
    /\ mcp_name s = MCPServersService.input_name data
    /\ mcp_url s = MCPServersService.input_url data
    /\ mcp_transport s
       = match MCPServersService.input_transport data with
         | Some t => t | None => http end
    /\ mcp_authType s
       = match MCPServersService.input_authType data with
         | Some t => t | None => none end
    /\ mcp_authSecretId s
       = match MCPServersService.input_authSecretId data with
         | Some (Some k) => Some k | _ => None end
    /\ mcp_description s
       = match MCPServersService.input_description data with
         | Some (Some d) => Some d | _ => None end
    /\ mcp_enabled s
       = match MCPServersService.input_enabled data with
         | Some b => Some b | None => Some true end
    /\ mcp_status s = unknown
    /\ mcp_lastChecked s = None
    /\ mcp_lastError s = None
    /\ MCPServersService.getServer u (mcp_id s) w' = (Ok (Some s), w')
    /\ (forall v, v <> u ->
                  MCPServersService.getServer v (mcp_id s) w' = (Ok None, w')))
  /\ (secretExists (db w)
        (MCPServersService.orNull (MCPServersService.input_authSecretId data))
      = false ->
      exists w',
        MCPServersService.createServer u data w
        = (Throw (ForeignKeyViolation "mcp_servers"), w')
        /\ db w' = db w).
Proof.
  intros Hfresh. split; intros Hsecret.
  2:{ unfold MCPServersService.createServer, insertMcpServer. run_effects.
      cbn [mcp_id mcp_authSecretId].
      rewrite (@existsb_key_fresh _ mcp_id _ _ Hfresh), Hsecret.
      cbn [negb]. run_effects. eexists. split; reflexivity. }
  eexists. eexists. split.
  { unfold MCPServersService.createServer, insertMcpServer. run_effects.
    cbn [mcp_id mcp_authSecretId].
    rewrite (@existsb_key_fresh _ mcp_id _ _ Hfresh), Hsecret. cbn [negb].
    run_effects. unfold MCPServersService.serverIs.
    match goal with
    | |- context [filter _ (_ ++ [?x])] =>
        pose proof (@filter_key_snoc _ mcp_id x _ Hfresh) as S
    end.
    cbn [mcp_id] in S. rewrite S. reflexivity. }
  run_effects.
  match goal with
  | |- (_ ++ [?x])%list = _ /\ _ => set (s := x)
  end.
  assert (Hs : ~ In (mcp_id s) (map mcp_id (mcpServers (db w))))
    by exact Hfresh.
  assert (O : forall v,
             filter (MCPServersService.ownedServer v (mcp_id s))
                    (mcpServers (db w) ++ [s])
             = if String.eqb u v then [s] else []).
  { intros v. unfold MCPServersService.ownedServer.
    rewrite (@filter_owned_snoc _ mcp_id
               (fun q => String.eqb (mcp_userId q) v) s _ Hs).
    reflexivity. }
  split; [reflexivity|]. split; [reflexivity|]. split; [reflexivity|].
  split; [reflexivity|]. split; [reflexivity|].
  split; [cbn; destruct (MCPServersService.input_transport data);
          reflexivity|].
  split; [cbn; destruct (MCPServersService.input_authType data);
          reflexivity|].
  split; [cbn; destruct (MCPServersService.input_authSecretId data)
                 as [[k|]|]; reflexivity|].
  split; [cbn; destruct (MCPServersService.input_description data)
                 as [[d|]|]; reflexivity|].
  split; [cbn; destruct (MCPServersService.input_enabled data);
          reflexivity|].
  split; [reflexivity|]. split; [reflexivity|]. split; [reflexivity|].
  split.
  - unfold MCPServersService.getServer. run_effects.
    rewrite O, String.eqb_refl. reflexivity.
  - intros v N. unfold MCPServersService.getServer. run_effects.
    rewrite O. destruct (String.eqb_spec u v) as [E|E];
      [congruence|reflexivity].
Qed.

(** ** Recording the outcome of a connection test *)

Section StatusWrites.

Lemma updateServerStatus_owned u status err w (s : MCPServer) :
  NoDup (map mcp_id (mcpServers (db w))) ->
  In s (mcpServers (db w)) -> mcp_userId s = u ->
  let set :=
    MCPServersService.mkServerSet
      None None None None None None None
      (Some status) (Some (Some (clock w (clockReads w)))) (Some err)
      (Some (Some (clock w (S (clockReads w))))) in
  MCPServersService.updateServerStatus u (mcp_id s) status err w
  = (Ok (Some (MCPServersService.applySet set s)),
     mkWorld
       (with_mcpServers
          (updateWhere (MCPServersService.serverIs (mcp_id s))
                       (MCPServersService.applySet set)
                       (mcpServers (db w)))
          (db w))
       (idSupply w) (idsDrawn w) (clock w) (S (S (clockReads w)))).
Proof.
  intros N I U set.
  unfold MCPServersService.updateServerStatus. run_effects.
  rewrite (@owned_server_selected u s _ N I U). cbn [first firstn hd_error].
  run_effects. fold set.
  rewrite (@server_row_updated set s _ N I). reflexivity.
Qed.

End StatusWrites.

(** [updateServerStatus] on a server of the caller writes [status],
    [lastChecked] (the time of the call), [lastError] (the error given, or
    [NULL]) and [updatedAt], and nothing else: the configuration of the
    server ([name], [url], [transport], [authType], [authSecretId],
    [description], [enabled]) is as before, and so is every other row. *)
Theorem updateServerStatus_frame u status err w (s : MCPServer) :
  NoDup (map mcp_id (mcpServers (db w))) ->
  In s (mcpServers (db w)) ->
  mcp_userId s = u ->
  exists s' w',
    MCPServersService.updateServerStatus u (mcp_id s) status err w
    = (Ok (Some s'), w')
    /\ filter (MCPServersService.serverIs (mcp_id s)) (mcpServers (db w'))
       = [s']
    /\ filter (fun r => negb (MCPServersService.serverIs (mcp_id s) r))
              (mcpServers (db w'))
       = filter (fun r => negb (MCPServersService.serverIs (mcp_id s) r))
                (mcpServers (db w))
    /\ mcp_status s' = status
    /\ mcp_lastChecked s' = Some (clock w (clockReads w))
    /\ mcp_lastError s' = err
    /\ mcp_updatedAt s' = Some (clock w (S (clockReads w)))
    /\ s' = mkMCPServer (mcp_id s) (mcp_userId s) (mcp_name s) (mcp_url s)
                        (mcp_transport s) (mcp_authType s)
                        (mcp_authSecretId s) (mcp_enabled s)
                        status (Some (clock w (clockReads w))) err
                        (mcp_description s) (mcp_createdAt s)
                        (Some (clock w (S (clockReads w)))).
Proof.
  intros N I U.
  eexists. eexists. split; [apply updateServerStatus_owned; assumption|].
  cbn [db mcpServers with_mcpServers].
  split; [apply server_row_updated; assumption|].
  split; [apply server_rows_kept|].
  repeat split; reflexivity.
Qed.

(** After [testConnection] on a server of the caller, the stored server
    carries the outcome that was returned: its [status] is the status of
    the answer, [lastChecked] is the time of the write, [lastError] is the
    message of the answer when the status is [error] or [disconnected]
    and [NULL] when it is [connected]; its configuration is untouched. *)
Theorem testConnection_persists_outcome fetch u w (s : MCPServer) :
  NoDup (map mcp_id (mcpServers (db w))) ->
  In s (mcpServers (db w)) ->
  mcp_userId s = u ->
  mcp_id s <> EmptyString ->
  exists data w',
    MCPServersController.testConnection fetch u (Some (mcp_id s)) w
    = (BaseController.SuccessResponse data, w')
    /\ filter (MCPServersService.serverIs (mcp_id s)) (mcpServers (db w'))
       = [mkMCPServer
            (mcp_id s) (mcp_userId s) (mcp_name s) (mcp_url s)
            (mcp_transport s) (mcp_authType s)
            (mcp_authSecretId s) (mcp_enabled s)
            (MCPServersController.status data)
            (Some (clock w (S (S (clockReads w)))))
            (match MCPServersController.status data with
             | connected => None
             | _ => Some (MCPServersController.test_message data)
             end)
            (mcp_description s) (mcp_createdAt s)
            (Some (clock w (S (S (S (clockReads w))))))]
    /\ MCPServersController.status data <> unknown.
Proof.
  intros N I U Hid.
  assert (G : MCPServersService.getServer u (mcp_id s) w = (Ok (Some s), w)).
  { unfold MCPServersService.getServer. run_effects.
    rewrite (@owned_server_selected u s _ N I U). reflexivity. }
  unfold MCPServersController.testConnection, BaseController.tryCatch.
  destruct (mcp_id s) as [|c k] eqn:K; [congruence|]. rewrite <- K in *.
  unfold bind at 1. rewrite G.
  destruct (fetch _) as [[|] code|[m|]];
    run_effects; cbn [MCPServersController.serverStatus_eqb orb];
    match goal with
    | |- context [MCPServersService.updateServerStatus u (mcp_id s) ?st ?e ?w2] =>
        rewrite (@updateServerStatus_owned u st e w2 s N I U)
    end;
    run_effects;
    eexists; eexists; (split; [reflexivity|]);
    cbn [MCPServersController.status MCPServersController.test_message
         db mcpServers with_mcpServers];
    (split; [rewrite (@server_row_updated _ s _ N I); reflexivity
            |discriminate]).
Qed.

(** ** The controllers: what they answer *)

Section ControllerAnswers.

Lemma server_not_owned u k (l : list MCPServer) :
  (forall s, In s l -> mcp_id s = k -> mcp_userId s <> u) ->
  filter (MCPServersService.ownedServer u k) l = [].
Proof.
  intros H. apply first_filter_none. intros x I.
  unfold MCPServersService.ownedServer.
  destruct (String.eqb_spec (mcp_id x) k) as [E|E]; [|reflexivity].
  destruct (String.eqb_spec (mcp_userId x) u) as [F|F]; [|reflexivity].
  exfalso. exact (H x I E F).
Qed.

Lemma present_none_cases (param : option string) :
  ProjectsController.present param = None ->
  param = None \/ param = Some EmptyString.
Proof. destruct param as [[|c s]|]; simpl; auto; discriminate. Qed.

Lemma trim_blank (s : string) :
  allWhiteSpace s = true -> JS.trim s = EmptyString.
Proof.
  intros H. apply trim_falsy_iff in H.
  destruct (JS.trim s); [reflexivity|discriminate].
Qed.

End ControllerAnswers.

(** Every endpoint that takes an identifier from the path answers 400
    when the identifier is missing or empty, before it reads the body or
    calls the service: the world is left as it was, and for the
    connection test no request goes out. *)
Theorem missing_path_parameter_is_400 (param : option string) userId w :
  ProjectsController.present param = None ->
  ProjectsController.getProject userId param w
  = (BaseController.ErrorResponse "Project ID is required" 400, w)
  /\ (forall body,
        ProjectsController.updateProject body userId param w
        = (BaseController.ErrorResponse "Project ID is required" 400, w))
  /\ ProjectsController.deleteProject userId param w
     = (BaseController.ErrorResponse "Project ID is required" 400, w)
  /\ ProjectsController.getProjectApps userId param w
     = (BaseController.ErrorResponse "Project ID is required" 400, w)
  /\ (forall other,
        ProjectsController.addAppToProject userId param other w
        = (BaseController.ErrorResponse
             "Project ID and App ID are required" 400, w)
        /\ ProjectsController.addAppToProject userId other param w
           = (BaseController.ErrorResponse
                "Project ID and App ID are required" 400, w)
        /\ ProjectsController.removeAppFromProject userId param other w
           = (BaseController.ErrorResponse
                "Project ID and App ID are required" 400, w)
        /\ ProjectsController.removeAppFromProject userId other param w
           = (BaseController.ErrorResponse
                "Project ID and App ID are required" 400, w))
  /\ MCPServersController.getServer userId param w
     = (BaseController.ErrorResponse "Server ID is required" 400, w)
  /\ (forall body,
        MCPServersController.updateServer body userId param w
        = (BaseController.ErrorResponse "Server ID is required" 400, w))
  /\ MCPServersController.deleteServer userId param w
     = (BaseController.ErrorResponse "Server ID is required" 400, w)
  /\ MCPServersController.toggleServer userId param w
     = (BaseController.ErrorResponse "Server ID is required" 400, w)
  /\ (forall fetch,
        MCPServersController.testConnection fetch userId param w
        = (BaseController.ErrorResponse "Server ID is required" 400, w)).
Proof.
  intros H. apply present_none_cases in H.
  destruct H as [-> | ->];
    (split; [reflexivity|]); (split; [reflexivity|]);
    (split; [reflexivity|]); (split; [reflexivity|]);
    (split;
     [intros other;
      unfold ProjectsController.addAppToProject,
        ProjectsController.removeAppFromProject;
      cbn [ProjectsController.present];
      destruct (ProjectsController.present other); repeat split; reflexivity
     |]);
    repeat split; reflexivity.
Qed.

(** An identifier under which the caller owns nothing gets 404 from every
    endpoint, whether a resource of somebody else is stored under it or
    none at all, and the world stays as it was: no write, and for the
    connection test no request.  The one exception is the list of the
    apps of a project, which answers with success and an empty list. *)
Theorem not_owned_is_404 userId (k : string) w :
  k <> EmptyString ->
  (noOwnedProject userId k (db w) ->
   ProjectsController.getProject userId (Some k) w
   = (BaseController.ErrorResponse "Project not found" 404, w)
   /\ (forall body,
         ProjectsController.updateProject (BaseController.BodySuccess body)
           userId (Some k) w
         = (BaseController.ErrorResponse "Project not found" 404, w))
   /\ ProjectsController.deleteProject userId (Some k) w
      = (BaseController.ErrorResponse "Project not found" 404, w)
   /\ ProjectsController.getProjectApps userId (Some k) w
      = (BaseController.SuccessResponse [], w)
   /\ (forall appId, appId <> EmptyString ->
         ProjectsController.addAppToProject userId (Some k) (Some appId) w
         = (BaseController.ErrorResponse "Project or app not found" 404, w)
         /\ ProjectsController.removeAppFromProject
              userId (Some k) (Some appId) w
            = (BaseController.ErrorResponse "Project not found" 404, w)))
  /\ (noOwnedServer userId k (db w) ->
      MCPServersController.getServer userId (Some k) w
      = (BaseController.ErrorResponse "MCP server not found" 404, w)
      /\ (forall body,
            MCPServersController.updateServer (BaseController.BodySuccess body)
              userId (Some k) w
            = (BaseController.ErrorResponse "MCP server not found" 404, w))
      /\ MCPServersController.deleteServer userId (Some k) w
         = (BaseController.ErrorResponse "MCP server not found" 404, w)
      /\ MCPServersController.toggleServer userId (Some k) w
         = (BaseController.ErrorResponse "MCP server not found" 404, w)
      /\ (forall fetch,
            MCPServersController.testConnection fetch userId (Some k) w
            = (BaseController.ErrorResponse "MCP server not found" 404, w))).
Proof.
  intros Hk. destruct k as [|c k]; [congruence|].
  split; intros H.
  - apply project_not_owned in H.
    unfold ProjectsController.getProject, ProjectsController.updateProject,
      ProjectsController.deleteProject, ProjectsController.getProjectApps,
      ProjectsController.addAppToProject,
      ProjectsController.removeAppFromProject, BaseController.tryCatch,
      ProjectsService.getProject, ProjectsService.updateProject,
      ProjectsService.deleteProject, ProjectsService.getProjectApps,
      ProjectsService.addAppToProject, ProjectsService.removeAppFromProject.
    run_effects. rewrite H.
    repeat split; try reflexivity;
      destruct appId; try congruence; cbn [ProjectsController.present];
      run_effects; rewrite H; reflexivity.
  - apply server_not_owned in H.
    unfold MCPServersController.getServer, MCPServersController.updateServer,
      MCPServersController.deleteServer, MCPServersController.toggleServer,
      MCPServersController.testConnection, BaseController.tryCatch,
      MCPServersService.getServer, MCPServersService.updateServer,
      MCPServersService.deleteServer, MCPServersService.toggleServer.
    run_effects. rewrite H. repeat split; reflexivity.
Qed.

(** [PUT /api/mcp/:serverId] on a server of the caller stores the name
    and address of the body trimmed, without checking that anything is
    left of them; a description in the body is stored trimmed, while a
    [null] description leaves the stored description as it is; a [null]
    secret reference, on the other hand, clears the stored one, and a
    secret reference that names a stored secret is stored.  A secret
    reference that names no stored secret makes the update fail on the
    foreign key of the column: the answer is the 500 envelope and the
    store is left as it was. *)
Theorem updateServer_controller_fields body u w (s : MCPServer) :
  NoDup (map mcp_id (mcpServers (db w))) ->
  In s (mcpServers (db w)) ->
  mcp_userId s = u ->
  mcp_id s <> EmptyString ->
  (secretExists (db w)
     (MCPServersService.orNull (MCPServersController.update_authSecretId body))
   = true ->
  exists s' w',
    MCPServersController.updateServer (BaseController.BodySuccess body)
      u (Some (mcp_id s)) w
    = (BaseController.SuccessResponse
         (s', "MCP server updated successfully"), w')
    /\ filter (MCPServersService.serverIs (mcp_id s)) (mcpServers (db w'))
       = [s']
    /\ mcp_name s'
       = match MCPServersController.update_name body with
         | Some n => JS.trim n | None => mcp_name s end
    /\ mcp_url s'
       = match MCPServersController.update_url body with
         | Some n => JS.trim n | None => mcp_url s end
    /\ mcp_description s'
       = match MCPServersController.update_description body with
         | Some (Some d) => Some (JS.trim d)
         | Some None => mcp_description s
         | None => mcp_description s
         end
    /\ mcp_authSecretId s'
       = match MCPServersController.update_authSecretId body with
         | Some (Some k) => Some k
         | Some None => None
         | None => mcp_authSecretId s
         end
    /\ (forall n, MCPServersController.update_name body = Some n ->
                  allWhiteSpace n = true -> mcp_name s' = EmptyString))
  /\ (secretExists (db w)
        (MCPServersService.orNull
           (MCPServersController.update_authSecretId body))
      = false ->
      exists w',
        MCPServersController.updateServer (BaseController.BodySuccess body)
          u (Some (mcp_id s)) w
        = (BaseController.ErrorResponse "Failed to update MCP server" 500, w')
        /\ db w' = db w).
Proof.
  intros N I U Hid. split; intros Hsecret.
  2:{ unfold MCPServersController.updateServer, BaseController.tryCatch.
      destruct (mcp_id s) as [|c k] eqn:K; [congruence|]. rewrite <- K in *.
      unfold bind at 1.
      match goal with
      | |- context [MCPServersService.updateServer u _ ?d w] =>
          rewrite (@updateServer_refused u d w s N I U Hsecret)
      end.
      eexists. split; reflexivity. }
  unfold MCPServersController.updateServer, BaseController.tryCatch.
  destruct (mcp_id s) as [|c k] eqn:K; [congruence|]. rewrite <- K in *.
  unfold bind at 1.
  match goal with
  | |- context [MCPServersService.updateServer u _ ?d w] =>
      rewrite (@updateServer_owned u d w s N I U Hsecret)
  end.
  eexists. eexists. split; [reflexivity|].
  cbn [db mcpServers with_mcpServers].
  split; [apply server_row_updated; assumption|].
  destruct body as [n ur t a sec d e].
  cbn [MCPServersController.update_name MCPServersController.update_url
       MCPServersController.update_description
       MCPServersController.update_authSecretId].
  split; [destruct n; reflexivity|]. split; [destruct ur; reflexivity|].
  split; [destruct d as [[x|]|]; reflexivity|].
  split; [destruct sec as [[x|]|]; reflexivity|].
  intros m E B. inversion E. subst. cbn. apply trim_blank. exact B.
Qed.

(** [PUT /api/projects/:projectId] on a project of the caller stores the
    name and description of the body trimmed and the status as given, and
    leaves what the body does not carry; unlike the creation it does not
    turn a blank name down: a name of white space only is stored as the
    empty string. *)
Theorem updateProject_controller_fields body u w (x : Project) :
  NoDup (map project_id (projects (db w))) ->
  In x (projects (db w)) ->
  project_userId x = u ->
  project_id x <> EmptyString ->
  exists x' w',
    ProjectsController.updateProject (BaseController.BodySuccess body)
      u (Some (project_id x)) w
    = (BaseController.SuccessResponse
         (x', "Project updated successfully"), w')
    /\ filter (ProjectsService.projectIs (project_id x)) (projects (db w'))
       = [x']
    /\ project_name x'
       = match ProjectsController.update_name body with
         | Some n => JS.trim n | None => project_name x end
    /\ project_description x'
       = match ProjectsController.update_description body with
         | Some d => Some (JS.trim d) | None => project_description x end
    /\ project_status x'
       = match ProjectsController.update_status body with
         | Some st => st | None => project_status x end
    /\ project_updatedAt x' = Some (clock w (clockReads w))
    /\ (forall n, ProjectsController.update_name body = Some n ->
                  allWhiteSpace n = true -> project_name x' = EmptyString).
Proof.
  intros N I U Hid.
  unfold ProjectsController.updateProject, BaseController.tryCatch.
  destruct (project_id x) as [|c k] eqn:K; [congruence|]. rewrite <- K in *.
  unfold bind at 1.
  rewrite (@updateProject_owned u _ w x N I U).
  eexists. eexists. split; [reflexivity|].
  cbn [db projects with_projects].
  split; [apply project_row_updated; assumption|].
  destruct body as [n d st].
  cbn [ProjectsController.update_name ProjectsController.update_description
       ProjectsController.update_status].
  split; [destruct n; reflexivity|]. split; [destruct d; reflexivity|].
  split; [destruct st; reflexivity|]. split; [reflexivity|].
  intros m E B. inversion E. subst. cbn. apply trim_blank. exact B.
Qed.

(** [PATCH /api/mcp/:serverId/toggle] on a server of the caller answers
    with the toggled server and a message that names the state the server
    is now in: [enabled] when the stored value was [false] (or [NULL]),
    [disabled] when it was [true]. *)
Theorem toggleServer_controller_message u w (s : MCPServer) :
  NoDup (map mcp_id (mcpServers (db w))) ->
  In s (mcpServers (db w)) ->
  mcp_userId s = u ->
  mcp_id s <> EmptyString ->
  exists s' w',
    MCPServersController.toggleServer u (Some (mcp_id s)) w
    = (BaseController.SuccessResponse
         (s', match mcp_enabled s' with
              | Some true => "MCP server enabled successfully"
              | _ => "MCP server disabled successfully"
              end), w')
    /\ filter (MCPServersService.serverIs (mcp_id s)) (mcpServers (db w'))
       = [s']
    /\ mcp_enabled s'
       = match mcp_enabled s with
         | Some true => Some false
         | _ => Some true
         end.
Proof.
  intros N I U Hid.
  unfold MCPServersController.toggleServer, BaseController.tryCatch.
  destruct (mcp_id s) as [|c k] eqn:K; [congruence|]. rewrite <- K in *.
  unfold bind at 1.
  rewrite (@toggleServer_owned u w s N I U).
  eexists. eexists. split.
  - cbn [ret]. unfold ret. f_equal. f_equal. f_equal.
    cbn. destruct (mcp_enabled s) as [[|]|]; reflexivity.
  - cbn [db mcpServers with_mcpServers].
    split; [apply server_row_updated; assumption|].
    cbn. destruct (mcp_enabled s) as [[|]|]; reflexivity.
Qed.

(** When the identifier drawn for a new project or server is already in
    use, the insert fails on the primary key; the controller answers 500
    with its generic message and nothing is stored. *)
Theorem create_on_used_identifier_is_500 u w :
  (forall body name,
      ProjectsController.body_name body = Some name ->
      allWhiteSpace name = false ->
      In (idSupply w (idsDrawn w)) (map project_id (projects (db w))) ->
      exists w',
        ProjectsController.createProject (BaseController.BodySuccess body) u w
        = (BaseController.ErrorResponse "Failed to create project" 500, w')
        /\ db w' = db w)
  /\ (forall body name url,
         MCPServersController.body_name body = Some name ->
         allWhiteSpace name = false ->
         MCPServersController.body_url body = Some url ->
         allWhiteSpace url = false ->
         In (idSupply w (idsDrawn w)) (map mcp_id (mcpServers (db w))) ->
         exists w',
           MCPServersController.createServer (BaseController.BodySuccess body)
             u w
           = (BaseController.ErrorResponse "Failed to create MCP server" 500,
              w')
           /\ db w' = db w).
Proof.
  assert (T : forall s, allWhiteSpace s = false -> JS.truthy (JS.trim s) = true).
  { intros s H. destruct (JS.truthy (JS.trim s)) eqn:E; [reflexivity|].
    apply trim_falsy_iff in E. congruence. }
  assert (X : forall {R} (key : R -> string) k (l : list R),
             In k (map key l) ->
             existsb (fun q => String.eqb (key q) k) l = true).
  { intros R key k l H. apply in_map_iff in H. destruct H as (q & E & I).
    apply existsb_exists. exists q. split; [exact I|].
    apply String.eqb_eq. exact E. }
  split.
  - intros body name Hn Hw Hused.
    unfold ProjectsController.createProject, BaseController.tryCatch.
    rewrite Hn, (T name Hw). cbn [negb].
    unfold ProjectsService.createProject, insertProject. run_effects.
    cbn [project_id]. rewrite (X _ project_id _ _ Hused). run_effects.
    eexists. split; reflexivity.
  - intros body name url Hn Hw Hu Hv Hused.
    unfold MCPServersController.createServer, BaseController.tryCatch.
    rewrite Hn, (T name Hw), Hu, (T url Hv). cbn [negb].
    unfold MCPServersService.createServer, insertMcpServer. run_effects.
    cbn [mcp_id]. rewrite (X _ mcp_id _ _ Hused). run_effects.
    eexists. split; reflexivity.
Qed.

(** ** Links and lists *)

Section LinksAndLists.

Lemma getProjectApps_owned u p w :
  ownsProject u p (db w) ->
  ProjectsService.getProjectApps u p w
  = (Ok (flat_map
           (fun pa => filter (fun a => String.eqb (pa_appId pa) (app_id a))
                             (apps (db w)))
           (filter (ProjectsService.linkOf p) (projectApps (db w)))), w).
Proof.
  intros O. destruct (owned_project_found O) as (y & E).
  unfold ProjectsService.getProjectApps. run_effects. rewrite E.
  run_effects. rewrite join_rows. reflexivity.
Qed.

Lemma getProject_owned u p w :
  ownsProject u p (db w) ->
  exists x,
    In x (projects (db w)) /\ project_id x = p /\ project_userId x = u
    /\ ProjectsService.getProject u p w
       = (Ok (Some (ProjectsService.mkProjectWithAppCount x
                      (Z.of_nat
                         (List.length
                            (filter (ProjectsService.linkOf p)
                                    (projectApps (db w))))))), w).
Proof.
  intros (x & I & Hp & Hu).
  destruct (first_filter_found (ProjectsService.ownedProject u p) _ _ I)
    as (y & E & J & F); [apply ownedProject_iff; auto|].
  apply ownedProject_iff in F. destruct F as [F1 F2].
  exists y. repeat split; auto.
  unfold ProjectsService.getProject. run_effects. rewrite E.
  run_effects. reflexivity.
Qed.

Lemma one_app_per_link (k : string) (l : list App) :
  NoDup (map app_id l) ->
  (exists a, In a l /\ app_id a = k) ->
  List.length (filter (fun a => String.eqb k (app_id a)) l) = 1%nat.
Proof.
  intros N (a & I & <-).
  rewrite (filter_ext _ (fun q => String.eqb (app_id q) (app_id a)))
    by (intros q; apply String.eqb_sym).
  rewrite (@filter_key_unique _ app_id a l N I). reflexivity.
Qed.

End LinksAndLists.

(** After [addAppToProject] has linked an app of the caller to a project
    of the caller, [getProjectApps] lists that app; after
    [removeAppFromProject] has taken the link away again, no app with
    that identifier is listed any more. *)
Theorem link_then_list_then_unlink u p (app : App) w :
  ownsProject u p (db w) ->
  In app (apps (db w)) ->
  app_userId app = u ->
  (filter (ProjectsService.linkIs p (app_id app)) (projectApps (db w)) = [] ->
   ~ In (idSupply w (idsDrawn w)) (map pa_id (projectApps (db w)))) ->
  exists w1 rows1 w2 rows2,
    ProjectsService.addAppToProject u p (app_id app) w = (Ok true, w1)
    /\ ProjectsService.getProjectApps u p w1 = (Ok rows1, w1)
    /\ In app rows1
    /\ ProjectsService.removeAppFromProject u p (app_id app) w1
       = (Ok true, w2)
    /\ ProjectsService.getProjectApps u p w2 = (Ok rows2, w2)
    /\ (forall r, In r rows2 -> app_id r <> app_id app).
Proof.
  intros O Ia Ua Hfresh.
  assert (Own : (exists proj, In proj (projects (db w))
                              /\ project_id proj = p
                              /\ project_userId proj = u)
                /\ (exists a0, In a0 (apps (db w))
                               /\ app_id a0 = app_id app
                               /\ app_userId a0 = u)).
  { split; [exact O|]. exists app. auto. }
  assert (A : exists w1,
             ProjectsService.addAppToProject u p (app_id app) w = (Ok true, w1)
             /\ projects (db w1) = projects (db w)
             /\ apps (db w1) = apps (db w)
             /\ exists l, In l (projectApps (db w1))
                          /\ pa_projectId l = p
                          /\ pa_appId l = app_id app).
  { destruct (filter (ProjectsService.linkIs p (app_id app))
                     (projectApps (db w))) as [|l ls] eqn:L.
    - eexists. split;
        [apply (@addAppToProject_new u p (app_id app) w Own L
                  (Hfresh eq_refl))|].
      cbn [db projects apps projectApps with_projectApps].
      split; [reflexivity|]. split; [reflexivity|].
      eexists. split; [apply in_or_app; right; left; reflexivity|].
      split; reflexivity.
    - exists w. split.
      + apply (@addAppToProject_existing u p (app_id app) w Own).
        rewrite L. discriminate.
      + split; [reflexivity|]. split; [reflexivity|].
        exists l.
        assert (J : In l (filter (ProjectsService.linkIs p (app_id app))
                                 (projectApps (db w))))
          by (rewrite L; left; reflexivity).
        apply filter_In in J. destruct J as [J F].
        apply linkIs_iff in F. destruct F. auto. }
  destruct A as (w1 & E1 & P1 & A1 & l & Il & Lp & La).
  assert (O1 : ownsProject u p (db w1)).
  { unfold ownsProject. rewrite P1. exact O. }
  destruct (owned_project_found O1) as (y & Ey).
  exists w1. eexists. eexists. eexists.
  split; [exact E1|].
  split; [apply getProjectApps_owned; exact O1|].
  split.
  { apply in_flat_map. exists l. split.
    - apply filter_In. split; [exact Il|].
      unfold ProjectsService.linkOf. apply String.eqb_eq. exact Lp.
    - apply filter_In. split; [rewrite A1; exact Ia|].
      apply String.eqb_eq. exact La. }
  split.
  { unfold ProjectsService.removeAppFromProject. run_effects. rewrite Ey.
    run_effects. reflexivity. }
  split.
  { apply getProjectApps_owned. unfold ownsProject.
    cbn [db projects]. exact O1. }
  cbn [db projectApps apps]. intros r I.
  apply in_flat_map in I. destruct I as (k & Ik & Ir).
  apply filter_In in Ik. destruct Ik as [Ik Kp].
  unfold deleteWhere in Ik. apply filter_In in Ik. destruct Ik as [_ Kn].
  apply filter_In in Ir. destruct Ir as [_ Kr].
  apply String.eqb_eq in Kr. unfold ProjectsService.linkOf in Kp.
  unfold ProjectsService.linkIs in Kn. rewrite Kp in Kn. cbn in Kn.
  intros Eq. rewrite Kr, Eq, String.eqb_refl in Kn. discriminate Kn.
Qed.

(** For a project of the caller, the app count [getProject] reports is
    the number of apps [getProjectApps] lists, provided the apps have
    their primary key and every link row refers to a stored app. *)
Theorem appCount_is_number_of_apps u p w :
  ownsProject u p (db w) ->
  NoDup (map app_id (apps (db w))) ->
  linksReferToApps (db w) ->
  exists x rows,
    ProjectsService.getProject u p w
    = (Ok (Some (ProjectsService.mkProjectWithAppCount
                   x (Z.of_nat (List.length rows)))), w)
    /\ ProjectsService.getProjectApps u p w = (Ok rows, w).
Proof.
  intros O N F.
  destruct (@getProject_owned u p w O) as (x & _ & _ & _ & G).
  assert (H : forall links,
             (forall pa, In pa links -> In pa (projectApps (db w))) ->
             List.length links
             = List.length
                 (flat_map
                    (fun pa =>
                       filter (fun a => String.eqb (pa_appId pa) (app_id a))
                              (apps (db w)))
                    links)).
  { induction links as [|pa links IH]; intros S; [reflexivity|].
    cbn [flat_map]. rewrite length_app.
    rewrite (@one_app_per_link (pa_appId pa) _ N)
      by (apply F, S; left; reflexivity).
    simpl. f_equal. apply IH. intros q I. apply S. right. exact I. }
  exists x. eexists. split; [|apply getProjectApps_owned; exact O].
  rewrite G, <- H; [reflexivity|].
  intros pa I. apply filter_In in I. apply I.
Qed.

(** ** Writes stay with the caller *)

Section Isolation.

Context {R : Type}.

Lemma first_filter_in (f : R -> bool) (l : list R) (y : R) :
  first (filter f l) = Some y -> In y l /\ f y = true.
Proof.
  rewrite first_hd. intros H.
  assert (I : In y (filter f l)).
  { destruct (filter f l); [discriminate|]. inversion H. left. reflexivity. }
  apply filter_In in I. exact I.
Qed.

Lemma key_determines_row (key : R -> string) (x y : R) (l : list R) :
  NoDup (map key l) -> In x l -> In y l -> key x = key y -> x = y.
Proof.
  induction l as [|z l IH]; simpl; intros N Ix Iy E; [contradiction|].
  inversion N as [|? ? Hz Hl]; subst.
  destruct Ix as [->|Ix], Iy as [->|Iy]; auto.
  - exfalso. apply Hz. rewrite E. apply in_map. exact Iy.
  - exfalso. apply Hz. rewrite <- E. apply in_map. exact Ix.
Qed.

Lemma filter_updateWhere_other (g c : R -> bool) (f : R -> R) (l : list R) :
  (forall r, In r l -> c r = true -> g r = false /\ g (f r) = false) ->
  filter g (updateWhere c f l) = filter g l.
Proof.
  unfold updateWhere. induction l as [|x l IH]; simpl; intros H;
    [reflexivity|].
  rewrite IH by (intros r I; apply H; right; exact I).
  destruct (c x) eqn:C; [|reflexivity].
  destruct (H x (or_introl eq_refl) C) as [A B]. rewrite A, B. reflexivity.
Qed.

Lemma filter_deleteWhere_other (g c : R -> bool) (l : list R) :
  (forall r, In r l -> c r = true -> g r = false) ->
  filter g (deleteWhere c l) = filter g l.
Proof.
  unfold deleteWhere. induction l as [|x l IH]; simpl; intros H;
    [reflexivity|].
  rewrite <- IH by (intros r I; apply H; right; exact I).
  destruct (c x) eqn:C; simpl; [|reflexivity].
  rewrite (H x (or_introl eq_refl) C). reflexivity.
Qed.

Lemma filter_snoc_other (g : R -> bool) (x : R) (l : list R) :
  g x = false -> filter g (l ++ [x]) = filter g l.
Proof.
  intros H. rewrite filter_app. simpl. rewrite H. apply app_nil_r.
Qed.

End Isolation.

Section IsolationOfCalls.

Variables (u : string) (w : World).

Hypothesis projects_pk : NoDup (map project_id (projects (db w))).
Hypothesis servers_pk : NoDup (map mcp_id (mcpServers (db w))).

Let foreignProject (x : Project) : bool :=
  negb (String.eqb (project_userId x) u).
Let foreignServer (s : MCPServer) : bool :=
  negb (String.eqb (mcp_userId s) u).
Let foreignLink (l : ProjectApp) : bool :=
  negb (existsb (ProjectsService.ownedProject u (pa_projectId l))
                (projects (db w))).

Lemma owned_project_rows k y :
  first (filter (ProjectsService.ownedProject u k) (projects (db w)))
  = Some y ->
  forall r, In r (projects (db w)) ->
            ProjectsService.projectIs k r = true ->
            foreignProject r = false.
Proof.
  intros E r I C. apply first_filter_in in E. destruct E as [Iy Oy].
  apply ownedProject_iff in Oy. destruct Oy as [Ky Uy].
  apply String.eqb_eq in C.
  assert (r = y)
    by (apply (@key_determines_row _ project_id r y _ projects_pk I Iy);
        congruence).
  subst r. unfold foreignProject. rewrite Uy, String.eqb_refl. reflexivity.
Qed.

Lemma owned_server_rows k y :
  first (filter (MCPServersService.ownedServer u k) (mcpServers (db w)))
  = Some y ->
  forall r, In r (mcpServers (db w)) ->
            MCPServersService.serverIs k r = true ->
            foreignServer r = false.
Proof.
  intros E r I C. apply first_filter_in in E. destruct E as [Iy Oy].
  unfold MCPServersService.ownedServer in Oy.
  apply andb_true_iff in Oy. destruct Oy as [Ky Uy].
  apply String.eqb_eq in Ky, Uy, C.
  assert (r = y)
    by (apply (@key_determines_row _ mcp_id r y _ servers_pk I Iy);
        congruence).
  subst r. unfold foreignServer. rewrite Uy, String.eqb_refl. reflexivity.
Qed.

Lemma owned_project_links k y :
  first (filter (ProjectsService.ownedProject u k) (projects (db w)))
  = Some y ->
  forall l, pa_projectId l = k -> foreignLink l = false.
Proof.
  intros E l K. apply first_filter_in in E. destruct E as [Iy Oy].
  unfold foreignLink. rewrite K.
  replace (existsb _ _) with true; [reflexivity|].
  symmetry. apply existsb_exists. exists y. auto.
Qed.

Lemma server_update_isolated k y set :
  first (filter (MCPServersService.ownedServer u k) (mcpServers (db w)))
  = Some y ->
  filter foreignServer
         (updateWhere (MCPServersService.serverIs k)
                      (MCPServersService.applySet set) (mcpServers (db w)))
  = filter foreignServer (mcpServers (db w)).
Proof.
  intros E. apply filter_updateWhere_other. intros r I C.
  pose proof (@owned_server_rows k y E r I C) as F. split; exact F.
Qed.

(** What the calls leave alone. *)
Lemma perform_isolated (c : Api.Call) :
  Api.caller c = u ->
  filter foreignProject (projects (db (snd (Api.perform c w))))
  = filter foreignProject (projects (db w))
  /\ filter foreignServer (mcpServers (db (snd (Api.perform c w))))
     = filter foreignServer (mcpServers (db w))
  /\ filter foreignLink (projectApps (db (snd (Api.perform c w))))
     = filter foreignLink (projectApps (db w))
  /\ apps (db (snd (Api.perform c w))) = apps (db w).
Proof.
  intros Hc.
  destruct c as [v k|v k data|v k|v k|v k a|v k a
                 |v k|v k data|v k|v k|v k st err];
    simpl in Hc; subst v;
    unfold Api.perform, Api.answer,
      ProjectsService.getProject, ProjectsService.updateProject,
      ProjectsService.deleteProject, ProjectsService.getProjectApps,
      ProjectsService.addAppToProject, ProjectsService.removeAppFromProject,
      MCPServersService.getServer, MCPServersService.updateServer,
      MCPServersService.deleteServer, MCPServersService.toggleServer,
      MCPServersService.updateServerStatus;
    run_effects.
  - destruct (first _); run_effects; cbn [snd]; auto.
  - destruct (first _) as [y|] eqn:E; run_effects; cbn [snd db projects];
      [|auto].
    repeat split.
    apply filter_updateWhere_other. intros r I C.
    pose proof (@owned_project_rows k y E r I C) as F. split; exact F.
  - destruct (first _) as [y|] eqn:E; run_effects;
      cbn [snd db projects projectApps apps mcpServers]; [|auto].
    repeat split.
    + apply filter_deleteWhere_other. intros r I C.
      exact (@owned_project_rows k y E r I C).
    + apply filter_deleteWhere_other. intros l I C.
      apply existsb_exists in C. destruct C as (q & Iq & Eq).
      apply String.eqb_eq in Eq. apply in_map_iff in Iq.
      destruct Iq as (z & <- & Iz). apply filter_In in Iz.
      destruct Iz as [_ Kz]. apply String.eqb_eq in Kz.
      apply (@owned_project_links k y E). congruence.
  - destruct (first _); run_effects; cbn [snd]; auto.
  - destruct (first (filter (ProjectsService.ownedProject u k) _))
      as [y|] eqn:E; run_effects; [|cbn [snd]; auto].
    destruct (first (filter (ProjectsService.ownedApp u a) _));
      run_effects; [|cbn [snd]; auto].
    destruct (first (filter (ProjectsService.linkIs k a) _));
      run_effects; [cbn [snd]; auto|].
    unfold insertProjectApp. run_effects.
    destruct (existsb _ _); run_effects; [cbn [snd db]; auto|].
    destruct (existsb _ _); run_effects; [cbn [snd db]; auto|].
    cbn [snd db projects projectApps apps mcpServers].
    repeat split.
    apply filter_snoc_other. apply (@owned_project_links k y E). reflexivity.
  - destruct (first _) as [y|] eqn:E; run_effects;
      cbn [snd db projects projectApps apps mcpServers]; [|auto].
    repeat split.
    apply filter_deleteWhere_other. intros l I C.
    apply linkIs_iff in C. destruct C as [C _].
    exact (@owned_project_links k y E l C).
  - cbn [snd]. auto.
  - destruct (first _) as [y|] eqn:E; run_effects; [|cbn [snd]; auto].
    destruct (MCPServersService.data_authSecretId data) as [written|];
      [destruct (_ && _)%bool|]; run_effects;
      cbn [snd db projects projectApps apps mcpServers]; auto;
      repeat split; apply (@server_update_isolated k y _ E).
  - destruct (first _) as [y|] eqn:E; run_effects;
      cbn [snd db projects projectApps apps mcpServers]; [|auto].
    repeat split.
    apply filter_deleteWhere_other. intros r I C.
    exact (@owned_server_rows k y E r I C).
  - destruct (first _) as [y|] eqn:E; run_effects;
      cbn [snd db projects projectApps apps mcpServers]; [|auto].
    repeat split. apply (@server_update_isolated k y _ E).
  - destruct (first _) as [y|] eqn:E; run_effects;
      cbn [snd db projects projectApps apps mcpServers]; [|auto].
    repeat split. apply (@server_update_isolated k y _ E).
Qed.

End IsolationOfCalls.

(** No call of one user changes what belongs to another: under the
    primary keys, after any of the eleven ownership-checked calls of user
    [u] the projects and servers of everybody else are exactly as before,
    so are the link rows of every project [u] does not own, and so are
    the apps; this holds whether the call succeeds, answers not-found or
    throws. *)
Theorem writes_stay_with_the_caller (c : Api.Call) (w : World) :
  NoDup (map project_id (projects (db w))) ->
  NoDup (map mcp_id (mcpServers (db w))) ->
  filter (fun x => negb (String.eqb (project_userId x) (Api.caller c)))
         (projects (db (snd (Api.perform c w))))
  = filter (fun x => negb (String.eqb (project_userId x) (Api.caller c)))
           (projects (db w))
  /\ filter (fun s => negb (String.eqb (mcp_userId s) (Api.caller c)))
            (mcpServers (db (snd (Api.perform c w))))
     = filter (fun s => negb (String.eqb (mcp_userId s) (Api.caller c)))
              (mcpServers (db w))
  /\ filter (fun l =>
               negb (existsb (ProjectsService.ownedProject
                                (Api.caller c) (pa_projectId l))
                             (projects (db w))))
            (projectApps (db (snd (Api.perform c w))))
     = filter (fun l =>
                 negb (existsb (ProjectsService.ownedProject
                                  (Api.caller c) (pa_projectId l))
                               (projects (db w))))
              (projectApps (db w))
  /\ apps (db (snd (Api.perform c w))) = apps (db w).
Proof.
  intros N1 N2.
  exact (@perform_isolated (Api.caller c) w N1 N2 c eq_refl).
Qed.

(** ** The keys are kept *)

Section KeysKept.

Context {R K : Type} (key : R -> K).

Lemma NoDup_map_filter (g : R -> bool) (l : list R) :
  NoDup (map key l) -> NoDup (map key (filter g l)).
Proof.
  induction l as [|x l IH]; simpl; intros N; [constructor|].
  inversion N as [|? ? Hx Hl]; subst.
  destruct (g x); simpl; [constructor|]; auto.
  intros I. apply Hx. apply in_map_iff in I. destruct I as (q & E & I).
  apply filter_In in I. rewrite <- E. apply in_map. apply I.
Qed.

Lemma NoDup_map_snoc (x : R) (l : list R) :
  NoDup (map key l) -> ~ In (key x) (map key l) ->
  NoDup (map key (l ++ [x])).
Proof.
  intros N H. rewrite map_app. simpl.
  apply NoDup_app; [exact N|repeat constructor; intros []|].
  intros k I [<-|[]]. exact (H I).
Qed.

End KeysKept.

Section KeysKeptByCalls.

Lemma existsb_key_none {R} (key : R -> string) (k : string) (l : list R) :
  existsb (fun q => String.eqb (key q) k) l = false ->
  ~ In k (map key l).
Proof.
  intros H I. apply in_map_iff in I. destruct I as (q & E & I).
  assert (T : existsb (fun q => String.eqb (key q) k) l = true).
  { apply existsb_exists. exists q. split; [exact I|].
    apply String.eqb_eq. exact E. }
  congruence.
Qed.

Lemma existsb_pair_none (p a : string) (l : list ProjectApp) :
  existsb (fun q => (String.eqb (pa_projectId q) p
                     && String.eqb (pa_appId q) a)%bool) l = false ->
  ~ In (p, a) (map (fun pa => (pa_projectId pa, pa_appId pa)) l).
Proof.
  intros H I. apply in_map_iff in I. destruct I as (q & E & I).
  inversion E. subst.
  assert (T : existsb (fun r => (String.eqb (pa_projectId r) (pa_projectId q)
                                 && String.eqb (pa_appId r) (pa_appId q))%bool)
                      l = true).
  { apply existsb_exists. exists q. split; [exact I|].
    rewrite !String.eqb_refl. reflexivity. }
  congruence.
Qed.

Lemma projects_update_keys k set (l : list Project) :
  map project_id
      (updateWhere (ProjectsService.projectIs k)
                   (ProjectsService.applySet set) l)
  = map project_id l.
Proof.
  unfold ProjectsService.projectIs.
  apply (@updateWhere_keys _ project_id (ProjectsService.applySet set)).
  reflexivity.
Qed.

Lemma servers_update_keys k set (l : list MCPServer) :
  map mcp_id
      (updateWhere (MCPServersService.serverIs k)
                   (MCPServersService.applySet set) l)
  = map mcp_id l.
Proof.
  unfold MCPServersService.serverIs.
  apply (@updateWhere_keys _ mcp_id (MCPServersService.applySet set)).
  reflexivity.
Qed.

End KeysKeptByCalls.

(** The constraints of the migration are an invariant of the services: in
    a store where the primary keys and the unique index on
    [(projectId, appId)] hold, they hold again after any of the
    ownership-checked calls and after [createProject] and [createServer],
    whatever the arguments and whether or not the call succeeds. *)
Theorem wellFormed_is_kept (w : World) :
  wellFormed (db w) ->
  (forall c, wellFormed (db (snd (Api.perform c w))))
  /\ (forall u data,
         wellFormed (db (snd (ProjectsService.createProject u data w))))
  /\ (forall u data,
         wellFormed (db (snd (MCPServersService.createServer u data w)))).
Proof.
  intros [W1 W2 W3 W4 W5].
  assert (WF : wellFormed (db w)) by (constructor; assumption).
  split; [|split].
  - intros c.
    destruct c as [v k|v k data|v k|v k|v k a|v k a
                   |v k|v k data|v k|v k|v k st err];
      unfold Api.perform, Api.answer,
        ProjectsService.getProject, ProjectsService.updateProject,
        ProjectsService.deleteProject, ProjectsService.getProjectApps,
        ProjectsService.addAppToProject,
        ProjectsService.removeAppFromProject,
        MCPServersService.getServer, MCPServersService.updateServer,
        MCPServersService.deleteServer, MCPServersService.toggleServer,
        MCPServersService.updateServerStatus;
      run_effects.
    + destruct (first _); run_effects; exact WF.
    + destruct (first _); run_effects; cbn [snd]; run_effects; [|exact WF].
      constructor; run_effects;
        try assumption.
      rewrite projects_update_keys. exact W1.
    + destruct (first _); run_effects; cbn [snd]; run_effects; [|exact WF].
      constructor; run_effects;
        try assumption; unfold deleteWhere; apply NoDup_map_filter;
        assumption.
    + destruct (first _); run_effects; exact WF.
    + destruct (first (filter (ProjectsService.ownedProject v k) _));
        run_effects; [|exact WF].
      destruct (first (filter (ProjectsService.ownedApp v a) _));
        run_effects; [|exact WF].
      destruct (first (filter (ProjectsService.linkIs k a) _));
        run_effects; [exact WF|].
      unfold insertProjectApp. run_effects. cbn [pa_id pa_projectId pa_appId].
      repeat match goal with
             | |- context [if existsb ?f ?l then _ else _] =>
                 let E := fresh "E" in
                 destruct (existsb f l) eqn:E; run_effects
             end;
        try exact WF.
      cbn [snd]; run_effects.
      constructor; run_effects;
        try assumption.
      * apply NoDup_map_snoc; [exact W2|]. cbn [pa_id].
        apply existsb_key_none. assumption.
      * apply NoDup_map_snoc; [exact W3|]. cbn [pa_projectId pa_appId].
        apply existsb_pair_none. assumption.
    + destruct (first _); run_effects; cbn [snd]; run_effects; [|exact WF].
      constructor; run_effects;
        try assumption; unfold deleteWhere; apply NoDup_map_filter;
        assumption.
    + exact WF.
    + destruct (first _); run_effects; [|exact WF].
      destruct (MCPServersService.data_authSecretId data) as [written|];
        [destruct (_ && _)%bool|]; run_effects; cbn [snd]; run_effects;
        try exact WF;
        (constructor; run_effects; try assumption;
         rewrite servers_update_keys; exact W5).
    + destruct (first _); run_effects; cbn [snd]; run_effects; [|exact WF].
      constructor; run_effects;
        try assumption; unfold deleteWhere; apply NoDup_map_filter;
        assumption.
    + destruct (first _); run_effects; cbn [snd]; run_effects; [|exact WF].
      constructor; run_effects;
        try assumption.
      rewrite servers_update_keys. exact W5.
    + destruct (first _); run_effects; cbn [snd]; run_effects; [|exact WF].
      constructor; run_effects;
        try assumption.
      rewrite servers_update_keys. exact W5.
  - intros u data.
    unfold ProjectsService.createProject, insertProject. run_effects.
    cbn [project_id]. destruct (existsb _ _) eqn:E; run_effects;
      [exact WF|].
    cbn [snd]; run_effects. constructor; run_effects;
      try assumption.
    apply NoDup_map_snoc; [exact W1|]. cbn [project_id].
    apply existsb_key_none. exact E.
  - intros u data.
    unfold MCPServersService.createServer, insertMcpServer. run_effects.
    cbn [mcp_id]. destruct (existsb _ _) eqn:E; run_effects; [exact WF|].
    destruct (negb _); run_effects; [exact WF|].
    cbn [snd]; run_effects. constructor; run_effects;
      try assumption.
    apply NoDup_map_snoc; [exact W5|]. cbn [mcp_id].
    apply existsb_key_none. exact E.
Qed.

(** ** The further properties on the sample data *)

Lemma shared_projects_pk :
  NoDup (map project_id (projects (db Sample.sharedWorld))).
Proof. simpl. repeat constructor; simpl; intuition discriminate. Qed.

Lemma shared_servers_pk :
  NoDup (map mcp_id (mcpServers (db Sample.sharedWorld))).
Proof. simpl. repeat constructor; simpl; intuition discriminate. Qed.

Lemma shared_store_wellFormed : wellFormed (db Sample.sharedWorld).
Proof.
  constructor; simpl; repeat constructor; simpl; intuition discriminate.
Qed.

Lemma alice_owns_p1 : ownsProject "alice" "p1" (db Sample.sharedWorld).
Proof. exists Sample.alicesProject. simpl. auto. Qed.

(** Alice deletes her project in the shared store: her link goes, Bob's
    project and link stay. *)
Lemma deleteProject_cascades_witness :
  ownsProject "alice" "p1" (db Sample.sharedWorld)
  /\ exists w',
       ProjectsService.deleteProject "alice" "p1" Sample.sharedWorld
       = (Ok true, w')
       /\ projects (db w') = [Sample.bobsProject]
       /\ projectApps (db w') = [Sample.bobsLink].
Proof.
  split; [exact alice_owns_p1|].
  destruct (@deleteProject_cascades "alice" "p1" Sample.sharedWorld
              alice_owns_p1) as (w' & E & P & L & _).
  exists w'. split; [exact E|]. split; [rewrite P|rewrite L]; reflexivity.
Defined.

Lemma removeAppFromProject_idempotent_witness :
  ownsProject "alice" "p1" (db Sample.sharedWorld)
  /\ exists w',
       ProjectsService.removeAppFromProject "alice" "p1" "a1"
         Sample.sharedWorld = (Ok true, w')
       /\ projectApps (db w') = [Sample.bobsLink]
       /\ ProjectsService.removeAppFromProject "alice" "p1" "a1" w'
          = (Ok true, w').
Proof.
  split; [exact alice_owns_p1|].
  destruct (@removeAppFromProject_idempotent "alice" "p1" "a1"
              Sample.sharedWorld alice_owns_p1)
    as (w' & E & L & _ & _ & _ & _ & F).
  exists w'. split; [exact E|]. split; [rewrite L; reflexivity|exact F].
Defined.

Lemma createProject_then_getProject_witness :
  ~ In (idSupply Sample.sharedWorld (idsDrawn Sample.sharedWorld))
       (map project_id (projects (db Sample.sharedWorld)))
  /\ ~ In (idSupply Sample.sharedWorld (idsDrawn Sample.sharedWorld))
          (map pa_projectId (projectApps (db Sample.sharedWorld)))
  /\ exists x w',
       ProjectsService.createProject "bob" Sample.demo Sample.sharedWorld
       = (Ok (Some x), w')
       /\ x = mkProject "id-0" "bob" "Demo 2" None draft
                        (Some 5000) (Some 5007)
       /\ ProjectsService.getProject "bob" "id-0" w'
          = (Ok (Some (ProjectsService.mkProjectWithAppCount x 0)), w')
       /\ ProjectsService.getProject "alice" "id-0" w' = (Ok None, w').
Proof.
  assert (A : ~ In (idSupply Sample.sharedWorld (idsDrawn Sample.sharedWorld))
                   (map project_id (projects (db Sample.sharedWorld))))
    by (simpl; intuition discriminate).
  assert (B : ~ In (idSupply Sample.sharedWorld (idsDrawn Sample.sharedWorld))
                   (map pa_projectId (projectApps (db Sample.sharedWorld))))
    by (simpl; intuition discriminate).
  split; [exact A|]. split; [exact B|].
  destruct (@createProject_then_getProject "bob" Sample.demo
              Sample.sharedWorld A B)
    as (x & w' & E & X & _ & _ & G & F & _).
  exists x, w'. split; [exact E|]. split; [exact X|].
  subst x. split; [exact G|].
  apply (F "alice"). discriminate.
Defined.

Lemma createServer_defaults_then_getServer_witness :
  ~ In (idSupply Sample.sharedWorld (idsDrawn Sample.sharedWorld))
       (map mcp_id (mcpServers (db Sample.sharedWorld)))
  /\ (exists s w',
       MCPServersService.createServer "bob" Sample.bareServer
         Sample.sharedWorld = (Ok (Some s), w')
       /\ mcp_transport s = http
       /\ mcp_authType s = none
       /\ mcp_enabled s = Some true
       /\ mcp_description s = None
       /\ mcp_status s = unknown
       /\ MCPServersService.getServer "bob" (mcp_id s) w' = (Ok (Some s), w'))
  /\ secretExists (db Sample.sharedWorld) (Some "no-such-secret") = false
  /\ (exists w',
        MCPServersService.createServer "bob" Sample.danglingServer
          Sample.sharedWorld
        = (Throw (ForeignKeyViolation "mcp_servers"), w')
        /\ db w' = db Sample.sharedWorld).
Proof.
  assert (A : ~ In (idSupply Sample.sharedWorld (idsDrawn Sample.sharedWorld))
                   (map mcp_id (mcpServers (db Sample.sharedWorld))))
    by (simpl; intuition discriminate).
  split; [exact A|]. split.
  { destruct (proj1 (@createServer_defaults_then_getServer "bob"
                       Sample.bareServer Sample.sharedWorld A) eq_refl)
      as (s & w' & E & _ & _ & _ & _ & _ & T & Au & _ & D & En & St & _ & _
          & G & _).
    exists s, w'. repeat split; assumption. }
  split; [reflexivity|].
  exact (proj2 (@createServer_defaults_then_getServer "bob"
                  Sample.danglingServer Sample.sharedWorld A) eq_refl).
Defined.

Lemma updateServerStatus_frame_witness :
  NoDup (map mcp_id (mcpServers (db Sample.sharedWorld)))
  /\ In Sample.securedServer (mcpServers (db Sample.sharedWorld))
  /\ exists s' w',
       MCPServersService.updateServerStatus "bob" "s2" error
         (Some "Server returned status 503") Sample.sharedWorld
       = (Ok (Some s'), w')
       /\ mcp_status s' = error
       /\ mcp_lastError s' = Some "Server returned status 503"
       /\ mcp_lastChecked s' = Some 5000.
Proof.
  assert (I : In Sample.securedServer (mcpServers (db Sample.sharedWorld)))
    by (right; left; reflexivity).
  split; [exact shared_servers_pk|]. split; [exact I|].
  destruct (@updateServerStatus_frame "bob" error
              (Some "Server returned status 503") Sample.sharedWorld
              Sample.securedServer shared_servers_pk I eq_refl)
    as (s' & w' & E & _ & _ & S & C & L & _).
  exists s', w'. repeat split; assumption.
Defined.

Lemma testConnection_persists_outcome_witness :
  NoDup (map mcp_id (mcpServers (db Sample.sharedWorld)))
  /\ In Sample.securedServer (mcpServers (db Sample.sharedWorld))
  /\ mcp_id Sample.securedServer <> EmptyString
  /\ exists data w',
       MCPServersController.testConnection Sample.deadNetwork "bob"
         (Some "s2") Sample.sharedWorld
       = (BaseController.SuccessResponse data, w')
       /\ filter (MCPServersService.serverIs "s2") (mcpServers (db w'))
          = [mkMCPServer "s2" "bob" "Vault"
               "https://vault.example.com/health" sse bearer
               (Some "secret-9") (Some false)
               (MCPServersController.status data) (Some 5014)
               (match MCPServersController.status data with
                | connected => None
                | _ => Some (MCPServersController.test_message data)
                end)
               (Some "keeps secrets") (Some 1500) (Some 5021)].
Proof.
  assert (I : In Sample.securedServer (mcpServers (db Sample.sharedWorld)))
    by (right; left; reflexivity).
  assert (H : mcp_id Sample.securedServer <> EmptyString) by discriminate.
  split; [exact shared_servers_pk|]. split; [exact I|]. split; [exact H|].
  destruct (@testConnection_persists_outcome Sample.deadNetwork "bob"
              Sample.sharedWorld Sample.securedServer
              shared_servers_pk I eq_refl H)
    as (data & w' & E & S & _).
  exists data, w'. split; [exact E|exact S].
Defined.

Lemma missing_path_parameter_is_400_witness :
  ProjectsController.present (Some EmptyString) = None
  /\ ProjectsController.deleteProject "alice" (Some EmptyString)
       Sample.sharedWorld
     = (BaseController.ErrorResponse "Project ID is required" 400,
        Sample.sharedWorld)
  /\ MCPServersController.testConnection Sample.healthyNetwork "alice"
       (Some EmptyString) Sample.sharedWorld
     = (BaseController.ErrorResponse "Server ID is required" 400,
        Sample.sharedWorld).
Proof.
  assert (A : ProjectsController.present (Some EmptyString) = None)
    by reflexivity.
  split; [exact A|].
  destruct (@missing_path_parameter_is_400 (Some EmptyString) "alice"
              Sample.sharedWorld A)
    as (_ & _ & D & _ & _ & _ & _ & _ & _ & T).
  split; [exact D|exact (T Sample.healthyNetwork)].
Defined.

Lemma not_owned_is_404_witness :
  "p2" <> EmptyString
  /\ noOwnedProject "alice" "p2" (db Sample.sharedWorld)
  /\ ProjectsController.deleteProject "alice" (Some "p2") Sample.sharedWorld
     = (BaseController.ErrorResponse "Project not found" 404,
        Sample.sharedWorld)
  /\ ProjectsController.getProjectApps "alice" (Some "p2") Sample.sharedWorld
     = (BaseController.SuccessResponse [], Sample.sharedWorld)
  /\ "s2" <> EmptyString
  /\ noOwnedServer "alice" "s2" (db Sample.sharedWorld)
  /\ MCPServersController.testConnection Sample.healthyNetwork "alice"
       (Some "s2") Sample.sharedWorld
     = (BaseController.ErrorResponse "MCP server not found" 404,
        Sample.sharedWorld).
Proof.
  assert (A : "p2" <> EmptyString) by discriminate.
  assert (B : noOwnedProject "alice" "p2" (db Sample.sharedWorld)).
  { intros x [<-|[<-|[]]]; simpl; intros H; discriminate. }
  assert (C : "s2" <> EmptyString) by discriminate.
  assert (D : noOwnedServer "alice" "s2" (db Sample.sharedWorld)).
  { intros x [<-|[<-|[]]]; simpl; intros H; discriminate. }
  split; [exact A|]. split; [exact B|].
  destruct (proj1 (@not_owned_is_404 "alice" "p2" Sample.sharedWorld A) B)
    as (_ & _ & Del & Apps & _).
  split; [exact Del|]. split; [exact Apps|].
  split; [exact C|]. split; [exact D|].
  destruct (proj2 (@not_owned_is_404 "alice" "s2" Sample.sharedWorld C) D)
    as (_ & _ & _ & _ & T).
  exact (T Sample.healthyNetwork).
Defined.

Lemma updateServer_controller_fields_witness :
  NoDup (map mcp_id (mcpServers (db Sample.sharedWorld)))
  /\ In Sample.securedServer (mcpServers (db Sample.sharedWorld))
  /\ mcp_id Sample.securedServer <> EmptyString
  /\ (exists s' w',
       MCPServersController.updateServer
         (BaseController.BodySuccess Sample.nullingBody) "bob" (Some "s2")
         Sample.sharedWorld
       = (BaseController.SuccessResponse
            (s', "MCP server updated successfully"), w')
       /\ mcp_name s' = EmptyString
       /\ mcp_description s' = Some "keeps secrets"
       /\ mcp_authSecretId s' = None)
  /\ secretExists (db Sample.sharedWorld) (Some "no-such-secret") = false
  /\ (exists w',
        MCPServersController.updateServer
          (BaseController.BodySuccess Sample.danglingUpdateBody) "bob"
          (Some "s2") Sample.sharedWorld
        = (BaseController.ErrorResponse "Failed to update MCP server" 500, w')
        /\ db w' = db Sample.sharedWorld).
Proof.
  assert (I : In Sample.securedServer (mcpServers (db Sample.sharedWorld)))
    by (right; left; reflexivity).
  assert (H : mcp_id Sample.securedServer <> EmptyString) by discriminate.
  split; [exact shared_servers_pk|]. split; [exact I|]. split; [exact H|].
  split.
  { destruct (proj1 (@updateServer_controller_fields Sample.nullingBody "bob"
                       Sample.sharedWorld Sample.securedServer
                       shared_servers_pk I eq_refl H) eq_refl)
      as (s' & w' & E & _ & _ & _ & D & K & B).
    exists s', w'. split; [exact E|].
    split; [exact (B "   " eq_refl eq_refl)|]. split; [exact D|exact K]. }
  split; [reflexivity|].
  exact (proj2 (@updateServer_controller_fields Sample.danglingUpdateBody
                  "bob" Sample.sharedWorld Sample.securedServer
                  shared_servers_pk I eq_refl H) eq_refl).
Defined.

Lemma updateProject_controller_fields_witness :
  NoDup (map project_id (projects (db Sample.sharedWorld)))
  /\ In Sample.alicesProject (projects (db Sample.sharedWorld))
  /\ project_id Sample.alicesProject <> EmptyString
  /\ exists x' w',
       ProjectsController.updateProject
         (BaseController.BodySuccess Sample.blankingBody) "alice" (Some "p1")
         Sample.sharedWorld
       = (BaseController.SuccessResponse
            (x', "Project updated successfully"), w')
       /\ project_name x' = EmptyString
       /\ project_description x' = Some "tidy"
       /\ project_status x' = archived.
Proof.
  assert (I : In Sample.alicesProject (projects (db Sample.sharedWorld)))
    by (left; reflexivity).
  assert (H : project_id Sample.alicesProject <> EmptyString)
    by discriminate.
  split; [exact shared_projects_pk|]. split; [exact I|]. split; [exact H|].
  destruct (@updateProject_controller_fields Sample.blankingBody "alice"
              Sample.sharedWorld Sample.alicesProject
              shared_projects_pk I eq_refl H)
    as (x' & w' & E & _ & _ & D & S & _ & B).
  exists x', w'. split; [exact E|].
  split; [exact (B "  " eq_refl eq_refl)|]. split; [exact D|exact S].
Defined.

Lemma toggleServer_controller_message_witness :
  NoDup (map mcp_id (mcpServers (db Sample.sharedWorld)))
  /\ In Sample.securedServer (mcpServers (db Sample.sharedWorld))
  /\ mcp_id Sample.securedServer <> EmptyString
  /\ exists s' w',
       MCPServersController.toggleServer "bob" (Some "s2") Sample.sharedWorld
       = (BaseController.SuccessResponse
            (s', "MCP server enabled successfully"), w')
       /\ mcp_enabled s' = Some true.
Proof.
  assert (I : In Sample.securedServer (mcpServers (db Sample.sharedWorld)))
    by (right; left; reflexivity).
  assert (H : mcp_id Sample.securedServer <> EmptyString) by discriminate.
  split; [exact shared_servers_pk|]. split; [exact I|]. split; [exact H|].
  destruct (@toggleServer_controller_message "bob" Sample.sharedWorld
              Sample.securedServer shared_servers_pk I eq_refl H)
    as (s' & w' & E & _ & F).
  exists s', w'. split; [|exact F].
  rewrite F in E. exact E.
Defined.

Lemma create_on_used_identifier_is_500_witness :
  In (idSupply Sample.collidingWorld (idsDrawn Sample.collidingWorld))
     (map project_id (projects (db Sample.collidingWorld)))
  /\ (exists w',
        ProjectsController.createProject
          (BaseController.BodySuccess Sample.projectBody) "bob"
          Sample.collidingWorld
        = (BaseController.ErrorResponse "Failed to create project" 500, w')
        /\ db w' = db Sample.collidingWorld)
  /\ In (idSupply Sample.collidingServerWorld
                  (idsDrawn Sample.collidingServerWorld))
        (map mcp_id (mcpServers (db Sample.collidingServerWorld)))
  /\ (exists w',
        MCPServersController.createServer
          (BaseController.BodySuccess Sample.serverBody) "bob"
          Sample.collidingServerWorld
        = (BaseController.ErrorResponse "Failed to create MCP server" 500, w')
        /\ db w' = db Sample.collidingServerWorld).
Proof.
  assert (A : In (idSupply Sample.collidingWorld
                           (idsDrawn Sample.collidingWorld))
                 (map project_id (projects (db Sample.collidingWorld))))
    by (left; reflexivity).
  assert (B : In (idSupply Sample.collidingServerWorld
                           (idsDrawn Sample.collidingServerWorld))
                 (map mcp_id (mcpServers (db Sample.collidingServerWorld))))
    by (left; reflexivity).
  split; [exact A|].
  split; [exact (proj1 (@create_on_used_identifier_is_500 "bob"
                          Sample.collidingWorld)
                   Sample.projectBody "  Demo " eq_refl eq_refl A)|].
  split; [exact B|].
  exact (proj2 (@create_on_used_identifier_is_500 "bob"
                  Sample.collidingServerWorld)
           Sample.serverBody " Tools " " https://tools.example.com "
           eq_refl eq_refl eq_refl eq_refl B).
Defined.

Lemma link_then_list_then_unlink_witness :
  ownsProject "alice" "p1" (db Sample.world)
  /\ In Sample.alicesApp (apps (db Sample.world))
  /\ exists w1 rows1 w2 rows2,
       ProjectsService.addAppToProject "alice" "p1" "a1" Sample.world
       = (Ok true, w1)
       /\ ProjectsService.getProjectApps "alice" "p1" w1 = (Ok rows1, w1)
       /\ In Sample.alicesApp rows1
       /\ ProjectsService.removeAppFromProject "alice" "p1" "a1" w1
          = (Ok true, w2)
       /\ ProjectsService.getProjectApps "alice" "p1" w2 = (Ok rows2, w2)
       /\ (forall r, In r rows2 -> app_id r <> "a1").
Proof.
  assert (O : ownsProject "alice" "p1" (db Sample.world)).
  { exists Sample.alicesProject. simpl. auto. }
  assert (I : In Sample.alicesApp (apps (db Sample.world)))
    by (left; reflexivity).
  assert (F : filter (ProjectsService.linkIs "p1" (app_id Sample.alicesApp))
                     (projectApps (db Sample.world)) = [] ->
              ~ In (idSupply Sample.world (idsDrawn Sample.world))
                   (map pa_id (projectApps (db Sample.world))))
    by (intros _ []).
  split; [exact O|]. split; [exact I|].
  exact (@link_then_list_then_unlink "alice" "p1" Sample.alicesApp
           Sample.world O I eq_refl F).
Defined.

Lemma appCount_is_number_of_apps_witness :
  ownsProject "bob" "p2" (db Sample.sharedWorld)
  /\ NoDup (map app_id (apps (db Sample.sharedWorld)))
  /\ linksReferToApps (db Sample.sharedWorld)
  /\ exists x rows,
       ProjectsService.getProject "bob" "p2" Sample.sharedWorld
       = (Ok (Some (ProjectsService.mkProjectWithAppCount
                      x (Z.of_nat (List.length rows)))), Sample.sharedWorld)
       /\ ProjectsService.getProjectApps "bob" "p2" Sample.sharedWorld
          = (Ok rows, Sample.sharedWorld).
Proof.
  assert (O : ownsProject "bob" "p2" (db Sample.sharedWorld)).
  { exists Sample.bobsProject. simpl. auto. }
  assert (N : NoDup (map app_id (apps (db Sample.sharedWorld))))
    by exact (wf_apps_pk shared_store_wellFormed).
  assert (L : linksReferToApps (db Sample.sharedWorld)).
  { intros pa [<-|[<-|[]]];
      [exists Sample.alicesApp|exists Sample.bobsApp]; simpl; auto. }
  split; [exact O|]. split; [exact N|]. split; [exact L|].
  exact (@appCount_is_number_of_apps "bob" "p2" Sample.sharedWorld O N L).
Defined.

(** Alice deletes her project in the shared store. *)
Lemma writes_stay_with_the_caller_witness :
  NoDup (map project_id (projects (db Sample.sharedWorld)))
  /\ NoDup (map mcp_id (mcpServers (db Sample.sharedWorld)))
  /\ filter (fun x => negb (String.eqb (project_userId x) "alice"))
            (projects
               (db (snd (Api.perform (Api.DeleteProject "alice" "p1")
                                     Sample.sharedWorld))))
     = [Sample.bobsProject]
  /\ filter (fun l =>
               negb (existsb (ProjectsService.ownedProject
                                "alice" (pa_projectId l))
                             (projects (db Sample.sharedWorld))))
            (projectApps
               (db (snd (Api.perform (Api.DeleteProject "alice" "p1")
                                     Sample.sharedWorld))))
     = [Sample.bobsLink].
Proof.
  split; [exact shared_projects_pk|]. split; [exact shared_servers_pk|].
  destruct (@writes_stay_with_the_caller (Api.DeleteProject "alice" "p1")
              Sample.sharedWorld shared_projects_pk shared_servers_pk)
    as (P & _ & L & _).
  split; [exact P|exact L].
Defined.

Lemma wellFormed_is_kept_witness :
  wellFormed (db Sample.sharedWorld)
  /\ wellFormed
       (db (snd (Api.perform (Api.AddAppToProject "bob" "p2" "a2")
                             Sample.sharedWorld)))
  /\ wellFormed
       (db (snd (ProjectsService.createProject "bob" Sample.demo
                   Sample.sharedWorld))).
Proof.
  split; [exact shared_store_wellFormed|].
  destruct (@wellFormed_is_kept Sample.sharedWorld shared_store_wellFormed)
    as (A & B & _).
  split; [exact (A (Api.AddAppToProject "bob" "p2" "a2"))
         |exact (B "bob" Sample.demo)].
Defined.

Lemma server_writes_keep_enabled_boolean_witness :
  enabledIsBoolean (db Sample.sharedWorld)
  /\ enabledIsBoolean
       (db (snd (MCPServersService.toggleServer "bob" "s2"
                   Sample.sharedWorld)))
  /\ enabledIsBoolean
       (db (snd (MCPServersService.createServer "bob" Sample.bareServer
                   Sample.sharedWorld))).
Proof.
  assert (A : enabledIsBoolean (db Sample.sharedWorld))
    by (repeat constructor; discriminate).
  split; [exact A|].
  destruct (@server_writes_keep_enabled_boolean Sample.sharedWorld A)
    as (C & _ & T & _).
  split; [exact (T "bob" "s2")|exact (C "bob" Sample.bareServer)].
Defined.
